(* ===== verification/_CoqProject ===== *)
-Q . S2P
Prelude.v
PyValue.v
UrlTemplate.v
UrlLoop.v
HttpDate.v
Calendar.v
Context.v
Resource.v
Responses.v
LastModified.v
Factories.v
Aliasing.v
Refinement.v
