(* ===== verification/Prelude.v ===== *)
(** * restosaur's response layer, verified

    restosaur ([src/restosaur/]) builds hyperlinked JSON responses on top
    of Django.  A dispatcher (outside [src/]) builds a [Context] per
    request (context.py); the handler asks the context for a response
    ([ctx.Response(...)], [ctx.ValidationError(...)]...), which forwards to a
    class of responses.py; the dispatcher then calls
    [response.serialize(data, representation)], which asks the context's
    [Resource] for a converter and its declared links, whose uris are built
    from URL templates (urltemplate.py).

    ** Files and what they model

    - [Prelude] (this file): the Python exceptions the code raises
      ([AttributeError], [TypeError], [ValueError]), the [result] monad with
      its notation [x <- m ;; k] in [py_scope], loops in the monad ([rmapM]
      for [map], [rfold] for a [for] loop with an accumulator), string
      lemmas, the [py] hint databases.
    - [PyValue]: Python values ([pyval]: None, bool, int, str, list,
      generator, dict) and the builtins the code calls: truthiness,
      [d.get], [k in d], [d[k] = v], [d.pop(k, None)], [d.update(x)],
      [iter], [len], [str.upper], [str]/[repr].  Dicts are association
      lists in insertion order; [dict_abs] maps them to stdpp's [gmap].
    - [UrlTemplate] (urltemplate.py): [RE_PARAMS] as a left-to-right scan
      ([match_param], [scan], [findall], [re_sub]), Python's [str.replace]
      ([str_replace]), and the module's [to_url], [remove_parameters],
      [to_django_urlpattern].
    - [UrlLoop] (urltemplate.py, the [for] loops of [to_url] and
      [remove_parameters]): a [loop_state] is [uri] and the pairs not yet
      processed; [to_url_step] is one iteration, with a step for the
      replacement and one for [except KeyError: pass], [remove_step] one
      iteration of [remove_parameters]; [to_url_next] is the executable
      step.
    - [HttpDate]: the [datetime] record and the class [HttpDate] standing
      for Django's [http_date(times.to_unix(dt))]; the response theorems
      hold for every instance.
    - [Calendar]: the library code behind that call, from its published
      sources (not in [src/]): CPython's [datetime] ordinals ([_ymd2ord],
      [_ord2ymd] and their tables), [calendar.timegm] as [times.to_unix]
      uses it, [time.gmtime] by its POSIX definition, and
      [email.utils.formatdate(usegmt=True)] as Django's [http_date]; the
      instance [calendar_http_date] of [HttpDate].
    - [LastModified]: the RFC 7231 IMF-fixdate of a datetime, written
      from the RFC, and the header [set_last_modified] writes with the
      [Calendar] instance.
    - [Context] (context.py): the [Context] record, [__init__],
      [build_absolute_uri], [deserialized], and the [parameters] attribute
      that [__init__] does not create ([getattr_parameters]).
    - [Resource]: the class [ResourceRegistry], what responses use of the
      resource class that is not in [src/] (representations, [convert],
      [_links], [uri]), modelled from the spec.
    - [Responses] (responses.py): the classes as the inductive [rclass],
      the object as the record [response], each [__init__]
      ([Response___init__], [CreatedResponse_new]...), [set_last_modified],
      [get_converter], [_serialize_links] (loop body [serialize_link]),
      [_add_links], [Response.serialize], [CollectionResponse.serialize]
      and the dispatch [serialize].
    - [Factories] (context.py): the factory methods of [Context] and
      which names resolve ([context_factory], [getattr_factory]).
    - [Aliasing] (responses.py, [serialize] and [_add_links] again): the
      same methods over a store of dict objects.  [hval] is a value whose dicts
      are references to the [store] ([objs] from locations to dicts,
      [next] the next free location); [alloc] is a dict display or [{}],
      [write] an in-place mutation, [h_update] is [dict.update] on an
      object (copying the references its argument holds), [alloc_py] the
      fresh links dict [_serialize_links] builds.  [Response_serialize_h],
      [CollectionResponse_serialize_h] and [_add_links_h] are the three
      methods line by line; the converter is the class [HeapConverter];
      [serialize_each] is a caller serializing several responses in turn
      with one [extra] through one store.
    - [Refinement]: the store model against the value model.  [deref]
      reads an object back as a value, [reach] lists the objects a read
      visits, [agree_except] says a store keeps the objects of an earlier
      one but a few, and [converter_coherent] and
      [converter_errors_coherent] relate a [HeapConverter] to the
      [ResourceRegistry]'s converter, on results and on exceptions; the
      demo converters include one that raises [TypeError] on anything
      but a dict ([StrictConverter]).

    ** What is proved

    - Serialization (Responses, C1-C9, C12): the three branches of
      [Response.serialize] (empty payload, raw data for a non-2xx status,
      converted data for 2xx), the 2xx payload as a finite map ([extra]
      overridden by the converted data, the links entry updated), the
      links block, the [AttributeError] raised when [context.parameters]
      was never set (end to end from [Context.__init__] in Factories,
      C6), [add_links] false still emitting [_links: {}], the collection
      envelope and the [TypeError] on a generator without [totalCount],
      and a [NoContentResponse] given data sending a dict with links (C12).
    - Headers (C13-C15): the [Last-Modified] header [set_last_modified]
      writes, with the libraries of [Calendar], is the RFC 7231
      IMF-fixdate of the datetime itself, against a specification
      written apart from the code ([LastModified.imf_fixdate]: the day
      name from the year-by-year day count, digits printed one by one)
      (C13); [set_last_modified] sets or removes that header and keeps
      the others (C14); [__init__] copies the [headers] argument and adds
      [Last-Modified] when [last_modified] is given (C15).
    - URL templates (C10-C11, C16-C20, C23-C24, C28-C29):
      [RE_PARAMS.findall] returns whole matches of [(/:([a-zA-Z_]+))]:
      the needle is ["/:" ++ key], the key a non-empty run of the class
      spelled by its ASCII ranges ([regex_word_char]), and the match is
      greedy (C20); missing parameters are skipped (C16); [to_url]'s loop
      equals the one-pass substitution [re_sub (url_subst params)] the
      spec describes when no name is a proper prefix of another and the
      values are non-empty without ['/'] and [':'] (C23), by an invariant
      on the rendered cut ([str_replace_render], [to_url_loop]), so that
      with every name given no placeholder is left (C28); the loop, as
      the state machine [UrlLoop.to_url_step], is never stuck and always
      finishes in that one-pass result, from every state it reaches
      (C11, liveness: the invariant [loop_reach] by rule induction on
      [rtc], Section [ForLoop]); [remove_parameters]'s loop equals the
      one-pass deletion when in addition no ['/'] stands right before a
      placeholder ([slash_param_free]) (C19), so no placeholder is left
      (C10); [to_django_urlpattern] leaves no placeholder (C24).  Three
      defects of the [str.replace] strategy, each for all names and
      values: a name that is a prefix of the next one has the next one
      rewritten too (C17), deleting ["/:a"] from ["//:a:b"] creates the
      placeholder ["/:b"] (C18), and a value [":b"] turns a resolved
      template into the placeholder ["/:b"] (C29).
    - Aliasing (C21, C22, C25): [serialize] updates the caller's
      [extra[links_key]] dict in place with the links (the [extra] dict
      itself unchanged), for every converter that only allocates and
      returns a dict without the links key (C21), and for collections
      whatever the converter returns (C25); over any sequence of
      responses serialized with one [extra], every payload's links entry
      is that one dict, which accumulates the links of all of them (C22,
      by induction on the sequence with [serialize_shared_step]).
    - Refinement (C26-C27, C30-C31): when [extra[links_key]] is
      referenced only from [extra] and the data does not reach it, the
      output object of the store model reads back as the payload of the
      value model [Response_serialize] (C26): the value model is exact for
      callers that do not share that dict; when [extra] is false or has
      no links entry the same holds with no hypothesis on sharing, and
      every object of the caller is kept: for [Response.serialize] on
      each of its branches (empty payload, non-2xx data, 2xx payload, the
      last through [fresh_output_refines]) and on its errors: where the
      value model raises, in the converter or in [_serialize_links], the
      store model raises the same exception, for a converter that raises
      as the value model's does ([converter_errors_coherent]); both
      models are split after the first [output.update] ([output_init],
      [Response_serialize_2xx_split]) and their common rest is related
      once, results and exceptions together ([serialize_tail_refines])
      (C30); and for [CollectionResponse.serialize] (through
      [envelope_fresh_refines]), its items converted one by one through
      the store ([hmapM_coherent]) and its total [len(iterable)] read on
      objects (C31); when [extra[links_key]] is a dict shared with
      nothing else and neither the iterable nor [totalCount] reaches it,
      [CollectionResponse.serialize] on objects, which updates that dict
      in place, reads back as the value model too (C27): what the
      converted items and the total visit is tracked through the loop
      ([hmapM_coherent], [h_iter_deref], [total_read], [envelope_avoid]).
    - Library lemmas behind C13 (Calendar): the closed form [_ymd2ord]
      equals the Gregorian day count done year by year; [_ord2ymd] and
      [_ymd2ord] are inverse on valid dates and on all ordinals, so the
      assertions of [_ord2ymd] hold; [time.gmtime] gives back the fields
      of a datetime from [times.to_unix]; the year part by the
      400/100/4/1-year digits ([year_digits], [_ord2ymd_digits]), the
      month part a finite fact checked by evaluation on the 365 + 366
      days of a year ([month_step_inverts], [month_step_onto]); the
      printed numbers agree with the digit-by-digit specification on all
      of [0 .. 99] and [0 .. 9999], also by evaluation.
    - The dict model refines stdpp's finite maps ([dict_abs_set],
      [dict_abs_pop], [dict_abs_merge]), which C1 and C8 use.

    ** Fuel

    The scan and [str.replace] recurse on fuel; each step consumes at
    least one character (a placeholder at least three, a non-empty
    [old] at least one), so [length s + 1] steps suffice: [scan_total] and
    [replace_fuel_enough] show more fuel changes nothing, and [scan_eq],
    [str_replace_eq] are the unfolding equations the proofs use.  [deref]
    (reading an object back) has a depth bound as fuel: a read that
    succeeds gives the same value and visits the same objects with more
    fuel ([deref_mono]), so the theorems state reads with some fuel.
    [Calendar.decimal] prints a number with [log2 n + 1] steps, one
    digit per step, which is at least its number of digits.

    ** Not modelled, and why

    The request object (the host framework's), [utils] (imported, not in
    [src/]), [is_modified_since], [parse_http_date] and
    [build_absolute_uri] with parameters (in the spec and tests, absent
    from the sources: there is no code to translate).  Aware datetimes
    ([tzinfo]) are not modelled: [to_unix] takes the fields as UTC.  The
    value model of [Responses] copies dicts; the sharing of dict objects
    is modelled in [Aliasing] for [Response.serialize] and
    [CollectionResponse.serialize].  Generators are values ([PIter],
    [HIter]), not objects with a position: one call consumes a generator
    ([map] then [len], C9), but a second [serialize] over the same
    generator, which Python would see exhausted, is not modelled.  A
    converter returning a dict that already holds the links key (which
    [_add_links] would then update in place) is outside the refinement
    theorems, whose hypotheses exclude it. *)

From stdpp Require Import base list strings gmap.
From Stdlib Require Import ZArith.

(** The [All] predicates of lists and pairs, so that the induction
    principles of the nested value types (a Python value holding lists
    and dicts of values) carry hypotheses for the nested values. *)
Scheme All for list.
Scheme All for prod.

(** ** Python exceptions and the result monad

    Every operation of the modelled code that can raise returns a
    [result]: [Ok v] when the Python code returns [v], [Raise e] when it
    raises the exception [e].  The exceptions are the ones the modelled
    lines can raise: [AttributeError] (a missing attribute such as
    [context.parameters] or [.update] on a non-dict), [TypeError] (a value
    that is not iterable, not sized, or not a mapping) and [ValueError]
    (a [dict.update] sequence element that is not a pair). *)

Inductive exn :=
| AttributeError (attr : string)
| TypeError (msg : string)
| ValueError (msg : string).

Inductive result (A : Type) :=
| Ok (a : A)
| Raise (e : exn).
Arguments Ok {A} a.
Arguments Raise {A} e.

Definition rbind {A B} (m : result A) (f : A -> result B) : result B :=
  match m with
  | Ok a => f a
  | Raise e => Raise e
  end.

Definition rmap {A B} (f : A -> B) (m : result A) : result B :=
  match m with
  | Ok a => Ok (f a)
  | Raise e => Raise e
  end.

Declare Scope py_scope.
Delimit Scope py_scope with py.
Notation "x <- m ;; k" := (rbind m (fun x => k))
  (at level 100, m at next level, right associativity) : py_scope.
Open Scope py_scope.

(** [mapM] over a list: Python's [map(f, xs)] where [f] may raise;
    the first exception (left to right) is the one propagated. *)
Fixpoint rmapM {A B} (f : A -> result B) (xs : list A) : result (list B) :=
  match xs with
  | [] => Ok []
  | x :: xs' => y <- f x ;; ys <- rmapM f xs' ;; Ok (y :: ys)
  end.

(** [for x in xs: acc = f(acc, x)] where the body may raise. *)
Fixpoint rfold {A B} (f : B -> A -> result B) (acc : B) (xs : list A) : result B :=
  match xs with
  | [] => Ok acc
  | x :: xs' => acc' <- f acc x ;; rfold f acc' xs'
  end.

(** [mapping.get(k)] on an association list whose values are not
    Python values (e.g. a dict of converter functions). *)
Fixpoint assoc_get {A} (k : string) (l : list (string * A)) : option A :=
  match l with
  | [] => None
  | (k', a) :: l' => if decide (k = k') then Some a else assoc_get k l'
  end.

(** ** Generic lemmas on the result monad *)

Create HintDb py.
Create Rewrite HintDb py_rw.

Lemma rbind_Ok {A B} (a : A) (f : A -> result B) : rbind (Ok a) f = f a.
Proof. reflexivity. Qed.

Lemma rbind_Raise {A B} (e : exn) (f : A -> result B) : rbind (Raise e) f = Raise e.
Proof. reflexivity. Qed.

Lemma rbind_Ok_inv {A B} (m : result A) (f : A -> result B) (b : B) :
  rbind m f = Ok b -> exists a, m = Ok a /\ f a = Ok b.
Proof. destruct m; simpl; [eauto | discriminate]. Qed.

Lemma rbind_assoc {A B C} (m : result A) (f : A -> result B) (g : B -> result C) :
  rbind (rbind m f) g = rbind m (fun a => rbind (f a) g).
Proof. by destruct m. Qed.

Lemma rmapM_length {A B} (f : A -> result B) xs ys :
  rmapM f xs = Ok ys -> length ys = length xs.
Proof.
  revert ys; induction xs as [|x xs IH]; intros ys H; simpl in H.
  - by injection H as <-.
  - destruct (f x); [|discriminate]. simpl in H.
    destruct (rmapM f xs) eqn:E; [|discriminate]. simpl in H.
    injection H as <-. simpl. by rewrite (IH _ eq_refl).
Qed.

(** A total function lifted into the monad maps as [map]. *)
Lemma rmapM_Ok {A B} (f : A -> B) xs : rmapM (fun x => Ok (f x)) xs = Ok (map f xs).
Proof. induction xs as [|x xs IH]; simpl; [done|]. by rewrite IH. Qed.

(** An invariant of the accumulator holds after a loop that returns. *)
Lemma rfold_invariant {A B} (P : B -> Prop) (f : B -> A -> result B) acc xs r :
  P acc ->
  (forall acc x acc', P acc -> f acc x = Ok acc' -> P acc') ->
  rfold f acc xs = Ok r -> P r.
Proof.
  revert acc. induction xs as [|x xs IH]; intros acc Hacc Hf Hr; simpl in Hr.
  - by injection Hr as <-.
  - destruct (f acc x) as [acc'|] eqn:E; [|discriminate]. simpl in Hr.
    exact (IH acc' (Hf _ _ _ Hacc E) Hf Hr).
Qed.

#[export] Hint Rewrite @rbind_Ok @rbind_Raise @rbind_assoc : py_rw.

(** [inv_bind H] splits a hypothesis [rbind m f = Ok b] into the
    successful run of [m] and of its continuation. *)
Ltac inv_bind H :=
  let a := fresh "a" in
  let Hm := fresh "Hm" in
  let Hk := fresh "Hk" in
  apply rbind_Ok_inv in H as (a & Hm & Hk).

(** ** Generic lemmas on strings (String.string, appended with [+:+]) *)

(** stdpp makes [String.app] opaque to [simpl]; these two equations
    are its computation rules, used by rewriting. *)
Lemma string_app_nil_l (s : string) : "" +:+ s = s.
Proof. reflexivity. Qed.

Lemma string_app_cons (c : Ascii.ascii) (s1 s2 : string) :
  String c s1 +:+ s2 = String c (s1 +:+ s2).
Proof. reflexivity. Qed.

Lemma string_app_nil_r (s : string) : s +:+ "" = s.
Proof. induction s as [|c s IH]; [done|]. by rewrite string_app_cons, IH. Qed.

Lemma string_app_assoc (s1 s2 s3 : string) : s1 +:+ (s2 +:+ s3) = (s1 +:+ s2) +:+ s3.
Proof. induction s1 as [|c s1 IH]; [done|]. by rewrite !string_app_cons, IH. Qed.

Lemma list_ascii_of_string_app (s1 s2 : string) :
  String.list_ascii_of_string (s1 +:+ s2) = String.list_ascii_of_string s1 ++ String.list_ascii_of_string s2.
Proof. induction s1 as [|c s1 IH]; [done|]. rewrite string_app_cons. cbn. by rewrite IH. Qed.

Lemma string_length_app (s1 s2 : string) :
  String.length (s1 +:+ s2) = String.length s1 + String.length s2.
Proof. induction s1 as [|c s1 IH]; [done|]. rewrite string_app_cons; simpl. by rewrite IH. Qed.

#[export] Hint Rewrite string_app_nil_l string_app_cons string_app_nil_r string_length_app : py_rw.

(** Induction on strings by their length (for recursions that drop
    more than one character). *)
(** Two ways of cutting the same string: one prefix extends the other. *)
Lemma string_app_eq_app (a x b r : string) :
  a +:+ x = b +:+ r ->
  (exists c, b = a +:+ c /\ x = c +:+ r) \/ (exists c, a = b +:+ c /\ r = c +:+ x).
Proof.
  revert b. induction a as [|ca a IH]; intros b Heq.
  - left. exists b. by rewrite string_app_nil_l in *.
  - destruct b as [|cb b].
    + right. exists (String ca a). by rewrite string_app_nil_l in *.
    + rewrite !string_app_cons in Heq. injection Heq as <- Heq.
      destruct (IH b Heq) as [(c & -> & ->)|(c & -> & ->)]; [left|right]; exists c; done.
Qed.

Lemma string_len_ind (P : string -> Prop) :
  (forall s, (forall s', String.length s' < String.length s -> P s') -> P s) ->
  forall s, P s.
Proof.
  intros Hstep s. remember (String.length s) as n eqn:Hn.
  revert s Hn. induction n as [n IH] using lt_wf_ind. intros s ->.
  apply Hstep. intros s' Hs'. by apply (IH _ Hs').
Qed.


