(* ===== verification/PyValue.v ===== *)
(** * Python values and dictionaries

    The values that flow through restosaur's response layer: the data a
    handler passes to a response, the [extra] mapping, the converters'
    outputs and the serialized payload.  A [pyval] is a JSON-like Python
    value; dictionaries are association lists with Python's [dict]
    semantics written out: [d[k] = v] overwrites in place or appends,
    [d.update(e)] assigns every entry of [e] in order, [d.pop(k, None)]
    removes the key.  [dict_abs] maps a dictionary to a stdpp [gmap]; the
    refinement lemmas at the end show the list operations implement the
    finite-map operations [<[k:=v]>], [delete] and [∪]. *)

From stdpp Require Import base list strings gmap.
From Stdlib Require Import ZArith DecimalString.
From S2P Require Import Prelude.

(** ** Values *)

(** [PIter] is a one-shot iterator (a generator): iterable, not sized. *)
Inductive pyval :=
| PNone
| PBool (b : bool)
| PInt (z : Z)
| PStr (s : string)
| PList (xs : list pyval)
| PIter (xs : list pyval)
| PDict (kvs : list (string * pyval)).

Abbreviation dict := (list (string * pyval)).

(** [bool(v)]: None, False, 0, "", [] and {} are false; an iterator
    object is always true. *)
Definition py_truthy (v : pyval) : bool :=
  match v with
  | PNone => false
  | PBool b => b
  | PInt z => negb (Z.eqb z 0)
  | PStr s => match s with EmptyString => false | _ => true end
  | PList xs => match xs with [] => false | _ => true end
  | PIter _ => true
  | PDict kvs => match kvs with [] => false | _ => true end
  end.

(** [v is None] *)
Definition is_none (v : pyval) : bool :=
  match v with PNone => true | _ => false end.

(** [v or {}] *)
Definition or_empty_dict (v : pyval) : pyval :=
  if py_truthy v then v else PDict [].

(** ** Dictionary operations

    Over any value type: the response model stores Python values, the
    object-store model of [Aliasing] stores values that may be references. *)

Section DictOps.
Context {V : Type}.
Implicit Types (d : list (string * V)).

(** [d.get(k)] *)
Fixpoint dict_get (k : string) (d : list (string * V)) : option V :=
  match d with
  | [] => None
  | (k', v) :: d' => if decide (k = k') then Some v else dict_get k d'
  end.

(** [k in d] *)
Definition dict_contains (k : string) (d : list (string * V)) : bool :=
  match dict_get k d with Some _ => true | None => false end.

(** [d[k] = v]: an existing key keeps its position, a new key is
    appended (insertion order). *)
Fixpoint dict_set (k : string) (v : V) (d : list (string * V)) : list (string * V) :=
  match d with
  | [] => [(k, v)]
  | (k', v') :: d' =>
      if decide (k = k') then (k, v) :: d' else (k', v') :: dict_set k v d'
  end.

(** [d.pop(k, None)], as a statement: the key is gone afterwards. *)
Definition dict_pop (k : string) (d : list (string * V)) : list (string * V) :=
  filter (fun kv => kv.1 ≠ k) d.

(** [d1.update(d2)] for a dict [d2]: its entries are assigned in order. *)
Definition dict_merge (d1 d2 : list (string * V)) : list (string * V) :=
  foldl (fun acc kv => dict_set kv.1 kv.2 acc) d1 d2.

(** [d.keys()], and a Python dict has each key once. *)
Definition dict_keys (d : list (string * V)) : list string := map fst d.

Definition dict_wf (d : list (string * V)) : Prop := NoDup (dict_keys d).

End DictOps.

(** ** Iteration, [len] and [dict.update] on an arbitrary value *)

(** [iter(v)]: a dict iterates over its keys, a string over its
    one-character strings. *)
Definition py_iter (v : pyval) : result (list pyval) :=
  match v with
  | PList xs | PIter xs => Ok xs
  | PDict kvs => Ok (map (fun kv => PStr kv.1) kvs)
  | PStr s => Ok (map (fun c => PStr (String c EmptyString)) (String.list_ascii_of_string s))
  | _ => Raise (TypeError "object is not iterable")
  end.

(** [len(v)]: a generator has no length. *)
Definition py_len (v : pyval) : result Z :=
  match v with
  | PList xs => Ok (Z.of_nat (length xs))
  | PStr s => Ok (Z.of_nat (String.length s))
  | PDict kvs => Ok (Z.of_nat (length kvs))
  | _ => Raise (TypeError "object has no len()")
  end.

(** One element of the sequence form of [d.update(seq)]: it must be a
    sequence of length 2.  Keys of the model's dicts are strings, so a
    pair with a key of another type is refused (Python would accept a
    hashable non-string key). *)
Definition update_pair (d : dict) (x : pyval) : result dict :=
  match py_iter x with
  | Ok [PStr k; v] => Ok (dict_set k v d)
  | Ok [_; _] => Raise (TypeError "dictionary key is not a string")
  | Ok _ => Raise (ValueError "dictionary update sequence element has length other than 2")
  | Raise _ => Raise (TypeError "cannot convert dictionary update sequence element to a sequence")
  end.

(** [d.update(x)]: a mapping is merged; any other iterable must yield
    pairs; a non-iterable raises [TypeError]. *)
Definition py_update (d : dict) (x : pyval) : result dict :=
  match x with
  | PDict d2 => Ok (dict_merge d d2)
  | _ => elems <- py_iter x ;; rfold update_pair d elems
  end.

(** ** Strings of values *)

(** [s.upper()] on a Python 2 byte string: ASCII letters only. *)
Definition ascii_upper (c : Ascii.ascii) : Ascii.ascii :=
  let n := Ascii.nat_of_ascii c in
  if (97 <=? n) && (n <=? 122) then Ascii.ascii_of_nat (n - 32) else c.

Fixpoint str_upper (s : string) : string :=
  match s with
  | EmptyString => EmptyString
  | String c s' => String (ascii_upper c) (str_upper s')
  end.

Definition string_of_Z (z : Z) : string := NilEmpty.string_of_int (Z.to_int z).

Fixpoint join (sep : string) (xs : list string) : string :=
  match xs with
  | [] => ""
  | [x] => x
  | x :: xs' => x +:+ sep +:+ join sep xs'
  end.

(** [repr(v)].  Strings are quoted with single quotes and not escaped,
    and a generator's repr (which holds its address) is abbreviated:
    both are approximations of CPython's output. *)
Fixpoint py_repr (v : pyval) : string :=
  match v with
  | PNone => "None"
  | PBool true => "True"
  | PBool false => "False"
  | PInt z => string_of_Z z
  | PStr s => "'" +:+ s +:+ "'"
  | PList xs => "[" +:+ join ", " (map py_repr xs) +:+ "]"
  | PIter _ => "<generator object>"
  | PDict kvs =>
      "{" +:+ join ", " (map (fun kv => "'" +:+ kv.1 +:+ "': " +:+ py_repr kv.2) kvs) +:+ "}"
  end.

(** [str(v)], which is what ['%s' % v] inserts. *)
Definition py_str (v : pyval) : string :=
  match v with
  | PStr s => s
  | _ => py_repr v
  end.

(** The finite map a dict denotes (see the refinement lemmas below). *)
Definition dict_abs {V} (d : list (string * V)) : gmap string V := list_to_map d.

(** Closes [dict_wf] of a concrete dict. *)
Ltac solve_dict_wf := unfold dict_wf, dict_keys; simpl; repeat constructor; set_solver.

(** ** Lemmas: [d[k] = v], [d.update(e)], [d.pop(k)] against [d.get] *)

Section DictLemmas.
Context {V : Type}.
Implicit Types (d e : list (string * V)) (k : string) (v : V).

Lemma dict_get_set_eq k v d : dict_get k (dict_set k v d) = Some v.
Proof.
  induction d as [|[k' v'] d IH]; simpl; [by case_decide|].
  case_decide; simpl; case_decide; naive_solver.
Qed.

Lemma dict_get_set_ne k k' v d :
  k ≠ k' -> dict_get k' (dict_set k v d) = dict_get k' d.
Proof.
  intros Hne. induction d as [|[k'' v'] d IH]; simpl; [by case_decide|].
  repeat (case_decide; simpl); subst; congruence.
Qed.

Lemma dict_get_set k k' v d :
  dict_get k' (dict_set k v d) = if decide (k = k') then Some v else dict_get k' d.
Proof.
  case_decide; [subst; apply dict_get_set_eq | by apply dict_get_set_ne].
Qed.

Lemma dict_keys_set k v d :
  dict_keys (dict_set k v d) = if dict_contains k d then dict_keys d else dict_keys d ++ [k].
Proof.
  unfold dict_contains.
  induction d as [|[k' v'] d IH]; simpl; [done|].
  case_decide; subst; simpl; [done|].
  rewrite IH. by destruct (dict_get k d).
Qed.

Lemma dict_contains_get k d : dict_contains k d = true <-> is_Some (dict_get k d).
Proof. unfold dict_contains. destruct (dict_get k d); naive_solver. Qed.

Lemma dict_contains_get_None k d : dict_contains k d = false -> dict_get k d = None.
Proof. unfold dict_contains. by destruct (dict_get k d). Qed.

Lemma dict_get_elem k d : dict_get k d = None <-> k ∉ dict_keys d.
Proof.
  induction d as [|[k' v'] d IH]; simpl; [set_solver|].
  case_decide; subst; [set_solver|]. rewrite IH. set_solver.
Qed.

Lemma dict_wf_set k v d : dict_wf d -> dict_wf (dict_set k v d).
Proof.
  unfold dict_wf. intros Hwf. rewrite dict_keys_set.
  destruct (dict_contains k d) eqn:E; [done|].
  apply NoDup_app. split_and!; [done| |apply NoDup_singleton].
  intros x Hx Hk. apply list_elem_of_singleton in Hk as ->.
  revert Hx. apply dict_get_elem.
  unfold dict_contains in E. by destruct (dict_get k d).
Qed.

(** [update] assigns in order, so the later value of a key wins; for a
    well-formed [e] that is the value [e.get(k)]. *)
Lemma dict_get_merge k d e :
  dict_wf e ->
  dict_get k (dict_merge d e) =
    match dict_get k e with Some v => Some v | None => dict_get k d end.
Proof.
  unfold dict_wf, dict_merge. revert d.
  induction e as [|[k' v'] e IH]; intros d Hwf; simpl; [done|].
  apply NoDup_cons in Hwf as [Hk' Hwf]. simpl in Hk'.
  rewrite IH by done. rewrite dict_get_set.
  case_decide as Heq; subst.
  - rewrite decide_True by done.
    destruct (dict_get k e) eqn:E; [|done].
    exfalso. by apply dict_get_elem in Hk'; rewrite Hk' in E.
  - by rewrite decide_False by congruence.
Qed.

Lemma dict_wf_merge d e : dict_wf d -> dict_wf (dict_merge d e).
Proof.
  unfold dict_merge. revert d.
  induction e as [|[k v] e IH]; intros d Hwf; simpl; [done|].
  apply IH, dict_wf_set, Hwf.
Qed.

Lemma dict_get_pop k k' d :
  dict_get k' (dict_pop k d) = if decide (k = k') then None else dict_get k' d.
Proof.
  unfold dict_pop. induction d as [|[k'' v] d IH]; simpl; [by case_decide|].
  rewrite filter_cons. simpl.
  repeat (case_decide; simpl); subst; congruence.
Qed.

Lemma dict_contains_set k k' v d :
  dict_contains k (dict_set k' v d) = bool_decide (k = k') || dict_contains k d.
Proof.
  unfold dict_contains. rewrite dict_get_set.
  case_decide; case_bool_decide; subst; try done.
Qed.

Lemma dict_get_Some_elem k v d : dict_get k d = Some v -> (k, v) ∈ d.
Proof.
  induction d as [|[k' v'] d IH]; simpl; [done|].
  case_decide; [intros [= ->]; subst; apply list_elem_of_here|intros; by apply list_elem_of_further, IH].
Qed.

Lemma dict_contains_cons k k' v d :
  dict_contains k ((k', v) :: d) = bool_decide (k = k') || dict_contains k d.
Proof. unfold dict_contains. simpl. case_decide; case_bool_decide; done. Qed.

(** [{}.update(d)] copies a dict with distinct keys. *)
Lemma dict_merge_nil d : dict_wf d -> dict_merge [] d = d.
Proof.
  unfold dict_wf, dict_keys, dict_merge. intros Hwf.
  assert (Hgen : forall acc, NoDup (map fst (acc ++ d)) -> foldl (fun acc kv => dict_set kv.1 kv.2 acc) acc d = acc ++ d).
  { clear Hwf. induction d as [|[k v] d IH]; intros acc Hnd; simpl; [by rewrite app_nil_r|].
    assert (Hset : dict_set k v acc = acc ++ [(k, v)]).
    { rewrite map_app in Hnd. simpl in Hnd. apply NoDup_app in Hnd as (_ & Hdis & _).
      clear IH. induction acc as [|[k' v'] acc IHa]; simpl; [done|].
      case_decide as Heq; [exfalso; apply (Hdis k'); [apply list_elem_of_here|rewrite Heq; apply list_elem_of_here]|].
      f_equal. apply IHa. intros x Hx1 Hx2. apply (Hdis x); [by apply list_elem_of_further|done]. }
    rewrite Hset, IH; rewrite <- ?app_assoc; done. }
  apply (Hgen []). done.
Qed.

(** Assignments to two keys commute when one of them is in place. *)
Lemma dict_set_set k v w d : dict_set k v (dict_set k w d) = dict_set k v d.
Proof. induction d as [|[k0 v0] d IH]; simpl; repeat (case_decide; simpl); subst; try done. by rewrite IH. Qed.

Lemma dict_set_comm_in k k' v v' d :
  k <> k' -> dict_contains k d = true ->
  dict_set k' v' (dict_set k v d) = dict_set k v (dict_set k' v' d).
Proof.
  unfold dict_contains. intros Hne. induction d as [|[k0 v0] d IH]; simpl; [done|].
  intros Hc. do 2 case_decide; subst; simpl; repeat case_decide; subst; try done.
  f_equal. by apply IH.
Qed.

Lemma dict_merge_set_comm k v d e :
  dict_contains k d = true -> dict_contains k e = false ->
  dict_merge (dict_set k v d) e = dict_set k v (dict_merge d e).
Proof.
  unfold dict_merge. revert d. induction e as [|[k' v'] e IH]; intros d Hd He; simpl; [done|].
  rewrite dict_contains_cons in He. apply orb_false_iff in He as [Hk' He]. apply bool_decide_eq_false in Hk'.
  rewrite dict_set_comm_in by done. apply IH; [|done]. rewrite dict_contains_set, Hd. apply orb_true_r.
Qed.

(** Assigning a key of [e] before the update is assigning it after. *)
Lemma dict_merge_set_r k v d e :
  dict_wf e -> dict_contains k e = true ->
  dict_merge d (dict_set k v e) = dict_set k v (dict_merge d e).
Proof.
  unfold dict_wf. revert d. induction e as [|[k' v'] e IH]; intros d Hwf He; [done|].
  cbn [dict_keys map] in Hwf. apply NoDup_cons in Hwf as [Hk' Hwf]. cbn [dict_set].
  rewrite dict_contains_cons in He. case_decide as Hk.
  - subst k'. change (dict_merge (dict_set k v d) e = dict_set k v (dict_merge (dict_set k v' d) e)).
    rewrite <- dict_merge_set_comm; [by rewrite dict_set_set|by rewrite dict_contains_set, bool_decide_true|].
    apply (proj2 (dict_get_elem k e)) in Hk'. unfold dict_contains. by rewrite Hk'.
  - change (dict_merge (dict_set k' v' d) (dict_set k v e) = dict_set k v (dict_merge (dict_set k' v' d) e)).
    apply IH; [done|]. apply orb_true_iff in He as [He|He]; [by apply bool_decide_eq_true in He|done].
Qed.

(** The keys after [d.update(e)] are those of [d] and of [e]. *)
Lemma dict_keys_merge_elem k (d e : list (string * V)) :
  k ∈ dict_keys (dict_merge d e) <-> k ∈ dict_keys d \/ k ∈ dict_keys e.
Proof.
  unfold dict_merge. revert d. induction e as [|[k' v'] e IH]; intros d; simpl; [set_solver|].
  rewrite IH, dict_keys_set. destruct (dict_contains k' d) eqn:E; [|set_solver].
  assert (k' ∈ dict_keys d).
  { destruct (decide (k' ∈ dict_keys d)) as [?|Hn]; [done|]. apply dict_get_elem in Hn.
    unfold dict_contains in E. by rewrite Hn in E. }
  set_solver.
Qed.

Lemma dict_get_merge_notin k d e :
  dict_contains k e = false -> dict_get k (dict_merge d e) = dict_get k d.
Proof.
  unfold dict_merge. revert d. induction e as [|[k' v'] e IH]; intros d He; simpl; [done|].
  rewrite dict_contains_cons in He. apply orb_false_iff in He as [Hk' He]. apply bool_decide_eq_false in Hk'.
  rewrite IH by done. apply dict_get_set_ne. congruence.
Qed.

Lemma dict_contains_merge_notin k d e :
  dict_contains k e = false -> dict_contains k (dict_merge d e) = dict_contains k d.
Proof. intros He. unfold dict_contains. by rewrite dict_get_merge_notin. Qed.

End DictLemmas.

Lemma dict_contains_keys {V W} k (d : list (string * V)) (e : list (string * W)) :
  dict_keys d = dict_keys e -> dict_contains k d = dict_contains k e.
Proof.
  intros Hk. destruct (dict_contains k e) eqn:He.
  - apply dict_contains_get. destruct (dict_get k d) eqn:Hd; [done|].
    apply dict_get_elem in Hd. rewrite Hk in Hd. apply dict_get_elem in Hd.
    unfold dict_contains in He. by rewrite Hd in He.
  - unfold dict_contains in He |- *. destruct (dict_get k e) eqn:He'; [done|].
    apply dict_get_elem in He'. rewrite <- Hk in He'. apply dict_get_elem in He'. by rewrite He'.
Qed.

(** ** Refinement: the dictionary model implements a finite map

    [dict_abs d] is the finite map a Python dict denotes.  Lookups agree
    with [d.get], and [d[k] = v], [d.pop(k)] and [d.update(e)] implement
    insertion, deletion and the right-biased union of stdpp's [gmap]. *)

Section DictAbs.
Context {V : Type}.
Implicit Types (d e : list (string * V)) (k : string) (v : V).

Lemma dict_abs_lookup d k : dict_abs d !! k = dict_get k d.
Proof.
  unfold dict_abs. induction d as [|[k' v'] d IH]; simpl; [done|].
  rewrite lookup_insert. repeat case_decide; subst; congruence.
Qed.

Lemma dict_abs_set d k v : dict_abs (dict_set k v d) = <[k:=v]> (dict_abs d).
Proof.
  apply map_eq. intros k'. rewrite lookup_insert, !dict_abs_lookup.
  apply dict_get_set.
Qed.

Lemma dict_abs_pop d k : dict_abs (dict_pop k d) = delete k (dict_abs d).
Proof.
  apply map_eq. intros k'. rewrite lookup_delete, !dict_abs_lookup.
  apply dict_get_pop.
Qed.

Lemma dict_abs_merge d e :
  dict_wf e -> dict_abs (dict_merge d e) = dict_abs e ∪ dict_abs d.
Proof.
  intros Hwf. apply map_eq. intros k.
  rewrite lookup_union, !dict_abs_lookup, dict_get_merge by done.
  by destruct (dict_get k e), (dict_get k d).
Qed.
End DictAbs.

