(* ===== verification/UrlTemplate.v ===== *)
(** * URL templates ([src/restosaur/urltemplate.py])

    A URL template is a path with placeholders [/:name], [name] matching
    [[a-zA-Z_]+].  The module compiles [RE_PARAMS = '(/:([a-zA-Z_]+))'] and
    uses it three ways: [to_url] substitutes parameter values with
    [str.replace], [remove_parameters] deletes the placeholders with
    [str.replace], and [to_django_urlpattern] rewrites them with [re.sub].

    The regular expression is modelled by its left-to-right scan: at each
    position the pattern either matches (greedily) a placeholder or the
    scan moves one character on.  [scan] cuts a string into literal
    characters and placeholders; [findall] and [re_sub] read the cut.
    [str_replace] is Python's [str.replace]: every non-overlapping
    occurrence, left to right, in the current string.  Both recursions are
    on a fuel bounded by the string's length; [scan_eq] and
    [str_replace_eq] are their unfolding equations once the fuel is enough. *)

From stdpp Require Import base list strings gmap.
From Stdlib Require Import Ascii.
From S2P Require Import Prelude PyValue.

Module UrlTemplate.

(** ** The regular expression [(/:([a-zA-Z_]+))] *)

(** [[a-zA-Z_]] *)
Definition is_ident_char (c : ascii) : bool :=
  let n := nat_of_ascii c in
  ((65 <=? n) && (n <=? 90)) || ((97 <=? n) && (n <=? 122)) || (n =? 95).

(** The greedy [[a-zA-Z_]*]: the longest prefix of identifier characters
    and what follows it. *)
Fixpoint span_ident (s : string) : string * string :=
  match s with
  | String c s' =>
      if is_ident_char c then let '(m, r) := span_ident s' in (String c m, r)
      else (EmptyString, s)
  | EmptyString => (EmptyString, EmptyString)
  end.

(** [RE_PARAMS.match(s)]: the pattern at the start of [s]; the name it
    captures (group 2) and the rest of the string. *)
Definition match_param (s : string) : option (string * string) :=
  match s with
  | String "/" (String ":" t) =>
      match span_ident t with
      | (EmptyString, _) => None
      | (name, rest) => Some (name, rest)
      end
  | _ => None
  end.

(** A string cut by the scan: a literal character or a placeholder. *)
Inductive seg :=
| SLit (c : ascii)
| SParam (name : string).

Fixpoint scan_fuel (fuel : nat) (s : string) : list seg :=
  match fuel with
  | O => []
  | S fuel' =>
      match match_param s with
      | Some (name, rest) => SParam name :: scan_fuel fuel' rest
      | None =>
          match s with
          | EmptyString => []
          | String c s' => SLit c :: scan_fuel fuel' s'
          end
      end
  end.

(** Every step consumes at least one character: [length s + 1] steps. *)
Definition scan (s : string) : list seg := scan_fuel (S (String.length s)) s.

(** [RE_PARAMS.findall(s)]: with two groups, a list of pairs
    (whole match, name). *)
Definition findall (s : string) : list (string * string) :=
  omap (fun sg => match sg with
                  | SParam name => Some ("/:" +:+ name, name)
                  | SLit _ => None
                  end) (scan s).

(** [render repl segs]: the string the segments print, a placeholder
    printed by [repl]. *)
Definition render (repl : string -> string) (segs : list seg) : string :=
  foldr (fun sg acc => match sg with
                       | SParam name => repl name +:+ acc
                       | SLit c => String c acc
                       end) EmptyString segs.

(** [RE_PARAMS.sub(repl, s)] with a replacement computed from the name. *)
Definition re_sub (repl : string -> string) (s : string) : string :=
  render repl (scan s).

(** ** [str.replace(old, new)] *)

(** [old] at the start of [s]: what follows it. *)
Fixpoint strip_prefix (p s : string) : option string :=
  match p, s with
  | EmptyString, _ => Some s
  | String a p', String b s' => if decide (a = b) then strip_prefix p' s' else None
  | String _ _, EmptyString => None
  end.

Fixpoint replace_fuel (fuel : nat) (old new s : string) : string :=
  match fuel with
  | O => s
  | S fuel' =>
      match strip_prefix old s with
      | Some rest => new +:+ replace_fuel fuel' old new rest
      | None =>
          match s with
          | EmptyString => EmptyString
          | String c s' => String c (replace_fuel fuel' old new s')
          end
      end
  end.

(** [s.replace('', new)] puts [new] before every character and at the end. *)
Fixpoint interleave (new s : string) : string :=
  match s with
  | EmptyString => new
  | String c s' => new +:+ String c (interleave new s')
  end.

Definition str_replace (old new s : string) : string :=
  match old with
  | EmptyString => interleave new s
  | String _ _ => replace_fuel (S (String.length s)) old new s
  end.

(** A placeholder name: one or more of [[a-zA-Z_]]. *)
Fixpoint all_ident (s : string) : bool :=
  match s with
  | EmptyString => true
  | String c s' => is_ident_char c && all_ident s'
  end.

Definition is_name (s : string) : bool :=
  match s with EmptyString => false | _ => all_ident s end.

(** [old in s] *)
Fixpoint occurs (old s : string) : bool :=
  match strip_prefix old s with
  | Some _ => true
  | None => match s with EmptyString => false | String _ s' => occurs old s' end
  end.

(** ** The module's functions *)

(** [to_url(urltemplate, params)]: for each match, in order, replace
    every occurrence of the whole match in the current [uri] by ['/%s' %
    params[key]]; a missing key ([KeyError]) is skipped. *)
Definition to_url (urltemplate : string) (params : gmap string pyval) : string :=
  let uri := urltemplate in
  let params_to_replace := findall urltemplate in
  match params_to_replace with
  | [] => uri
  | _ =>
      foldl (fun uri '(needle, key) =>
               match params !! key with
               | Some v => str_replace needle ("/" +:+ py_str v) uri
               | None => uri
               end) uri params_to_replace
  end.

(** [remove_parameters(urltemplate)] *)
Definition remove_parameters (urltemplate : string) : string :=
  foldl (fun uri '(needle, key) => str_replace needle "" uri)
        urltemplate (findall urltemplate).

(** [to_django_urlpattern(path)]: [RE_PARAMS.sub('/(?P<\\2>[^/]+)', path)]. *)
Definition to_django_urlpattern (path : string) : string :=
  re_sub (fun name => "/(?P<" +:+ name +:+ ">[^/]+)") path.


(** ** The one-pass substitution, and what the scan guarantees *)

(** The substitution the spec describes: each placeholder by ['/' +
    str(value)] when its name is a parameter, kept as it is otherwise. *)
Definition url_subst (params : gmap string pyval) (name : string) : string :=
  match params !! name with
  | Some v => "/" +:+ py_str v
  | None => "/:" +:+ name
  end.

Definition starts_ident (segs : list seg) : bool :=
  match segs with SLit c :: _ => is_ident_char c | _ => false end.

(** A literal ['/'] is not followed by a literal [':'] and a literal
    identifier character (the pattern would have matched there). *)
Definition lit_ok (c : ascii) (rest : list seg) : bool :=
  negb (bool_decide (c = "/"%char) &&
        match rest with
        | SLit c' :: rest' => bool_decide (c' = ":"%char) && starts_ident rest'
        | _ => false
        end).

(** The shape of every cut the scan produces: a placeholder is not
    followed by an identifier character (the match is greedy), and
    [lit_ok] holds at every literal. *)
Fixpoint seg_shape (segs : list seg) : bool :=
  match segs with
  | [] => true
  | SParam _ :: rest => negb (starts_ident rest) && seg_shape rest
  | SLit c :: rest => lit_ok c rest && seg_shape rest
  end.

Definition is_prefix (a b : string) : bool :=
  match strip_prefix a b with Some _ => true | None => false end.

(** No name is a proper prefix of another. *)
Definition prefix_free (names : list string) : bool :=
  forallb (fun a => forallb (fun b => bool_decide (a = b) || negb (is_prefix a b)) names) names.

(** A value that cannot join with the text around it into a placeholder:
    non-empty, without ['/'] and [':']. *)
Definition safe_value (w : string) : bool :=
  negb (bool_decide (w = EmptyString)) &&
  forallb (fun c => negb (bool_decide (c = "/"%char) || bool_decide (c = ":"%char)))
          (String.list_ascii_of_string w).

Definition safe_values (urltemplate : string) (params : gmap string pyval) : bool :=
  forallb (fun nk => match params !! nk.2 with Some v => safe_value (py_str v) | None => true end)
          (findall urltemplate).

(** [RE_PARAMS.search(s) is not None] *)
Fixpoint has_placeholder (s : string) : bool :=
  match match_param s with
  | Some _ => true
  | None => match s with EmptyString => false | String _ s' => has_placeholder s' end
  end.

(** Every ['/'] of the text is followed, within it, by a character other
    than [':']: the text cannot start a placeholder. *)
Fixpoint slash_safe (s : string) : bool :=
  match s with
  | EmptyString => true
  | String c r =>
      (if bool_decide (c = "/"%char)
       then match r with String c' _ => negb (bool_decide (c' = ":"%char)) | EmptyString => false end
       else true) && slash_safe r
  end.

(** No literal ['/'] of the cut is directly followed by a placeholder:
    deleting that placeholder cannot join the ['/'] to what follows it. *)
Fixpoint slash_param_free (segs : list seg) : bool :=
  match segs with
  | [] => true
  | SLit c :: rest =>
      negb (bool_decide (c = "/"%char) &&
            match rest with SParam _ :: _ => true | _ => false end) && slash_param_free rest
  | SParam _ :: rest => slash_param_free rest
  end.

(** The class [[a-zA-Z_]] of the pattern, by the ASCII codes of its
    ranges: the specification of [is_ident_char]. *)
Definition regex_word_char (c : ascii) : Prop :=
  (65 <= nat_of_ascii c <= 90)%nat \/ (97 <= nat_of_ascii c <= 122)%nat \/ c = "_"%char.

(** ** The scan: lemmas *)

Lemma span_ident_spec s m r :
  span_ident s = (m, r) ->
  s = m +:+ r /\ all_ident m = true /\
  match r with String c _ => is_ident_char c = false | EmptyString => True end.
Proof.
  revert m r. induction s as [|c s IH]; intros m r H; simpl in H.
  - by injection H as <- <-.
  - destruct (is_ident_char c) eqn:Hc.
    + destruct (span_ident s) as [m' r'] eqn:E. injection H as <- <-.
      destruct (IH _ _ eq_refl) as (-> & Hm & Hr). simpl. by rewrite Hc.
    + injection H as <- <-. simpl. by rewrite Hc.
Qed.

(** What the pattern matches: ["/:" ++ name], a maximal name. *)
Lemma match_param_spec s name rest :
  match_param s = Some (name, rest) ->
  s = "/:" +:+ name +:+ rest /\ is_name name = true /\
  match rest with String c _ => is_ident_char c = false | EmptyString => True end.
Proof.
  unfold match_param. intros H.
  repeat (case_match; try discriminate); subst; simplify_eq;
    match goal with E : span_ident _ = _ |- _ => apply span_ident_spec in E as (-> & ? & ?) end;
    done.
Qed.

Lemma match_param_length s name rest :
  match_param s = Some (name, rest) -> String.length rest < String.length s.
Proof.
  intros (-> & _ & _)%match_param_spec. rewrite !string_length_app. simpl. lia.
Qed.

Lemma scan_fuel_enough n m s :
  String.length s < n -> String.length s < m -> scan_fuel n s = scan_fuel m s.
Proof.
  revert m s. induction n as [|n IH]; intros m s Hn Hm; [lia|].
  destruct m as [|m]; [lia|]. simpl.
  destruct (match_param s) as [[name rest]|] eqn:E.
  - apply match_param_length in E. f_equal. apply IH; lia.
  - destruct s as [|c s]; [done|]. simpl in *. f_equal. apply IH; lia.
Qed.

(** The unfolding equation of [scan]. *)
Lemma scan_eq s :
  scan s = match match_param s with
           | Some (name, rest) => SParam name :: scan rest
           | None => match s with
                     | EmptyString => []
                     | String c s' => SLit c :: scan s'
                     end
           end.
Proof.
  unfold scan at 1. simpl.
  destruct (match_param s) as [[name rest]|] eqn:E.
  - apply match_param_length in E. f_equal. apply scan_fuel_enough; lia.
  - by destruct s.
Qed.

(** The scan ends within [length s + 1] steps: any larger fuel gives
    the same cut. *)
Lemma scan_total s n : String.length s < n -> scan_fuel n s = scan s.
Proof. intros Hn. apply scan_fuel_enough; [done|simpl; lia]. Qed.

(** Printing the cut with every placeholder as itself gives the string
    back. *)
Lemma render_scan s : render (fun name => "/:" +:+ name) (scan s) = s.
Proof.
  induction s as [s IH] using string_len_ind.
  rewrite scan_eq. destruct (match_param s) as [[name rest]|] eqn:E.
  - pose proof (match_param_length _ _ _ E) as Hlen.
    apply match_param_spec in E as (-> & _ & _). simpl.
    rewrite IH by done. by rewrite <- !string_app_assoc.
  - destruct s as [|c s]; [done|]. simpl. rewrite IH; [done|simpl; lia].
Qed.

Lemma scan_names s name : SParam name ∈ scan s -> is_name name = true.
Proof.
  induction s as [s IH] using string_len_ind.
  rewrite scan_eq. destruct (match_param s) as [[name' rest]|] eqn:E.
  - pose proof (match_param_length _ _ _ E) as Hlen.
    apply match_param_spec in E as (_ & Hname & _).
    intros [Heq|Hin]%elem_of_cons; [by simplify_eq|]. by apply (IH rest).
  - destruct s as [|c s]; [by intros ?%elem_of_nil|].
    intros [Heq|Hin]%elem_of_cons; [done|]. apply (IH s); [simpl; lia|done].
Qed.

Lemma scan_SLit s c X :
  scan s = SLit c :: X -> exists t, s = String c t /\ X = scan t /\ match_param s = None.
Proof.
  rewrite scan_eq. destruct (match_param s) as [[name rest]|]; [done|].
  destruct s as [|c' t]; [done|]. intros [= <- <-]. by exists t.
Qed.

Lemma starts_ident_scan s :
  starts_ident (scan s) = true -> exists c t, s = String c t /\ is_ident_char c = true.
Proof.
  destruct (scan s) as [|[c|name] X] eqn:E; simpl; try done.
  intros Hc. apply scan_SLit in E as (t & -> & _). eauto.
Qed.

Lemma match_param_colon_ident c t :
  match_param (String "/" (String ":" (String c t))) = None -> is_ident_char c = false.
Proof.
  unfold match_param. simpl. destruct (is_ident_char c); [|done].
  by destruct (span_ident t).
Qed.

(** The cut of any string has the shape [seg_shape]. *)
Lemma scan_shape s : seg_shape (scan s) = true.
Proof.
  induction s as [s IH] using string_len_ind.
  rewrite scan_eq. destruct (match_param s) as [[name rest]|] eqn:E.
  - pose proof (match_param_length _ _ _ E) as Hlen.
    apply match_param_spec in E as (-> & _ & Hrest). simpl. rewrite IH by done.
    destruct (starts_ident (scan rest)) eqn:Hs; [|done].
    apply starts_ident_scan in Hs as (c & t & -> & Hc). congruence.
  - destruct s as [|c s]; [done|]. simpl. rewrite IH by (simpl; lia). rewrite andb_true_r.
    unfold lit_ok. destruct (bool_decide (c = "/"%char)) eqn:Hc; [|done].
    apply bool_decide_eq_true in Hc. subst c.
    destruct (scan s) as [|[c'|name] X] eqn:Hs; try done. simpl.
    destruct (bool_decide (c' = ":"%char)) eqn:Hc'; [|done].
    apply bool_decide_eq_true in Hc'. subst c'.
    apply scan_SLit in Hs as (t & -> & -> & _).
    destruct (starts_ident (scan t)) eqn:Ht; [|done].
    apply starts_ident_scan in Ht as (c & t' & -> & Hc).
    apply match_param_colon_ident in E. congruence.
Qed.

(** ** [str.replace]: lemmas *)

Lemma strip_prefix_spec p s r : strip_prefix p s = Some r <-> s = p +:+ r.
Proof.
  revert s. induction p as [|a p IH]; intros s; simpl; [naive_solver|].
  destruct s as [|b s]; [done|]. case_decide; subst.
  - rewrite IH. rewrite string_app_cons. naive_solver.
  - rewrite string_app_cons. naive_solver.
Qed.

Lemma strip_prefix_length p s r :
  strip_prefix p s = Some r -> String.length r + String.length p = String.length s.
Proof. intros ->%strip_prefix_spec. rewrite string_length_app. lia. Qed.

Lemma replace_fuel_enough old new n m s :
  old <> EmptyString ->
  String.length s < n -> String.length s < m ->
  replace_fuel n old new s = replace_fuel m old new s.
Proof.
  intros Hold. revert m s. induction n as [|n IH]; intros m s Hn Hm; [lia|].
  destruct m as [|m]; [lia|]. simpl.
  destruct (strip_prefix old s) as [rest|] eqn:E.
  - apply strip_prefix_length in E. destruct old; [done|]. simpl in E.
    f_equal. apply IH; lia.
  - destruct s as [|c s]; [done|]. simpl in *. f_equal. apply IH; lia.
Qed.

Lemma replace_fuel_S n old new s :
  replace_fuel (S n) old new s =
    match strip_prefix old s with
    | Some rest => new +:+ replace_fuel n old new rest
    | None => match s with
              | EmptyString => EmptyString
              | String c s' => String c (replace_fuel n old new s')
              end
    end.
Proof. reflexivity. Qed.

(** The unfolding equation of [str.replace] for a non-empty [old]. *)
Lemma str_replace_eq old new s :
  old <> EmptyString ->
  str_replace old new s =
    match strip_prefix old s with
    | Some rest => new +:+ str_replace old new rest
    | None => match s with
              | EmptyString => EmptyString
              | String c s' => String c (str_replace old new s')
              end
    end.
Proof.
  intros Hold. destruct old as [|a old]; [done|].
  unfold str_replace. rewrite replace_fuel_S.
  destruct (strip_prefix (String a old) s) as [rest|] eqn:E.
  - apply strip_prefix_length in E. simpl in E. f_equal.
    apply replace_fuel_enough; [done|lia|lia].
  - by destruct s.
Qed.

Lemma str_replace_absent old new s :
  old <> EmptyString -> occurs old s = false -> str_replace old new s = s.
Proof.
  intros Hold. induction s as [|c s IH]; intros Hocc;
    rewrite str_replace_eq by done; simpl in Hocc;
    destruct (strip_prefix old _); try discriminate; [done|].
  by rewrite IH.
Qed.


(** ** [str.replace] of a placeholder on a rendered cut *)

Lemma all_ident_app x y : all_ident (x +:+ y) = all_ident x && all_ident y.
Proof. induction x as [|c x IH]; simpl; [done|]. by rewrite IH, andb_assoc. Qed.

(** A name does not start a string that starts with a non-identifier
    character. *)
Lemma strip_prefix_name_None a c r :
  is_name a = true -> is_ident_char c = false -> strip_prefix a (String c r) = None.
Proof.
  destruct a as [|a0 a]; [done|]. simpl. intros Ha Hc.
  case_decide; [|done]. subst. by rewrite Hc in Ha.
Qed.

(** Text without ['/'] holds no occurrence of a needle starting with ['/']. *)
Lemma str_replace_noslash old new p r :
  Forall (fun c => c <> "/"%char) (String.list_ascii_of_string p) ->
  str_replace (String "/" old) new (p +:+ r) = p +:+ str_replace (String "/" old) new r.
Proof.
  induction p as [|c p IH]; intros Hp; [done|]. cbn [String.list_ascii_of_string] in Hp.
  apply Forall_cons in Hp as [Hc Hp].
  rewrite !string_app_cons, str_replace_eq by done. cbn [strip_prefix].
  case_decide; [congruence|]. by rewrite IH.
Qed.

Lemma name_noslash b :
  all_ident b = true -> Forall (fun c => c <> "/"%char) (String.list_ascii_of_string b).
Proof.
  induction b as [|c b IH]; simpl; [constructor|].
  intros [Hc Hb]%andb_prop. constructor; [|auto]. intros ->. discriminate.
Qed.

Lemma safe_value_spec w :
  safe_value w = true <->
  (exists c w', w = String c w' /\ c <> ":"%char) /\
  Forall (fun c => c <> "/"%char /\ c <> ":"%char) (String.list_ascii_of_string w).
Proof.
  unfold safe_value. rewrite andb_true_iff, negb_true_iff, bool_decide_eq_false, forallb_forall, Forall_forall.
  setoid_rewrite negb_true_iff. setoid_rewrite orb_false_iff. setoid_rewrite bool_decide_eq_false.
  split.
  - intros [Hne Hall]. split; [|intros x Hx; apply Hall; by apply list_elem_of_In].
    destruct w as [|c w']; [done|].
    exists c, w'. split; [done|]. apply (Hall c). simpl. by left.
  - intros [(c & w' & -> & _) Hall]. split; [done|]. intros x Hx. apply Hall. by apply list_elem_of_In.
Qed.



Lemma render_lit g c segs : render g (SLit c :: segs) = String c (render g segs).
Proof. reflexivity. Qed.

Lemma render_param g b segs : render g (SParam b :: segs) = g b +:+ render g segs.
Proof. reflexivity. Qed.

Lemma is_name_ident s : is_name s = true -> all_ident s = true.
Proof. by destruct s. Qed.

Lemma str_replace_skip old new c r :
  old <> EmptyString -> strip_prefix old (String c r) = None ->
  str_replace old new (String c r) = String c (str_replace old new r).
Proof. intros Hold Hs. by rewrite str_replace_eq, Hs. Qed.

Lemma str_replace_here old new r :
  old <> EmptyString -> str_replace old new (old +:+ r) = new +:+ str_replace old new r.
Proof.
  intros Hold. rewrite str_replace_eq by done.
  by rewrite (proj2 (strip_prefix_spec old (old +:+ r) r) eq_refl).
Qed.

Lemma strip_needle a x : strip_prefix ("/:" +:+ a) ("/:" +:+ x) = strip_prefix a x.
Proof. reflexivity. Qed.

Lemma strip_needle_slash a c r :
  c <> ":"%char -> strip_prefix ("/:" +:+ a) (String "/" (String c r)) = None.
Proof.
  intros Hc. rewrite !string_app_cons, string_app_nil_l. cbn [strip_prefix].
  rewrite decide_True by done. rewrite decide_False by done. done.
Qed.

(** The text a cut renders to does not start with an identifier
    character when the cut does not and every placeholder renders to a
    text starting with ['/']. *)
Lemma render_first g segs c r :
  starts_ident segs = false ->
  (forall b, SParam b ∈ segs -> exists t, g b = String "/" t) ->
  render g segs = String c r -> is_ident_char c = false.
Proof.
  destruct segs as [|[c'|b] segs]; simpl; intros Hs Hg Hr; [done| by injection Hr as -> _|].
  destruct (Hg b (list_elem_of_here _ _)) as [t Ht]. rewrite Ht, string_app_cons in Hr.
  by injection Hr as <- _.
Qed.

Lemma render_strip_name a g segs :
  is_name a = true -> starts_ident segs = false ->
  (forall b, SParam b ∈ segs -> exists t, g b = String "/" t) ->
  strip_prefix a (render g segs) = None.
Proof.
  intros Ha Hs Hg. destruct (render g segs) as [|c r] eqn:Hr.
  - by destruct a.
  - apply strip_prefix_name_None; [done|]. exact (render_first g segs c r Hs Hg Hr).
Qed.



(** No occurrence of a placeholder starts at a literal of a cut of scan
    shape. *)
Lemma lit_no_needle a g c segs :
  is_name a = true -> lit_ok c segs = true ->
  (forall b, SParam b ∈ segs -> exists t, g b = String "/" t) ->
  strip_prefix ("/:" +:+ a) (String c (render g segs)) = None.
Proof.
  intros Ha Hok Hg. destruct (decide (c = "/"%char)) as [->|Hc].
  2:{ rewrite string_app_cons. cbn [strip_prefix]. by rewrite decide_False by congruence. }
  unfold lit_ok in Hok. rewrite bool_decide_true in Hok by done.
  destruct segs as [|[c'|b] segs'].
  - by rewrite string_app_cons, string_app_cons, string_app_nil_l; cbn; rewrite decide_True.
  - destruct (decide (c' = ":"%char)) as [->|Hc']; [|by apply strip_needle_slash].
    rewrite bool_decide_true in Hok by done. simpl in Hok. apply negb_true_iff in Hok.
    transitivity (strip_prefix a (render g segs')); [reflexivity|].
    apply render_strip_name; [done|done|].
    intros b Hb. apply Hg. by apply list_elem_of_further.
  - simpl. destruct (Hg b (list_elem_of_here _ _)) as [t ->]. rewrite string_app_cons.
    by apply strip_needle_slash.
Qed.

(** A placeholder [/:a] does not start at another placeholder [/:b] when
    [a] is not a proper prefix of [b] and [b] is not followed by an
    identifier character. *)
Lemma strip_name_other a b r :
  is_name a = true -> a <> b -> (is_prefix a b = true -> a = b) ->
  (forall c r', r = String c r' -> is_ident_char c = false) ->
  strip_prefix a (b +:+ r) = None.
Proof.
  intros Ha Hne Hpre Hfirst.
  destruct (strip_prefix a (b +:+ r)) as [x|] eqn:E; [exfalso|done].
  apply strip_prefix_spec, string_app_eq_app in E as [(c & -> & Hr)|(c & -> & ->)].
  - destruct c as [|c0 c']; [apply Hne; by rewrite string_app_nil_r|].
    rewrite string_app_cons in Hr. specialize (Hfirst _ _ Hr).
    assert (Ha' : all_ident (b +:+ String c0 c') = true) by (revert Ha; apply is_name_ident).
    rewrite all_ident_app in Ha'. simpl in Ha'. rewrite Hfirst in Ha'. by rewrite andb_false_r in Ha'.
  - apply Hne, Hpre. unfold is_prefix. by rewrite (proj2 (strip_prefix_spec a (a +:+ c) c) eq_refl).
Qed.

(** [str.replace('/:' + a, new)] across a placeholder [/:b] not followed
    by an identifier character: replaced when [b = a], kept otherwise. *)
Lemma str_replace_placeholder a new b r :
  is_name a = true -> all_ident b = true -> (is_prefix a b = true -> a = b) ->
  (forall c r', r = String c r' -> is_ident_char c = false) ->
  str_replace ("/:" +:+ a) new (("/:" +:+ b) +:+ r) =
    (if bool_decide (b = a) then new else "/:" +:+ b) +:+ str_replace ("/:" +:+ a) new r.
Proof.
  intros Ha Hb Hpre Hfirst. change ("/:" +:+ a) with (String "/" (":" +:+ a)).
  case_bool_decide as Hne; [subst b; by apply str_replace_here|].
  rewrite <- !string_app_assoc, !string_app_cons, !string_app_nil_l.
  rewrite str_replace_skip; [|discriminate|by apply (strip_name_other a b r)].
  f_equal. rewrite <- !(string_app_cons ":" b). apply str_replace_noslash.
  constructor; [discriminate|]. by apply name_noslash.
Qed.

(** [str.replace('/:' + a, '/' + w)] across the text [p] of one
    placeholder [b]: [p] is still [/:b], or already a safe value. *)
Lemma str_replace_piece a w b p r :
  is_name a = true -> all_ident b = true ->
  (p = "/:" +:+ b /\ (is_prefix a b = true -> a = b)) \/ (exists w', p = "/" +:+ w' /\ safe_value w' = true) ->
  (forall c r', r = String c r' -> is_ident_char c = false) ->
  str_replace ("/:" +:+ a) ("/" +:+ w) (p +:+ r) =
    (if bool_decide (b = a /\ p = "/:" +:+ b) then "/" +:+ w else p) +:+ str_replace ("/:" +:+ a) ("/" +:+ w) r.
Proof.
  intros Ha Hb Hp Hfirst.
  destruct Hp as [[-> Hpre]|(w' & -> & Hw')].
  - rewrite str_replace_placeholder by done. f_equal. by do 2 case_bool_decide; naive_solver.
  - change ("/:" +:+ a) with (String "/" (":" +:+ a)). apply safe_value_spec in Hw' as [(c0 & w'' & -> & Hc0) Hall].
    rewrite bool_decide_false.
    2:{ intros [_ Heq]. rewrite !string_app_cons, !string_app_nil_l in Heq. by injection Heq. }
    rewrite <- !string_app_assoc, !string_app_cons, !string_app_nil_l.
    rewrite str_replace_skip; [|discriminate|by apply strip_needle_slash].
    f_equal. rewrite <- !(string_app_cons c0 w''). apply str_replace_noslash.
    by eapply Forall_impl; [exact Hall|]; intros x [? _].
Qed.

(** [uri.replace('/:' + a, '/' + w)] on the rendering of a cut of scan
    shape, in which every placeholder is either still [/:b] (with [a] not
    a proper prefix of [b]) or already a safe value, replaces exactly the
    placeholders [a] still in place. *)
Lemma str_replace_render a w g segs :
  is_name a = true -> safe_value w = true -> seg_shape segs = true ->
  (forall b, SParam b ∈ segs -> is_name b = true) ->
  (forall b, SParam b ∈ segs ->
     (g b = "/:" +:+ b /\ (is_prefix a b = true -> a = b)) \/
     (exists w', g b = "/" +:+ w' /\ safe_value w' = true)) ->
  str_replace ("/:" +:+ a) ("/" +:+ w) (render g segs) =
    render (fun b => if bool_decide (b = a /\ g b = "/:" +:+ b) then "/" +:+ w else g b) segs.
Proof.
  intros Ha Hw. assert (Hn : "/:" +:+ a <> EmptyString) by discriminate.
  induction segs as [|[c|b] segs IH]; intros Hshape Hnames Hg; [by rewrite str_replace_eq|..];
    simpl in Hshape; apply andb_prop in Hshape as [Hok Hshape];
    (assert (Hg' : forall b, SParam b ∈ segs -> exists t, g b = String "/" t)
      by (intros b' Hb'; destruct (Hg b' (list_elem_of_further _ _ _ Hb')) as [[-> _]|(w' & -> & _)]; eauto));
    (assert (IH' : str_replace ("/:" +:+ a) ("/" +:+ w) (render g segs) =
                  render (fun b => if bool_decide (b = a /\ g b = "/:" +:+ b) then "/" +:+ w else g b) segs)
      by (apply IH; [done| |]; intros b' Hb'; [apply Hnames|apply Hg]; by apply list_elem_of_further)).
  - rewrite !render_lit, (str_replace_skip _ _ _ _ Hn (lit_no_needle a g c segs Ha Hok Hg')). by f_equal.
  - apply negb_true_iff in Hok. rewrite !render_param, <- IH'.
    apply str_replace_piece; [done|apply is_name_ident, Hnames, list_elem_of_here|apply Hg, list_elem_of_here|].
    intros c r Hr. exact (render_first g segs c r Hok Hg' Hr).
Qed.



(** ** [to_url] on a cut: the loop of replacements *)

Lemma render_ext g1 g2 segs :
  (forall b, SParam b ∈ segs -> g1 b = g2 b) -> render g1 segs = render g2 segs.
Proof.
  induction segs as [|[c|b] segs IH]; intros Hg; [done|..]; rewrite ?render_lit, ?render_param.
  - f_equal. apply IH. intros b Hb. apply Hg. by apply list_elem_of_further.
  - rewrite (Hg b (list_elem_of_here _ _)). f_equal. apply IH. intros b' Hb. apply Hg. by apply list_elem_of_further.
Qed.

Lemma findall_elem s needle key :
  (needle, key) ∈ findall s -> needle = "/:" +:+ key /\ SParam key ∈ scan s.
Proof.
  unfold findall. intros (sg & Hin & Hf)%list_elem_of_omap.
  destruct sg as [c|name]; simplify_eq. done.
Qed.

Lemma findall_complete s key : SParam key ∈ scan s -> ("/:" +:+ key, key) ∈ findall s.
Proof. intros Hin. unfold findall. apply list_elem_of_omap. by exists (SParam key). Qed.

Lemma name_in_findall t key : SParam key ∈ scan t -> key ∈ map snd (findall t).
Proof.
  intros Hin. apply list_elem_of_In, (in_map snd _ ("/:" +:+ key, key)), list_elem_of_In.
  by apply findall_complete.
Qed.

Lemma prefix_free_spec names a b :
  prefix_free names = true -> a ∈ names -> b ∈ names -> is_prefix a b = true -> a = b.
Proof.
  unfold prefix_free. rewrite forallb_forall. intros Hpf Ha Hb Hab.
  apply list_elem_of_In in Ha, Hb. specialize (Hpf a Ha). rewrite forallb_forall in Hpf.
  specialize (Hpf b Hb). rewrite Hab in Hpf. simpl in Hpf. rewrite orb_false_r in Hpf.
  by apply bool_decide_eq_true in Hpf.
Qed.

Lemma safe_values_spec t params key v :
  safe_values t params = true -> SParam key ∈ scan t -> params !! key = Some v ->
  safe_value (py_str v) = true.
Proof.
  unfold safe_values. rewrite forallb_forall. intros Hs Hin Hv.
  specialize (Hs _ (proj1 (list_elem_of_In _ _) (findall_complete t key Hin))). simpl in Hs.
  by rewrite Hv in Hs.
Qed.

(** The text after the replacements of the placeholders [S]: a
    placeholder of [S] shows its substitution, the others themselves. *)
Lemma to_url_loop t (params : gmap string pyval) l S :
  prefix_free (map snd (findall t)) = true -> safe_values t params = true ->
  (forall nk, nk ∈ l -> nk ∈ findall t) ->
  foldl (fun uri '(needle, key) =>
           match params !! key with
           | Some v => str_replace needle ("/" +:+ py_str v) uri
           | None => uri
           end)
        (render (fun b => if bool_decide (b ∈ S) then url_subst params b else "/:" +:+ b) (scan t)) l =
  render (fun b => if bool_decide (b ∈ S ++ map snd l) then url_subst params b else "/:" +:+ b) (scan t).
Proof.
  intros Hpf Hsafe. revert S. induction l as [|[needle key] l IH]; intros S Hl; simpl.
  { by rewrite app_nil_r. }
  destruct (findall_elem t needle key (Hl _ (list_elem_of_here _ _))) as [-> Hkey].
  rewrite cons_middle, app_assoc. rewrite <- IH by (intros nk Hnk; apply Hl; by apply list_elem_of_further).
  f_equal. destruct (params !! key) as [v|] eqn:Hv.
  - rewrite str_replace_render; [| by apply (scan_names t) | by apply (safe_values_spec t params key v)
      | apply scan_shape | intros b Hb; by apply (scan_names t) |].
    + apply render_ext. intros b _. destruct (decide (b = key)) as [->|Hne].
      * rewrite (bool_decide_true (key ∈ S ++ [key])) by set_solver.
        assert (Hu : url_subst params key = "/" +:+ py_str v) by (unfold url_subst; by rewrite Hv).
        rewrite Hu. case_bool_decide as Hd; [done|].
        case_bool_decide; [done|]. naive_solver.
      * rewrite bool_decide_false by naive_solver.
        assert (b ∈ S ++ [key] <-> b ∈ S) by set_solver.
        do 2 case_bool_decide; tauto.
    + intros b Hb. assert (Hpre : is_prefix key b = true -> key = b).
      { apply (prefix_free_spec _ key b Hpf); by apply name_in_findall. }
      case_bool_decide; [|by left]. unfold url_subst. destruct (params !! b) as [v'|] eqn:Hv'; [|by left].
      right. exists (py_str v'). split; [done|]. by apply (safe_values_spec t params b v').
  - apply render_ext. intros b _. destruct (decide (b = key)) as [->|Hne].
    + unfold url_subst. rewrite Hv. by do 2 case_bool_decide.
    + assert (b ∈ S ++ [key] <-> b ∈ S) by set_solver.
      do 2 case_bool_decide; tauto.
Qed.



(** ** [remove_parameters] on a cut: deleting placeholders *)

Lemma slash_param_free_cons sg segs : slash_param_free (sg :: segs) = true -> slash_param_free segs = true.
Proof. destruct sg; simpl; [intros [_ ?]%andb_prop|]; done. Qed.

(** The text a cut renders to does not start with an identifier
    character when the cut does not, the cut has scan shape and every
    placeholder renders to nothing or to a text starting with ['/']. *)
Lemma render_first_del g segs c r :
  seg_shape segs = true -> starts_ident segs = false ->
  (forall b, SParam b ∈ segs -> g b = "" \/ exists t, g b = String "/" t) ->
  render g segs = String c r -> is_ident_char c = false.
Proof.
  induction segs as [|[c'|b] segs IH]; intros Hsh Hs Hg Hr; [done|by injection Hr as -> _|].
  cbn [seg_shape] in Hsh. apply andb_prop in Hsh as [Hn Hsh]. apply negb_true_iff in Hn.
  rewrite render_param in Hr. destruct (Hg b (list_elem_of_here _ _)) as [Hb|[t Ht]].
  - rewrite Hb in Hr. apply (IH Hsh Hn); [|exact Hr].
    intros b' Hb'. apply Hg. by apply list_elem_of_further.
  - rewrite Ht, string_app_cons in Hr. by injection Hr as <- _.
Qed.

(** No occurrence of a placeholder starts at a literal of a cut of scan
    shape in which no ['/'] is followed by a placeholder, whatever
    placeholders have been deleted. *)
Lemma lit_no_needle_del a g c segs :
  is_name a = true -> lit_ok c segs = true -> seg_shape segs = true ->
  slash_param_free (SLit c :: segs) = true ->
  (forall b, SParam b ∈ segs -> g b = "" \/ exists t, g b = String "/" t) ->
  strip_prefix ("/:" +:+ a) (String c (render g segs)) = None.
Proof.
  intros Ha Hok Hsh Hfree Hg. destruct (decide (c = "/"%char)) as [->|Hc].
  2:{ rewrite string_app_cons. cbn [strip_prefix]. by rewrite decide_False by congruence. }
  unfold lit_ok in Hok. cbn [slash_param_free] in Hfree. rewrite bool_decide_true in Hok, Hfree by done.
  destruct segs as [|[c'|b] segs']; [|clear Hfree|done].
  - by rewrite string_app_cons, string_app_cons, string_app_nil_l; cbn; rewrite decide_True.
  - destruct (decide (c' = ":"%char)) as [->|Hc']; [|by apply strip_needle_slash].
    rewrite bool_decide_true in Hok by done. simpl in Hok. apply negb_true_iff in Hok.
    transitivity (strip_prefix a (render g segs')); [reflexivity|].
    destruct (render g segs') as [|c0 r] eqn:Hr; [by destruct a|].
    apply strip_prefix_name_None; [done|]. apply (render_first_del g segs' c0 r); [|done| |done].
    + by cbn [seg_shape] in Hsh; apply andb_prop in Hsh as [_ ?].
    + intros b Hb. apply Hg. by apply list_elem_of_further.
Qed.

(** [uri.replace('/:' + a, '')] on the rendering of a cut of scan shape
    with no ['/'] right before a placeholder, in which every placeholder
    is still [/:b] (with [a] not a proper prefix of [b]) or already
    deleted, deletes exactly the placeholders [a]. *)
Lemma str_replace_render_del a g segs :
  is_name a = true -> seg_shape segs = true -> slash_param_free segs = true ->
  (forall b, SParam b ∈ segs -> is_name b = true) ->
  (forall b, SParam b ∈ segs -> (g b = "/:" +:+ b /\ (is_prefix a b = true -> a = b)) \/ g b = "") ->
  str_replace ("/:" +:+ a) "" (render g segs) =
    render (fun b => if bool_decide (b = a) then "" else g b) segs.
Proof.
  intros Ha. assert (Hn : "/:" +:+ a <> EmptyString) by discriminate.
  induction segs as [|[c|b] segs IH]; intros Hshape Hfree Hnames Hg; [by rewrite str_replace_eq|..];
    pose proof (slash_param_free_cons _ _ Hfree) as Hfree';
    simpl in Hshape; apply andb_prop in Hshape as [Hok Hshape];
    (assert (Hg' : forall b, SParam b ∈ segs -> g b = "" \/ exists t, g b = String "/" t)
      by (intros b' Hb'; destruct (Hg b' (list_elem_of_further _ _ _ Hb')) as [[-> _]| ->]; eauto));
    (assert (IH' : str_replace ("/:" +:+ a) "" (render g segs) =
                  render (fun b => if bool_decide (b = a) then "" else g b) segs)
      by (apply IH; [done|done| |]; intros b' Hb'; [apply Hnames|apply Hg]; by apply list_elem_of_further)).
  - rewrite !render_lit, (str_replace_skip _ _ _ _ Hn (lit_no_needle_del a g c segs Ha Hok Hshape Hfree Hg')).
    by f_equal.
  - apply negb_true_iff in Hok. rewrite !render_param, <- IH'.
    destruct (Hg b (list_elem_of_here _ _)) as [[Hb Hpre]|Hb]; rewrite Hb.
    + apply str_replace_placeholder; [done|apply is_name_ident, Hnames, list_elem_of_here|done|].
      intros c r Hr. exact (render_first_del g segs c r Hshape Hok Hg' Hr).
    + by case_bool_decide.
Qed.

(** The text after deleting the placeholders [S]. *)
Lemma remove_loop t l S :
  prefix_free (map snd (findall t)) = true -> slash_param_free (scan t) = true ->
  (forall nk, nk ∈ l -> nk ∈ findall t) ->
  foldl (fun uri '(needle, key) => str_replace needle "" uri)
        (render (fun b => if bool_decide (b ∈ S) then "" else "/:" +:+ b) (scan t)) l =
  render (fun b => if bool_decide (b ∈ S ++ map snd l) then "" else "/:" +:+ b) (scan t).
Proof.
  intros Hpf Hfree. revert S. induction l as [|[needle key] l IH]; intros S Hl; simpl.
  { by rewrite app_nil_r. }
  destruct (findall_elem t needle key (Hl _ (list_elem_of_here _ _))) as [-> Hkey].
  rewrite cons_middle, app_assoc. rewrite <- IH by (intros nk Hnk; apply Hl; by apply list_elem_of_further).
  f_equal. rewrite str_replace_render_del; [| by apply (scan_names t) | apply scan_shape | done
    | intros b Hb; by apply (scan_names t) |].
  - apply render_ext. intros b _. assert (b ∈ S ++ [key] <-> b ∈ S \/ b = key) by set_solver.
    repeat case_bool_decide; naive_solver.
  - intros b Hb. case_bool_decide; [by right|left]. split; [done|].
    apply (prefix_free_spec _ key b Hpf); by apply name_in_findall.
Qed.



(** ** [RE_PARAMS.search] on a rendered cut *)

Lemma has_placeholder_eq s :
  has_placeholder s =
    match match_param s with
    | Some _ => true
    | None => match s with EmptyString => false | String _ s' => has_placeholder s' end
    end.
Proof. by destruct s. Qed.

Lemma match_param_not_slash c r : c <> "/"%char -> match_param (String c r) = None.
Proof.
  intros Hc. destruct (match_param (String c r)) as [[name rest]|] eqn:E; [|done].
  apply match_param_spec in E as (Heq & _). rewrite string_app_cons in Heq. by injection Heq.
Qed.

Lemma match_param_slash_not_colon c r : c <> ":"%char -> match_param (String "/" (String c r)) = None.
Proof.
  intros Hc. destruct (match_param (String "/" (String c r))) as [[name rest]|] eqn:E; [|done].
  apply match_param_spec in E as (Heq & _). rewrite !string_app_cons in Heq. by injection Heq.
Qed.

Lemma match_param_colon_not_ident r :
  (forall c r', r = String c r' -> is_ident_char c = false) ->
  match_param (String "/" (String ":" r)) = None.
Proof.
  intros Hr. destruct (match_param (String "/" (String ":" r))) as [[name rest]|] eqn:E; [|done].
  apply match_param_spec in E as (Heq & Hname & _). rewrite !string_app_cons, string_app_nil_l in Heq.
  injection Heq as Heq. destruct name as [|c name]; [done|]. simpl in Hname.
  rewrite string_app_cons in Heq. apply andb_prop in Hname as [Hc _].
  by rewrite (Hr c _ Heq) in Hc.
Qed.

Lemma has_placeholder_not_slash c r : c <> "/"%char -> has_placeholder (String c r) = has_placeholder r.
Proof. intros Hc. rewrite has_placeholder_eq. by rewrite match_param_not_slash. Qed.

Lemma has_placeholder_slash c r :
  c <> ":"%char -> has_placeholder (String "/" (String c r)) = has_placeholder (String c r).
Proof. intros Hc. rewrite has_placeholder_eq. by rewrite match_param_slash_not_colon. Qed.

Lemma has_placeholder_noslash p r :
  Forall (fun c => c <> "/"%char) (String.list_ascii_of_string p) ->
  has_placeholder (p +:+ r) = has_placeholder r.
Proof.
  induction p as [|c p IH]; intros Hp; [done|]. cbn [String.list_ascii_of_string] in Hp.
  apply Forall_cons in Hp as [Hc Hp]. rewrite string_app_cons, has_placeholder_not_slash by done.
  by apply IH.
Qed.

Ltac has_placeholder_simpl :=
  repeat first [ rewrite has_placeholder_slash by discriminate
               | rewrite has_placeholder_not_slash by discriminate ].

(** A text without a match has no placeholder to find. *)
Lemma findall_no_placeholder s : has_placeholder s = false -> findall s = [].
Proof.
  induction s as [s IH] using string_len_ind. unfold findall. rewrite scan_eq, has_placeholder_eq.
  destruct (match_param s) as [[name rest]|]; [done|].
  destruct s as [|c s]; [done|]. intros Hs. apply (IH s); [simpl; lia|done].
Qed.



Lemma has_placeholder_slash_safe p r :
  slash_safe p = true -> has_placeholder (p +:+ r) = has_placeholder r.
Proof.
  induction p as [|c p IH]; intros Hp; [done|]. cbn [slash_safe] in Hp. apply andb_prop in Hp as [Hc Hp].
  rewrite string_app_cons. case_bool_decide as Hs; [subst c|by rewrite has_placeholder_not_slash, IH].
  destruct p as [|c' p]; [done|]. apply negb_true_iff, bool_decide_eq_false in Hc.
  rewrite string_app_cons, has_placeholder_slash, <- string_app_cons by done. by apply IH.
Qed.

Lemma slash_safe_noslash p q :
  Forall (fun c => c <> "/"%char) (String.list_ascii_of_string p) -> slash_safe (p +:+ q) = slash_safe q.
Proof.
  induction p as [|c p IH]; intros Hp; [done|]. cbn [String.list_ascii_of_string] in Hp.
  apply Forall_cons in Hp as [Hc Hp]. rewrite string_app_cons. cbn [slash_safe].
  rewrite bool_decide_false by done. simpl. by apply IH.
Qed.

(** A cut of scan shape whose placeholders print as texts starting with
    ['/'] that cannot start a placeholder prints without a placeholder. *)
Lemma render_no_placeholder g segs :
  seg_shape segs = true ->
  (forall b, SParam b ∈ segs -> slash_safe (g b) = true /\ exists t, g b = String "/" t) ->
  has_placeholder (render g segs) = false.
Proof.
  induction segs as [|[c|b] segs IH]; intros Hshape Hg; [done|..]; simpl in Hshape;
    apply andb_prop in Hshape as [Hok Hshape];
    (assert (IH' : has_placeholder (render g segs) = false)
      by (apply IH; [done|intros b' Hb'; apply Hg; by apply list_elem_of_further]));
    (assert (Hg' : forall b, SParam b ∈ segs -> exists t, g b = String "/" t)
      by (intros b' Hb'; apply Hg; by apply list_elem_of_further)).
  - rewrite render_lit. destruct (decide (c = "/"%char)) as [->|Hc].
    2:{ by rewrite has_placeholder_not_slash. }
    rewrite has_placeholder_eq. unfold lit_ok in Hok. rewrite bool_decide_true in Hok by done.
    destruct segs as [|[c'|b] segs']; [done| |].
    + rewrite render_lit in *. destruct (decide (c' = ":"%char)) as [->|Hc'].
      * rewrite match_param_colon_not_ident; [done|]. simpl in Hok.
        apply negb_true_iff in Hok. intros c r Hr. apply (render_first g segs' c r Hok); [|done].
        intros b Hb. apply Hg'. by apply list_elem_of_further.
      * by rewrite match_param_slash_not_colon.
    + rewrite render_param in *. destruct (Hg' b (list_elem_of_here _ _)) as [t Ht].
      rewrite Ht, string_app_cons in *. by rewrite match_param_slash_not_colon by discriminate.
  - rewrite render_param, has_placeholder_slash_safe; [done|]. apply Hg, list_elem_of_here.
Qed.

(** The rendering of a cut of scan shape with every placeholder deleted,
    when no ['/'] stands right before a placeholder, has no placeholder. *)
Lemma render_del_no_placeholder segs :
  seg_shape segs = true -> slash_param_free segs = true ->
  has_placeholder (render (fun _ => "") segs) = false.
Proof.
  induction segs as [|[c|b] segs IH]; intros Hshape Hfree; [done|..];
    pose proof (slash_param_free_cons _ _ Hfree) as Hfree';
    simpl in Hshape; apply andb_prop in Hshape as [Hok Hshape]; pose proof (IH Hshape Hfree') as IH'.
  - rewrite render_lit. destruct (decide (c = "/"%char)) as [->|Hc].
    2:{ by rewrite has_placeholder_not_slash. }
    rewrite has_placeholder_eq. unfold lit_ok in Hok. cbn [slash_param_free] in Hfree.
    rewrite bool_decide_true in Hok, Hfree by done.
    destruct segs as [|[c'|b] segs']; [done| |by simpl in Hfree].
    rewrite render_lit in *. destruct (decide (c' = ":"%char)) as [->|Hc'].
    + rewrite match_param_colon_not_ident; [done|]. simpl in Hok. apply negb_true_iff in Hok.
      intros c r Hr. apply (render_first_del (fun _ => "") segs' c r); [|done| |done].
      * by cbn [seg_shape] in Hshape; apply andb_prop in Hshape as [_ ?].
      * intros; by left.
    + by rewrite match_param_slash_not_colon.
  - by rewrite render_param.
Qed.



(** ** Properties of the module's functions *)

(** ** A placeholder and what follows it *)

Lemma span_ident_name a r :
  all_ident a = true -> (forall c r', r = String c r' -> is_ident_char c = false) ->
  span_ident (a +:+ r) = (a, r).
Proof.
  intros Ha Hr. induction a as [|c a IH].
  - rewrite string_app_nil_l. destruct r as [|c r']; [done|]. cbn. by rewrite (Hr c r' eq_refl).
  - cbn [all_ident] in Ha. apply andb_prop in Ha as [Hc Ha].
    rewrite string_app_cons. cbn [span_ident]. by rewrite Hc, IH.
Qed.

(** The pattern matches a whole name followed by a non-identifier
    character or the end. *)
Lemma match_param_name a r :
  is_name a = true -> (forall c r', r = String c r' -> is_ident_char c = false) ->
  match_param ("/:" +:+ a +:+ r) = Some (a, r).
Proof.
  intros Ha Hr. destruct a as [|c a]; [done|].
  change ("/:" +:+ String c a +:+ r) with (String "/" (String ":" (String c a +:+ r))).
  unfold match_param. by rewrite span_ident_name by (done || by apply is_name_ident).
Qed.

Lemma findall_placeholder a r :
  is_name a = true -> (forall c r', r = String c r' -> is_ident_char c = false) ->
  findall ("/:" +:+ a +:+ r) = ("/:" +:+ a, a) :: findall r.
Proof. intros Ha Hr. unfold findall. by rewrite scan_eq, match_param_name. Qed.

Lemma findall_lit c r : match_param (String c r) = None -> findall (String c r) = findall r.
Proof. intros H. unfold findall. by rewrite scan_eq, H. Qed.

Lemma findall_noslash p : Forall (fun c => c <> "/"%char) (String.list_ascii_of_string p) -> findall p = [].
Proof.
  intros Hp. apply findall_no_placeholder.
  by rewrite <- (string_app_nil_r p), has_placeholder_noslash.
Qed.

Lemma is_name_app a b : is_name a = true -> is_name b = true -> is_name (a +:+ b) = true.
Proof.
  destruct a as [|c a]; [done|]. intros Ha Hb. rewrite string_app_cons.
  change (all_ident (String c a +:+ b) = true). by rewrite all_ident_app, (is_name_ident _ Ha), (is_name_ident _ Hb).
Qed.

Lemma name_no_colon b : all_ident b = true -> Forall (fun c => c <> ":"%char) (String.list_ascii_of_string b).
Proof.
  induction b as [|c b IH]; simpl; [constructor|].
  intros [Hc Hb]%andb_prop. constructor; [|auto]. intros ->. discriminate.
Qed.

(** A text without [':'] holds no needle ["/:" ++ b]. *)
Lemma str_replace_no_colon b new x :
  Forall (fun c => c <> ":"%char) (String.list_ascii_of_string x) -> str_replace ("/:" +:+ b) new x = x.
Proof.
  intros Hx. apply str_replace_absent; [discriminate|]. induction x as [|c x IH]; [done|].
  cbn [String.list_ascii_of_string] in Hx. apply Forall_cons in Hx as [Hc Hx].
  cbn [occurs]. destruct (strip_prefix ("/:" +:+ b) (String c x)) as [r|] eqn:E; [|by apply IH].
  exfalso. apply strip_prefix_spec in E. rewrite !string_app_cons in E. injection E as -> E.
  subst x. cbn in Hx. apply Forall_cons in Hx as [Hx _]. by apply Hx.
Qed.

Lemma str_replace_needle_here a new r :
  str_replace ("/:" +:+ a) new ("/:" +:+ a +:+ r) = new +:+ str_replace ("/:" +:+ a) new r.
Proof. rewrite string_app_assoc. apply str_replace_here. discriminate. Qed.

Lemma safe_value_no_colon w :
  safe_value w = true -> Forall (fun c => c <> ":"%char) (String.list_ascii_of_string w).
Proof. intros [_ Hw]%safe_value_spec. eapply Forall_impl; [exact Hw|]. naive_solver. Qed.

Lemma is_ident_char_spec c : is_ident_char c = true <-> regex_word_char c.
Proof.
  unfold is_ident_char, regex_word_char. rewrite !orb_true_iff, !andb_true_iff, !Nat.leb_le, Nat.eqb_eq.
  split.
  - intros [[H|H]|H]; [left; lia|right; left; lia|right; right].
    rewrite <- (ascii_nat_embedding c), H. reflexivity.
  - intros [H | [H | ->]]; [left; left; lia|left; right; lia|right; reflexivity].
Qed.

Lemma all_ident_word s : all_ident s = true -> Forall regex_word_char (String.list_ascii_of_string s).
Proof.
  induction s as [|c s IH]; simpl; [constructor|].
  intros [Hc Hs]%andb_prop. constructor; [by apply is_ident_char_spec|auto].
Qed.

(** Where a placeholder of the cut sits in the text: after it comes a
    non-identifier character or the end. *)
Lemma scan_split s key :
  SParam key ∈ scan s ->
  exists pre post, s = pre +:+ "/:" +:+ key +:+ post /\
    (forall c post', post = String c post' -> is_ident_char c = false).
Proof.
  induction s as [s IH] using string_len_ind.
  rewrite scan_eq. destruct (match_param s) as [[name rest]|] eqn:E.
  - pose proof (match_param_length _ _ _ E) as Hlen.
    apply match_param_spec in E as (-> & _ & Hrest). intros [Heq|Hin]%elem_of_cons.
    + injection Heq as <-. exists "", rest. split; [done|]. intros c r' ->. done.
    + destruct (IH rest Hlen Hin) as (pre & post & -> & Hp).
      exists ("/:" +:+ name +:+ pre), post. split; [|done]. by rewrite <- !string_app_assoc.
  - destruct s as [|c s]; [by intros ?%elem_of_nil|].
    intros [Heq|Hin]%elem_of_cons; [done|].
    destruct (IH s ltac:(simpl; lia) Hin) as (pre & post & -> & Hp).
    exists (String c pre), post. split; [by rewrite string_app_cons|done].
Qed.

(** The text that [to_url] writes for a name that is a prefix of the next
    one: the first replacement also rewrites the start of the second. *)
Lemma findall_clash a s :
  is_name a = true -> is_name s = true ->
  findall ("/:" +:+ a +:+ "/:" +:+ a +:+ s) = [("/:" +:+ a, a); ("/:" +:+ (a +:+ s), a +:+ s)].
Proof.
  intros Ha Hs. rewrite findall_placeholder; [|done|by intros c r' [= <- _]].
  pose proof (findall_placeholder (a +:+ s) "" (is_name_app a s Ha Hs) ltac:(intros ? ? [=])) as H.
  rewrite string_app_nil_r in H. by rewrite H.
Qed.

Lemma findall_single a : is_name a = true -> findall ("/:" +:+ a) = [("/:" +:+ a, a)].
Proof.
  intros Ha. pose proof (findall_placeholder a "" Ha ltac:(intros ? ? [=])) as H.
  by rewrite string_app_nil_r in H.
Qed.

(** ["//:a:b"]: the first ['/'] is literal, [":b"] follows the name. *)
Lemma findall_slash_colon a b :
  is_name a = true -> is_name b = true -> findall ("/" +:+ "/:" +:+ a +:+ ":" +:+ b) = [("/:" +:+ a, a)].
Proof.
  intros Ha Hb. change ("/" +:+ "/:" +:+ a +:+ ":" +:+ b) with (String "/" ("/:" +:+ a +:+ String ":" b)).
  rewrite findall_lit by reflexivity. rewrite findall_placeholder; [|done|by intros c r' [= <- _]].
  rewrite findall_lit by reflexivity. by rewrite findall_noslash by (by apply name_noslash, is_name_ident).
Qed.

Lemma to_url_loop_missing (params : gmap string pyval) l uri :
  (forall nk, nk ∈ l -> params !! nk.2 = None) ->
  foldl (fun uri '(needle, key) =>
           match params !! key with
           | Some v => str_replace needle ("/" +:+ py_str v) uri
           | None => uri
           end) uri l = uri.
Proof.
  revert uri. induction l as [|[needle key] l IH]; intros uri Hl; simpl; [done|].
  assert (params !! key = None) as ->.
  { apply (Hl (needle, key)). apply list_elem_of_here. }
  apply IH. intros nk Hnk. apply Hl. by apply list_elem_of_further.
Qed.

(** C16: Missing parameters are skipped: when no placeholder's name is a key
    of [params], [to_url] returns the template unchanged. *)
Theorem to_url_missing_params urltemplate (params : gmap string pyval) :
  (forall needle key, (needle, key) ∈ findall urltemplate -> params !! key = None) ->
  to_url urltemplate params = urltemplate.
Proof.
  intros Hmiss. unfold to_url. destruct (findall urltemplate) eqn:E; [done|].
  rewrite <- E. apply to_url_loop_missing. intros [needle key] Hin. simpl.
  rewrite E in Hin. exact (Hmiss needle key Hin).
Qed.

Lemma to_url_eq_re_sub urltemplate (params : gmap string pyval) :
  prefix_free (map snd (findall urltemplate)) = true ->
  safe_values urltemplate params = true ->
  to_url urltemplate params = re_sub (url_subst params) urltemplate.
Proof.
  intros Hpf Hsafe. unfold to_url, re_sub.
  assert (Hinit : urltemplate =
    render (fun b => if bool_decide (b ∈ []) then url_subst params b else "/:" +:+ b) (scan urltemplate)).
  { rewrite <- (render_scan urltemplate) at 1. apply render_ext. intros b _. by rewrite bool_decide_false by set_solver. }
  assert (Hfinal : render (fun b => if bool_decide (b ∈ [] ++ map snd (findall urltemplate))
                                   then url_subst params b else "/:" +:+ b) (scan urltemplate) =
                   render (url_subst params) (scan urltemplate)).
  { apply render_ext. intros b Hb. rewrite bool_decide_true; [done|]. by apply name_in_findall. }
  pose proof (to_url_loop urltemplate params (findall urltemplate) [] Hpf Hsafe ltac:(done)) as Hloop.
  rewrite Hfinal, <- Hinit in Hloop. clear Hfinal Hinit.
  by destruct (findall urltemplate).
Qed.

(** A substituted value that is safe prints as a text that cannot start
    a placeholder. *)
Lemma url_subst_slash_safe (params : gmap string pyval) b v :
  params !! b = Some v -> safe_value (py_str v) = true ->
  slash_safe (url_subst params b) = true /\ exists t, url_subst params b = String "/" t.
Proof.
  intros Hv Hs. unfold url_subst. rewrite Hv. split; [|by eexists].
  apply safe_value_spec in Hs as [(c & w' & Hw & Hc) Hno]. rewrite Hw in *.
  assert (Hw' : slash_safe (String c w') = true).
  { rewrite <- (string_app_nil_r (String c w')), slash_safe_noslash; [done|].
    eapply Forall_impl; [exact Hno|]. naive_solver. }
  rewrite string_app_cons, string_app_nil_l.
  change (negb (bool_decide (c = ":"%char)) && slash_safe (String c w') = true).
  by rewrite bool_decide_false, Hw'.
Qed.

(** C23 (refinement): when no placeholder name of the template is a
    proper prefix of another and every value substituted is non-empty and
    free of ['/'] and [':'], the loop of [str.replace] calls of [to_url]
    computes the one-pass substitution the spec describes: each
    placeholder replaced by ['/' + str(value)] when its name is a
    parameter, and left as it is otherwise. *)
Theorem to_url_one_pass urltemplate (params : gmap string pyval) :
  prefix_free (map snd (findall urltemplate)) = true ->
  safe_values urltemplate params = true ->
  to_url urltemplate params = re_sub (url_subst params) urltemplate.
Proof. exact (to_url_eq_re_sub urltemplate params). Qed.

(** C28 (safety): under the hypotheses of C23, when every placeholder name
    of the template is a parameter, the URI [to_url] returns has no
    placeholder left: no match of [RE_PARAMS]. *)
Theorem to_url_resolves_all urltemplate (params : gmap string pyval) :
  prefix_free (map snd (findall urltemplate)) = true ->
  safe_values urltemplate params = true ->
  (forall key, key ∈ map snd (findall urltemplate) -> is_Some (params !! key)) ->
  findall (to_url urltemplate params) = [].
Proof.
  intros Hpf Hsafe Hall. rewrite to_url_eq_re_sub by done.
  apply findall_no_placeholder. apply render_no_placeholder; [apply scan_shape|].
  intros b Hb. destruct (Hall b (name_in_findall _ _ Hb)) as [v Hv].
  apply (url_subst_slash_safe _ _ v Hv). by apply (safe_values_spec urltemplate params b).
Qed.

Lemma remove_parameters_eq_re_sub urltemplate :
  prefix_free (map snd (findall urltemplate)) = true ->
  slash_param_free (scan urltemplate) = true ->
  remove_parameters urltemplate = re_sub (fun _ => "") urltemplate.
Proof.
  intros Hpf Hfree. unfold remove_parameters, re_sub.
  pose proof (remove_loop urltemplate (findall urltemplate) [] Hpf Hfree ltac:(done)) as Hloop.
  rewrite (render_ext _ (fun name => "/:" +:+ name)), render_scan in Hloop
    by (intros b _; by rewrite bool_decide_false by set_solver).
  rewrite Hloop. apply render_ext. intros b Hb. rewrite bool_decide_true; [done|].
  by apply name_in_findall.
Qed.

(** C19 (equivalence): when no placeholder name of the template is a
    proper prefix of another and no literal ['/'] of the template is
    directly followed by a placeholder, the loop of [str.replace(needle,
    '')] calls of [remove_parameters] computes the one-pass deletion
    [RE_PARAMS.sub('', urltemplate)]: every placeholder removed, the rest
    of the template kept. *)
Theorem remove_parameters_one_pass urltemplate :
  prefix_free (map snd (findall urltemplate)) = true ->
  slash_param_free (scan urltemplate) = true ->
  remove_parameters urltemplate = re_sub (fun _ => "") urltemplate.
Proof. exact (remove_parameters_eq_re_sub urltemplate). Qed.

(** C10 (safety): under the hypotheses of C19, the text
    [remove_parameters] returns has no placeholder left: no match of
    [RE_PARAMS].  (It may still contain a literal ["/:"], as
    ["/:/:a"] does.) *)
Theorem remove_parameters_no_placeholder urltemplate :
  prefix_free (map snd (findall urltemplate)) = true ->
  slash_param_free (scan urltemplate) = true ->
  findall (remove_parameters urltemplate) = [].
Proof.
  intros Hpf Hfree. rewrite remove_parameters_eq_re_sub by done.
  apply findall_no_placeholder, render_del_no_placeholder; [apply scan_shape|done].
Qed.

(** C24: [to_django_urlpattern] leaves no placeholder: the pattern it
    returns has no match of [RE_PARAMS]. *)
Theorem to_django_urlpattern_no_placeholder path : findall (to_django_urlpattern path) = [].
Proof.
  apply findall_no_placeholder. unfold to_django_urlpattern, re_sub.
  apply render_no_placeholder; [apply scan_shape|]. intros b Hb. split; [|by eexists].
  rewrite !string_app_cons, string_app_nil_l. cbn [slash_safe]. rewrite bool_decide_true by done. simpl.
  rewrite slash_safe_noslash; [done|]. apply name_noslash, is_name_ident. by apply (scan_names path).
Qed.

(** ** Witnesses *)

Lemma to_url_missing_params_witness : to_url "/users/:id/posts/:slug" {[ "page" := PInt 2 ]} = "/users/:id/posts/:slug".
Proof.
  apply to_url_missing_params. intros needle key Hin. vm_compute in Hin.
  apply elem_of_cons in Hin as [[= -> ->]|Hin]; [reflexivity|].
  apply elem_of_cons in Hin as [[= -> ->]|[]%elem_of_nil]; reflexivity.
Defined.

Lemma to_url_one_pass_witness :
  to_url "/users/:id/posts/:slug" (<["id" := PInt 5]> {[ "slug" := PStr "hello" ]}) =
    re_sub (url_subst (<["id" := PInt 5]> {[ "slug" := PStr "hello" ]})) "/users/:id/posts/:slug".
Proof. apply to_url_one_pass; vm_compute; reflexivity. Defined.

Lemma to_url_resolves_all_witness :
  findall (to_url "/users/:id/posts/:slug" (<["id" := PInt 5]> {[ "slug" := PStr "hello" ]})) = [].
Proof.
  apply to_url_resolves_all; [vm_compute; reflexivity..|]. intros key Hk. vm_compute in Hk.
  apply elem_of_cons in Hk as [->|Hk]; [vm_compute; by eexists|].
  apply elem_of_cons in Hk as [->|[]%elem_of_nil]; vm_compute; by eexists.
Defined.

Lemma remove_parameters_one_pass_witness :
  remove_parameters "/users/:id/posts/:slug" = re_sub (fun _ => "") "/users/:id/posts/:slug".
Proof. apply remove_parameters_one_pass; vm_compute; reflexivity. Defined.

Lemma remove_parameters_no_placeholder_witness :
  findall (remove_parameters "/users/:id/posts/:slug") = [].
Proof. apply remove_parameters_no_placeholder; vm_compute; reflexivity. Defined.

(** C20 (type): every pair [RE_PARAMS.findall(s)] returns is a
    whole match of [(/:([a-zA-Z_]+))]: the needle is ["/:" ++ key], the
    key a non-empty run of the characters [[a-zA-Z_]] (as their ASCII
    ranges, [regex_word_char]), and the needle occurs in [s] with no
    such character after it: the name is taken whole (the [+] is greedy). *)
Theorem findall_sound s needle key :
  (needle, key) ∈ findall s ->
  needle = "/:" +:+ key /\ key <> EmptyString /\ Forall regex_word_char (String.list_ascii_of_string key) /\
  exists pre post, s = pre +:+ needle +:+ post /\
    (forall c post', post = String c post' -> ~ regex_word_char c).
Proof.
  unfold findall. intros (sg & Hin & Hf)%list_elem_of_omap.
  destruct sg as [c|name]; simplify_eq.
  pose proof (scan_names s key Hin) as Hk. destruct (scan_split s key Hin) as (pre & post & Hs & Hp).
  split_and!; [done|by destruct key|by apply all_ident_word, is_name_ident|].
  exists pre, post. split; [done|]. intros c post' Hpost Hw%is_ident_char_spec.
  by rewrite (Hp c post' Hpost) in Hw.
Qed.

(** C17 (spec divergence): the spec says each placeholder is
    replaced by its value; [str.replace] of the needle ["/:a"] also
    rewrites the start of a longer placeholder ["/:a" ++ s]: for all names
    [a] and [s] and every value [v] of [a] that is a safe value, [to_url]
    of ["/:a/:as"] is ["/v/vs"], whatever the parameters say of [a ++ s]. *)
Theorem to_url_prefix_clash a s (params : gmap string pyval) v :
  is_name a = true -> is_name s = true -> params !! a = Some v -> safe_value (py_str v) = true ->
  to_url ("/:" +:+ a +:+ "/:" +:+ a +:+ s) params = "/" +:+ py_str v +:+ "/" +:+ py_str v +:+ s.
Proof.
  intros Ha Hs Hv Hw. unfold to_url. rewrite findall_clash by done. cbn [foldl]. rewrite Hv.
  rewrite !str_replace_needle_here, (str_replace_no_colon a _ s) by (by apply name_no_colon, is_name_ident).
  assert (HX : Forall (fun c => c <> ":"%char)
                 (String.list_ascii_of_string (("/" +:+ py_str v) +:+ ("/" +:+ py_str v) +:+ s))).
  { rewrite !list_ascii_of_string_app, !Forall_app.
    split_and!; try (by apply safe_value_no_colon); try (by repeat constructor).
    by apply name_no_colon, is_name_ident. }
  destruct (params !! (a +:+ s)); [rewrite str_replace_no_colon by exact HX|]; by rewrite <- !string_app_assoc.
Qed.

(** C18 (spec divergence): the spec says every placeholder is
    removed; removing ["/:a"] from ["//:a:b"] joins the literal ['/'] and
    [":b"] into a new placeholder ["/:b"], for all names [a] and [b]: the
    text had one placeholder, the result has one again. *)
Theorem remove_parameters_new_placeholder a b :
  is_name a = true -> is_name b = true ->
  findall ("/" +:+ "/:" +:+ a +:+ ":" +:+ b) = [("/:" +:+ a, a)] /\
  remove_parameters ("/" +:+ "/:" +:+ a +:+ ":" +:+ b) = "/:" +:+ b /\
  findall (remove_parameters ("/" +:+ "/:" +:+ a +:+ ":" +:+ b)) = [("/:" +:+ b, b)].
Proof.
  intros Ha Hb.
  assert (Hr : remove_parameters ("/" +:+ "/:" +:+ a +:+ ":" +:+ b) = "/:" +:+ b).
  { unfold remove_parameters. rewrite findall_slash_colon by done. cbn [foldl].
    change ("/" +:+ "/:" +:+ a +:+ ":" +:+ b) with (String "/" ("/:" +:+ a +:+ String ":" b)).
    rewrite str_replace_skip by (discriminate || by apply strip_needle_slash).
    rewrite str_replace_needle_here, str_replace_skip by (discriminate || reflexivity).
    by rewrite str_replace_no_colon by (by apply name_no_colon, is_name_ident). }
  split_and!; [by apply findall_slash_colon|exact Hr|]. rewrite Hr. by apply findall_single.
Qed.

(** C29 (spec divergence): the spec says that with every
    placeholder given a value no [/:name] token is left; [to_url] inserts
    values as they are, so for all names [a] and [b] a value [":b"] of [a]
    turns the template ["/:a"], whose one placeholder is resolved, into
    the placeholder ["/:b"]. *)
Theorem to_url_value_makes_placeholder a b (params : gmap string pyval) :
  is_name a = true -> is_name b = true -> params !! a = Some (PStr (":" +:+ b)) ->
  findall ("/:" +:+ a) = [("/:" +:+ a, a)] /\
  to_url ("/:" +:+ a) params = "/:" +:+ b /\ findall (to_url ("/:" +:+ a) params) = [("/:" +:+ b, b)].
Proof.
  intros Ha Hb Hv.
  assert (Hu : to_url ("/:" +:+ a) params = "/:" +:+ b).
  { unfold to_url. rewrite findall_single by done. cbn [foldl]. rewrite Hv. cbn [py_str].
    pose proof (str_replace_needle_here a ("/" +:+ (":" +:+ b)) "") as H.
    rewrite string_app_nil_r in H. rewrite H.
    change (str_replace ("/:" +:+ a) ("/" +:+ (":" +:+ b)) "") with "". by rewrite string_app_nil_r. }
  split_and!; [by apply findall_single|exact Hu|]. rewrite Hu. by apply findall_single.
Qed.

(** ** Witnesses *)

Lemma findall_sound_witness :
  "/:id" = "/:" +:+ "id" /\ "id" <> EmptyString /\ Forall regex_word_char (String.list_ascii_of_string "id") /\
  exists pre post, "/users/:id/x" = pre +:+ "/:id" +:+ post /\
    (forall c post', post = String c post' -> ~ regex_word_char c).
Proof. apply (findall_sound "/users/:id/x"). vm_compute. left. Defined.

Lemma to_url_prefix_clash_witness :
  to_url "/:id/:idx" (<["id" := PInt 1]> {[ "idx" := PInt 2 ]}) = "/1/1x".
Proof.
  apply (to_url_prefix_clash "id" "x" (<["id" := PInt 1]> {[ "idx" := PInt 2 ]}) (PInt 1));
    vm_compute; reflexivity.
Defined.

Lemma remove_parameters_new_placeholder_witness :
  findall "//:a:b" = [("/:a", "a")] /\ remove_parameters "//:a:b" = "/:b" /\
  findall (remove_parameters "//:a:b") = [("/:b", "b")].
Proof. apply (remove_parameters_new_placeholder "a" "b"); reflexivity. Defined.

Lemma to_url_value_makes_placeholder_witness :
  findall "/:a" = [("/:a", "a")] /\ to_url "/:a" {[ "a" := PStr ":b" ]} = "/:b" /\
  findall (to_url "/:a" {[ "a" := PStr ":b" ]}) = [("/:b", "b")].
Proof. apply (to_url_value_makes_placeholder "a" "b" {[ "a" := PStr ":b" ]}); vm_compute; reflexivity. Defined.
End UrlTemplate.
