(* ===== verification/HttpDate.v ===== *)
(** * Datetimes and the HTTP-date interface

    [Response.set_last_modified] writes [http_date(times.to_unix(dt))]
    into the [Last-Modified] header.  [http_date] (Django) and
    [times.to_unix] are libraries the source calls, so the response model
    takes their composition through the class [HttpDate]; the record
    [datetime] holds the fields of a Python [datetime.datetime]. *)

From stdpp Require Import base strings.
From Stdlib Require Import ZArith.
From S2P Require Import Prelude.

Record datetime := mkDatetime {
  dt_year : Z; dt_month : Z; dt_day : Z;
  dt_hour : Z; dt_minute : Z; dt_second : Z
}.

(** [http_date(times.to_unix(dt))]: the RFC 1123 form of a datetime. *)
Class HttpDate := {
  http_date_of : datetime -> string
}.
