(* ===== verification/Calendar.v ===== *)
(** * The HTTP date of a datetime: [http_date(times.to_unix(dt))]

    [Response.set_last_modified] (responses.py:29) writes
    [http_date(times.to_unix(dt))] into [Last-Modified].  These are
    library functions, not in [src/]; this file models the code they run,
    as Python 2 and Django publish it, and gives the concrete instance of
    the class [HttpDate]:
    - [times.to_unix(dt)] is [calendar.timegm(dt.utctimetuple())];
      [calendar.timegm] counts days with [datetime.date(...).toordinal()],
      i.e. CPython's [_ymd2ord] ([_days_before_year], [_days_before_month],
      the tables [_DAYS_IN_MONTH], [_DAYS_BEFORE_MONTH]);
    - Django's [http_date(t)] is [email.utils.formatdate(t, usegmt=True)],
      which prints the fields of [time.gmtime(t)]; [gmtime] is C, modelled
      by its POSIX definition with CPython's inverse [_ord2ymd] for the
      calendar date.
    Python's [//], [%] and [divmod] with a positive divisor are [Z.div] and
    [Z.modulo]; [True]/[False] in arithmetic are [Z.b2z]; an [assert] is not
    a branch of the code: the theorems show that each one holds. *)

From stdpp Require Import base numbers list list_numbers strings.
From Stdlib Require Import ZArith Ascii.
From S2P Require Import Prelude HttpDate.

Module Calendar.

Local Open Scope Z_scope.

(** [lst[i]] for an index the code's asserts keep in range. *)
Definition py_index (lst : list Z) (i : Z) : Z := nth (Z.to_nat i) lst 0.

(** [_DAYS_IN_MONTH = [-1, 31, 28, 31, 30, 31, 30, 31, 31, 30, 31, 30, 31]] *)
Definition _DAYS_IN_MONTH : list Z := [-1; 31; 28; 31; 30; 31; 30; 31; 31; 30; 31; 30; 31].

(** [for dim in _DAYS_IN_MONTH[1:]: _DAYS_BEFORE_MONTH.append(dbm); dbm += dim] *)
Fixpoint days_before_month_loop (dbm : Z) (dims : list Z) : list Z :=
  match dims with
  | [] => []
  | dim :: dims => dbm :: days_before_month_loop (dbm + dim) dims
  end.

Definition _DAYS_BEFORE_MONTH : list Z := -1 :: days_before_month_loop 0 (tail _DAYS_IN_MONTH).

(** [_is_leap(year)] *)
Definition _is_leap (year : Z) : bool :=
  (year mod 4 =? 0) && (negb (year mod 100 =? 0) || (year mod 400 =? 0)).

(** [_days_before_year(year)]: days before January 1st of [year]. *)
Definition _days_before_year (year : Z) : Z :=
  let y := year - 1 in
  y * 365 + y / 4 - y / 100 + y / 400.

(** [_days_in_month(year, month)] *)
Definition _days_in_month (year month : Z) : Z :=
  if (month =? 2) && _is_leap year then 29 else py_index _DAYS_IN_MONTH month.

(** [_days_before_month(year, month)] *)
Definition _days_before_month (year month : Z) : Z :=
  py_index _DAYS_BEFORE_MONTH month + Z.b2z ((month >? 2) && _is_leap year).

(** [_ymd2ord(year, month, day)]: 01-Jan-0001 is day 1. *)
Definition _ymd2ord (year month day : Z) : Z :=
  _days_before_year year + _days_before_month year month + day.

(** [_DI400Y], [_DI100Y], [_DI4Y]: the days of 400, 100 and 4 years. *)
Definition _DI400Y : Z := _days_before_year 401.
Definition _DI100Y : Z := _days_before_year 101.
Definition _DI4Y : Z := _days_before_year 5.

(** [_ord2ymd(n)]: the inverse, by 400-, 100-, 4- and 1-year cycles, then
    a month estimate [(n + 50) >> 5] corrected by one. *)
Definition _ord2ymd (n : Z) : Z * Z * Z :=
  let n := n - 1 in
  let n400 := n / _DI400Y in let n := n mod _DI400Y in
  let year := n400 * 400 + 1 in
  let n100 := n / _DI100Y in let n := n mod _DI100Y in
  let n4 := n / _DI4Y in let n := n mod _DI4Y in
  let n1 := n / 365 in let n := n mod 365 in
  let year := year + n100 * 100 + n4 * 4 + n1 in
  if (n1 =? 4) || (n100 =? 4) then (year - 1, 12, 31)
  else
    let leapyear := (n1 =? 3) && (negb (n4 =? 24) || (n100 =? 3)) in
    let month := Z.shiftr (n + 50) 5 in
    let preceding := py_index _DAYS_BEFORE_MONTH month + Z.b2z ((month >? 2) && leapyear) in
    let '(month, preceding) :=
      if preceding >? n then
        let month := month - 1 in
        (month, preceding - (py_index _DAYS_IN_MONTH month + Z.b2z ((month =? 2) && leapyear)))
      else (month, preceding) in
    let n := n - preceding in
    (year, month, n + 1).

(** The last lines of [_ord2ymd], from [month = (n + 50) >> 5] on, for the
    day [n] (from 0) of [year]. *)
Definition ord2ymd_month (year n : Z) (leapyear : bool) : Z * Z * Z :=
  let month := Z.shiftr (n + 50) 5 in
  let preceding := py_index _DAYS_BEFORE_MONTH month + Z.b2z ((month >? 2) && leapyear) in
  let '(month, preceding) :=
    if preceding >? n then
      let month := month - 1 in
      (month, preceding - (py_index _DAYS_IN_MONTH month + Z.b2z ((month =? 2) && leapyear)))
    else (month, preceding) in
  let n := n - preceding in
  (year, month, n + 1).

(** [_EPOCH_ORD = datetime.date(1970, 1, 1).toordinal()] *)
Definition _EPOCH_ORD : Z := _ymd2ord 1970 1 1.

(** [calendar.timegm(tuple)] *)
Definition timegm (year month day hour minute second : Z) : Z :=
  let days := _ymd2ord year month 1 - _EPOCH_ORD + day - 1 in
  let hours := days * 24 + hour in
  let minutes := hours * 60 + minute in
  minutes * 60 + second.

(** [times.to_unix(dt)] = [calendar.timegm(dt.utctimetuple())], for a
    naive (UTC) datetime. *)
Definition to_unix (dt : datetime) : Z :=
  timegm (dt_year dt) (dt_month dt) (dt_day dt) (dt_hour dt) (dt_minute dt) (dt_second dt).

(** The checks [datetime.datetime(...)] makes of its fields
    ([_check_date_fields], [_check_time_fields]; [MINYEAR] is 1, [MAXYEAR]
    9999): a [datetime] object always passes them. *)
Definition _check_fields (dt : datetime) : bool :=
  (1 <=? dt_year dt) && (dt_year dt <=? 9999) && (1 <=? dt_month dt) && (dt_month dt <=? 12) &&
  (1 <=? dt_day dt) && (dt_day dt <=? _days_in_month (dt_year dt) (dt_month dt)) &&
  (0 <=? dt_hour dt) && (dt_hour dt <=? 23) && (0 <=? dt_minute dt) && (dt_minute dt <=? 59) &&
  (0 <=? dt_second dt) && (dt_second dt <=? 59).

(** The fields of [time.struct_time] that [formatdate] prints. *)
Record struct_time := mkStructTime {
  tm_year : Z; tm_mon : Z; tm_mday : Z; tm_hour : Z; tm_min : Z; tm_sec : Z; tm_wday : Z
}.

(** [time.gmtime(t)]: whole days since the epoch and the seconds of the
    day; the date by [_ord2ymd]; the weekday as [date.weekday()], Monday 0. *)
Definition gmtime (t : Z) : struct_time :=
  let days := t / 86400 in
  let secs := t mod 86400 in
  let '(y, m, d) := _ord2ymd (days + _EPOCH_ORD) in
  {| tm_year := y; tm_mon := m; tm_mday := d;
     tm_hour := secs / 3600; tm_min := secs mod 3600 / 60; tm_sec := secs mod 60;
     tm_wday := (days + _EPOCH_ORD + 6) mod 7 |}.

(** Decimal digits of a non-negative integer, most significant first. *)
Definition digit (d : Z) : ascii := ascii_of_nat (48 + Z.to_nat d).

Fixpoint decimal_fuel (fuel : nat) (n : Z) : string :=
  match fuel with
  | O => ""
  | S fuel =>
      if n <? 10 then String (digit n) EmptyString
      else decimal_fuel fuel (n / 10) +:+ String (digit (n mod 10)) EmptyString
  end.

(** One digit per step: [n] has at most [log2 n + 1] digits. *)
Definition decimal (n : Z) : string := decimal_fuel (S (Z.to_nat (Z.log2 n))) n.

Fixpoint zeros (k : nat) : string :=
  match k with O => EmptyString | S k => String "0" (zeros k) end.

(** ['%0wd' % n]: the digits padded with zeros to width [w], the sign
    counting in the width. *)
Definition format_0d (w : nat) (n : Z) : string :=
  if n <? 0 then let s := decimal (- n) in "-" +:+ zeros (w - 1 - String.length s) +:+ s
  else let s := decimal n in zeros (w - String.length s) +:+ s.

Definition weekday_names : list string := ["Mon"; "Tue"; "Wed"; "Thu"; "Fri"; "Sat"; "Sun"].
Definition month_names : list string :=
  ["Jan"; "Feb"; "Mar"; "Apr"; "May"; "Jun"; "Jul"; "Aug"; "Sep"; "Oct"; "Nov"; "Dec"].

Definition name_at (names : list string) (i : Z) : string := nth (Z.to_nat i) names "".

(** [email.utils.formatdate(timeval, usegmt=True)]:
    ['%s, %02d %s %04d %02d:%02d:%02d %s' % (...)] over [time.gmtime(timeval)]. *)
Definition formatdate (timeval : Z) : string :=
  let now := gmtime timeval in
  name_at weekday_names (tm_wday now) +:+ ", " +:+ format_0d 2 (tm_mday now) +:+ " " +:+
  name_at month_names (tm_mon now - 1) +:+ " " +:+ format_0d 4 (tm_year now) +:+ " " +:+
  format_0d 2 (tm_hour now) +:+ ":" +:+ format_0d 2 (tm_min now) +:+ ":" +:+
  format_0d 2 (tm_sec now) +:+ " " +:+ "GMT".

(** Django's [http_date(epoch_seconds)] = [formatdate(epoch_seconds, usegmt=True)]. *)
Definition http_date (epoch_seconds : Z) : string := formatdate epoch_seconds.

(** [http_date(times.to_unix(dt))], the instance [set_last_modified] uses. *)
#[export] Instance calendar_http_date : HttpDate := {|
  http_date_of := fun dt => http_date (to_unix dt)
|}.

(** ** Checks and reference definitions for the proofs *)

(** Every day [d] of every month [m] of a year, leap or not, as the code's
    tables give them: the month step on its day of the year gives [m] and
    [d] back.  366 + 365 cases, by evaluation. *)
Definition month_step_inverts (leap : bool) : bool :=
  forallb (fun m =>
    forallb (fun d =>
      let k := py_index _DAYS_BEFORE_MONTH m + Z.b2z ((m >? 2) && leap) + d - 1 in
      bool_decide (0 <= k < 365 + Z.b2z leap) && bool_decide (ord2ymd_month 0 k leap = (0, m, d)))
      (seqZ 1 (if (m =? 2) && leap then 29 else py_index _DAYS_IN_MONTH m)))
    (seqZ 1 12).

(** Every day of the year comes from a day of a month. *)
Definition month_step_onto (leap : bool) : bool :=
  forallb (fun k =>
    let '(_, m, d) := ord2ymd_month 0 k leap in
    bool_decide (1 <= m <= 12) &&
    bool_decide (1 <= d <= (if (m =? 2) && leap then 29 else py_index _DAYS_IN_MONTH m)) &&
    bool_decide (py_index _DAYS_BEFORE_MONTH m + Z.b2z ((m >? 2) && leap) + d - 1 = k))
    (seqZ 0 (365 + Z.b2z leap)).

(** The reference: a year is a leap year when 4 divides it and 100 does
    not, or 400 does; the months have their lengths; the days before a date
    are counted year by year and month by month. *)
#[local] Instance Z_divide_decision (k y : Z) : Decision (k | y).
Proof.
  destruct (decide (k = 0)) as [->|Hk].
  - destruct (decide (y = 0)) as [->|Hy]; [left; exists 0; lia|right; intros [z Hz]; lia].
  - destruct (decide (y mod k = 0)); [left; by apply Z.mod_divide|right; intros H; by apply Z.mod_divide in H].
Defined.

Definition gregorian_leap (y : Z) : bool := bool_decide ((4 | y) /\ (~ (100 | y) \/ (400 | y))).

Definition month_length (leap : bool) (m : Z) : Z :=
  if decide (m = 2) then (if leap then 29 else 28)
  else if decide (m = 4 \/ m = 6 \/ m = 9 \/ m = 11) then 30 else 31.

Fixpoint days_of_years (k : nat) : Z :=
  match k with
  | O => 0
  | S k => days_of_years k + (if gregorian_leap (Z.of_nat (S k)) then 366 else 365)
  end.

Fixpoint days_of_months (leap : bool) (k : nat) : Z :=
  match k with
  | O => 0
  | S k => days_of_months leap k + month_length leap (Z.of_nat (S k))
  end.

Definition ordinal_ref (y m d : Z) : Z :=
  days_of_years (Z.to_nat (y - 1)) + days_of_months (gregorian_leap y) (Z.to_nat (m - 1)) + d.

(** The table of days before a month, on every month, leap or not. *)
Definition days_before_month_agrees (leap : bool) : bool :=
  forallb (fun m => bool_decide (py_index _DAYS_BEFORE_MONTH m + Z.b2z ((m >? 2) && leap) =
                                 days_of_months leap (Z.to_nat (m - 1))))
    (seqZ 1 12).

(** ** The year cycles *)

(** A year [y] with [y - 1] in 400-, 100-, 4- and 1-year cycles: the days
    before it and whether it is a leap year read off the digits. *)
Lemma year_digits q a b c :
  0 <= a <= 3 -> 0 <= b <= 24 -> 0 <= c <= 3 ->
  _days_before_year (q * 400 + 1 + a * 100 + b * 4 + c) = 146097 * q + 36524 * a + 1461 * b + 365 * c /\
  _is_leap (q * 400 + 1 + a * 100 + b * 4 + c) = (c =? 3) && (negb (b =? 24) || (a =? 3)).
Proof.
  intros Ha Hb Hc. set (y := q * 400 + 1 + a * 100 + b * 4 + c).
  assert (H4 : (y - 1) / 4 = 100 * q + 25 * a + b) by (symmetry; apply Z.div_unique with c; lia).
  assert (H100 : (y - 1) / 100 = 4 * q + a) by (symmetry; apply Z.div_unique with (4 * b + c); lia).
  assert (H400 : (y - 1) / 400 = q) by (symmetry; apply Z.div_unique with (100 * a + 4 * b + c); lia).
  unfold _days_before_year, _is_leap. rewrite H4, H100, H400. split; [lia|].
  assert (M4 : y mod 4 = 0 <-> c = 3).
  { split; [intros H; apply Z.mod_divide in H as [k Hk]; lia|intros ->; symmetry; apply Z.mod_unique with (100 * q + 25 * a + b + 1); lia]. }
  assert (M100 : y mod 100 = 0 <-> c = 3 /\ b = 24).
  { split; [intros H; apply Z.mod_divide in H as [k Hk]; lia|intros [-> ->]; symmetry; apply Z.mod_unique with (4 * q + a + 1); lia]. }
  assert (M400 : y mod 400 = 0 <-> c = 3 /\ b = 24 /\ a = 3).
  { split; [intros H; apply Z.mod_divide in H as [k Hk]; lia|intros (-> & -> & ->); symmetry; apply Z.mod_unique with (q + 1); lia]. }
  destruct (Z.eqb_spec c 3), (Z.eqb_spec b 24), (Z.eqb_spec a 3),
    (Z.eqb_spec (y mod 4) 0), (Z.eqb_spec (y mod 100) 0), (Z.eqb_spec (y mod 400) 0); simpl; naive_solver lia.
Qed.

(** Every year has such digits. *)
Lemma year_cycles y :
  exists q a b c, y = q * 400 + 1 + a * 100 + b * 4 + c /\ 0 <= a <= 3 /\ 0 <= b <= 24 /\ 0 <= c <= 3.
Proof.
  exists ((y - 1) / 400), ((y - 1) mod 400 / 100), ((y - 1) mod 400 mod 100 / 4), ((y - 1) mod 400 mod 100 mod 4).
  pose proof (Z.div_mod (y - 1) 400 ltac:(lia)). pose proof (Z.mod_pos_bound (y - 1) 400 ltac:(lia)).
  pose proof (Z.div_mod ((y - 1) mod 400) 100 ltac:(lia)). pose proof (Z.mod_pos_bound ((y - 1) mod 400) 100 ltac:(lia)).
  pose proof (Z.div_mod ((y - 1) mod 400 mod 100) 4 ltac:(lia)).
  pose proof (Z.mod_pos_bound ((y - 1) mod 400 mod 100) 4 ltac:(lia)).
  split_and!; lia.
Qed.

(** [_ord2ymd] on an ordinal given by its digits in the cycles: the year
    they spell, then the month step on the day of the year. *)
Lemma _ord2ymd_digits n q N a R b R2 c k :
  n - 1 = 146097 * q + N -> 0 <= N < 146097 -> N = 36524 * a + R -> 0 <= R < 36524 ->
  R = 1461 * b + R2 -> 0 <= R2 < 1461 -> R2 = 365 * c + k -> 0 <= k < 365 ->
  _ord2ymd n =
    (let year := q * 400 + 1 + a * 100 + b * 4 + c in
     if (c =? 4) || (a =? 4) then (year - 1, 12, 31)
     else ord2ymd_month year k ((c =? 3) && (negb (b =? 24) || (a =? 3)))).
Proof.
  intros Hn HN HNa HR HRb HR2 HR2c Hk. unfold _ord2ymd.
  replace _DI400Y with 146097 by reflexivity. replace _DI100Y with 36524 by reflexivity.
  replace _DI4Y with 1461 by reflexivity.
  assert (E1 : (n - 1) / 146097 = q) by (symmetry; apply Z.div_unique with N; lia).
  assert (E2 : (n - 1) mod 146097 = N) by (symmetry; apply Z.mod_unique with q; lia).
  assert (E3 : N / 36524 = a) by (symmetry; apply Z.div_unique with R; lia).
  assert (E4 : N mod 36524 = R) by (symmetry; apply Z.mod_unique with a; lia).
  assert (E5 : R / 1461 = b) by (symmetry; apply Z.div_unique with R2; lia).
  assert (E6 : R mod 1461 = R2) by (symmetry; apply Z.mod_unique with b; lia).
  assert (E7 : R2 / 365 = c) by (symmetry; apply Z.div_unique with k; lia).
  assert (E8 : R2 mod 365 = k) by (symmetry; apply Z.mod_unique with c; lia).
  rewrite E1, E2, E3, E4, E5, E6, E7, E8. reflexivity.
Qed.

(** ** The month step, checked on every day of a year *)

(** The month step only passes the year through. *)
Lemma ord2ymd_month_year y k leap :
  ord2ymd_month y k leap = (y, (ord2ymd_month 0 k leap).1.2, (ord2ymd_month 0 k leap).2).
Proof. unfold ord2ymd_month. by destruct (_ >? k). Qed.

Lemma month_step_inverts_true leap : month_step_inverts leap = true.
Proof. destruct leap; vm_compute; reflexivity. Qed.

Lemma month_step_onto_true leap : month_step_onto leap = true.
Proof. destruct leap; vm_compute; reflexivity. Qed.

Lemma forallb_seqZ (f : Z -> bool) a n z : forallb f (seqZ a n) = true -> a <= z < a + n -> f z = true.
Proof. rewrite forallb_forall. intros Hf Hz. apply Hf, list_elem_of_In, elem_of_seqZ. lia. Qed.

(** The day of the year of [(y, m, d)] is a day of the year [y], and the
    month step on it gives [(y, m, d)]. *)
Lemma ord2ymd_month_day y m d :
  1 <= m <= 12 -> 1 <= d <= _days_in_month y m ->
  0 <= _days_before_month y m + d - 1 < 365 + Z.b2z (_is_leap y) /\
  ord2ymd_month y (_days_before_month y m + d - 1) (_is_leap y) = (y, m, d).
Proof.
  intros Hm Hd. unfold _days_in_month, _days_before_month in *.
  pose proof (forallb_seqZ _ _ _ m (month_step_inverts_true (_is_leap y)) ltac:(lia)) as Hm'.
  cbv beta in Hm'. pose proof (forallb_seqZ _ _ _ d Hm' ltac:(lia)) as Hd'.
  apply andb_prop in Hd' as [Hr Hd']. apply bool_decide_eq_true in Hr, Hd'.
  split; [done|]. rewrite ord2ymd_month_year, Hd'. reflexivity.
Qed.

(** Every day [k] of the year [y] is the day of the year of a date
    [(y, m, d)]. *)
Lemma ord2ymd_month_onto y k :
  0 <= k < 365 + Z.b2z (_is_leap y) ->
  exists m d, ord2ymd_month y k (_is_leap y) = (y, m, d) /\ 1 <= m <= 12 /\ 1 <= d <= _days_in_month y m /\
    _days_before_month y m + d - 1 = k.
Proof.
  intros Hk. pose proof (forallb_seqZ _ _ _ k (month_step_onto_true (_is_leap y)) ltac:(lia)) as Hk'.
  cbv beta in Hk'. rewrite ord2ymd_month_year. destruct (ord2ymd_month 0 k (_is_leap y)) as [[y0 m] d]. cbn [fst snd].
  apply andb_prop in Hk' as [Hk' H3]. apply andb_prop in Hk' as [H1 H2].
  apply bool_decide_eq_true in H1, H2, H3. exists m, d. unfold _days_in_month, _days_before_month. naive_solver.
Qed.

(** ** [_ord2ymd] inverts [_ymd2ord] *)

(** [_ord2ymd] on the day [k] of the year [y]: the cycles give back [y],
    the code's [leapyear] is [_is_leap y], and the last day of a leap year,
    which the code returns early, is what the month step gives too. *)
Lemma ord2ymd_year_day y k :
  0 <= k < 365 + Z.b2z (_is_leap y) ->
  _ord2ymd (_days_before_year y + k + 1) = ord2ymd_month y k (_is_leap y).
Proof.
  intros Hk. destruct (year_cycles y) as (q & a & b & c & -> & Ha & Hb & Hc).
  destruct (year_digits q a b c Ha Hb Hc) as [-> Hleap]. rewrite Hleap in Hk |- *.
  destruct (decide (k <= 364)) as [Hk364|Hk365].
  - rewrite (_ord2ymd_digits _ q (36524 * a + 1461 * b + 365 * c + k) a (1461 * b + 365 * c + k) b (365 * c + k) c k)
      by lia.
    cbv zeta. by rewrite (proj2 (Z.eqb_neq c 4)), (proj2 (Z.eqb_neq a 4)) by lia.
  - assert (k = 365 /\ c = 3 /\ (b <> 24 \/ a = 3)) as (-> & -> & Hba).
    { destruct (Z.eqb_spec c 3), (Z.eqb_spec b 24), (Z.eqb_spec a 3); simpl in Hk; lia. }
    assert (Hl : (3 =? 3) && (negb (b =? 24) || (a =? 3)) = true)
      by (destruct (Z.eqb_spec b 24), (Z.eqb_spec a 3); simpl; lia).
    rewrite Hl, ord2ymd_month_year. change (ord2ymd_month 0 365 true) with (0, 12, 31).
    destruct (decide (b = 24)) as [->|Hb24].
    + assert (a = 3) as -> by lia.
      rewrite (_ord2ymd_digits _ q 146096 4 0 0 0 0 0) by lia. cbv zeta. simpl. f_equal. f_equal. lia.
    + rewrite (_ord2ymd_digits _ q (36524 * a + 1461 * b + 1460) a (1461 * b + 1460) b 1460 4 0) by lia.
      cbv zeta. simpl. f_equal. f_equal. lia.
Qed.

Lemma ord2ymd_ymd2ord_aux y m d :
  1 <= m <= 12 -> 1 <= d <= _days_in_month y m -> _ord2ymd (_ymd2ord y m d) = (y, m, d).
Proof.
  intros Hm Hd. destruct (ord2ymd_month_day y m d Hm Hd) as [Hr Heq]. unfold _ymd2ord.
  replace (_days_before_year y + _days_before_month y m + d)
    with (_days_before_year y + (_days_before_month y m + d - 1) + 1) by lia.
  by rewrite ord2ymd_year_day.
Qed.

(** Every ordinal is a day of some year. *)
Lemma ordinal_year_day n :
  exists y k, n = _days_before_year y + k + 1 /\ 0 <= k < 365 + Z.b2z (_is_leap y).
Proof.
  pose proof (Z.div_mod (n - 1) 146097 ltac:(lia)). pose proof (Z.mod_pos_bound (n - 1) 146097 ltac:(lia)).
  set (q := (n - 1) / 146097) in *. set (N := (n - 1) mod 146097) in *.
  pose proof (Z.div_mod N 36524 ltac:(lia)). pose proof (Z.mod_pos_bound N 36524 ltac:(lia)).
  set (a := N / 36524) in *. set (R := N mod 36524) in *.
  pose proof (Z.div_mod R 1461 ltac:(lia)). pose proof (Z.mod_pos_bound R 1461 ltac:(lia)).
  set (b := R / 1461) in *. set (R2 := R mod 1461) in *.
  pose proof (Z.div_mod R2 365 ltac:(lia)). pose proof (Z.mod_pos_bound R2 365 ltac:(lia)).
  set (c := R2 / 365) in *. set (k := R2 mod 365) in *.
  clearbody q N a R b R2 c k.
  destruct (decide (a = 4)) as [->|Ha].
  - destruct (year_digits q 3 24 3) as [Hd Hl]; [lia..|].
    exists (q * 400 + 1 + 3 * 100 + 24 * 4 + 3), 365. rewrite Hd, Hl. simpl. lia.
  - destruct (decide (c = 4)) as [->|Hc].
    + destruct (year_digits q a b 3) as [Hd Hl]; [lia..|].
      exists (q * 400 + 1 + a * 100 + b * 4 + 3), 365. rewrite Hd, Hl.
      destruct (Z.eqb_spec b 24), (Z.eqb_spec a 3); simpl; lia.
    + destruct (year_digits q a b c) as [Hd Hl]; [lia..|].
      exists (q * 400 + 1 + a * 100 + b * 4 + c), k. rewrite Hd. destruct (_is_leap _); simpl; lia.
Qed.

(** For every ordinal [n], [_ord2ymd(n)] is a valid
    date, [1 <= month <= 12] and [1 <= day <= _days_in_month(year, month)]
    (so the assertions of [_ord2ymd] hold: its [leapyear] is
    [_is_leap(year)], see [ord2ymd_year_day]), and [_ymd2ord] of it is [n]. *)
Lemma ymd2ord_ord2ymd n :
  let '(y, m, d) := _ord2ymd n in 1 <= m <= 12 /\ 1 <= d <= _days_in_month y m /\ _ymd2ord y m d = n.
Proof.
  destruct (ordinal_year_day n) as (y & k & -> & Hk). rewrite ord2ymd_year_day by done.
  destruct (ord2ymd_month_onto y k Hk) as (m & d & -> & Hm & Hd & Hdk).
  cbv iota beta. split; [done|split; [done|]]. unfold _ymd2ord. lia.
Qed.

(** ** The closed form counts the days of the Gregorian calendar *)

Lemma divide_mod (k y : Z) : 0 < k -> (k | y) <-> y mod k = 0.
Proof. intros Hk. symmetry. apply Z.mod_divide. lia. Qed.

Lemma gregorian_leap_is_leap y : gregorian_leap y = _is_leap y.
Proof.
  unfold gregorian_leap, _is_leap. case_bool_decide as Hd; rewrite !divide_mod in Hd by lia;
    destruct (Z.eqb_spec (y mod 4) 0), (Z.eqb_spec (y mod 100) 0), (Z.eqb_spec (y mod 400) 0); simpl; naive_solver.
Qed.

(** One year more is [365] days more, one more in a leap year. *)
Lemma days_before_year_succ y : _days_before_year (y + 1) = _days_before_year y + 365 + Z.b2z (_is_leap y).
Proof.
  unfold _days_before_year, _is_leap. replace (y + 1 - 1) with y by lia.
  pose proof (Z.div_mod y 4 ltac:(lia)). pose proof (Z.mod_pos_bound y 4 ltac:(lia)).
  pose proof (Z.div_mod (y - 1) 4 ltac:(lia)). pose proof (Z.mod_pos_bound (y - 1) 4 ltac:(lia)).
  pose proof (Z.div_mod y 100 ltac:(lia)). pose proof (Z.mod_pos_bound y 100 ltac:(lia)).
  pose proof (Z.div_mod (y - 1) 100 ltac:(lia)). pose proof (Z.mod_pos_bound (y - 1) 100 ltac:(lia)).
  pose proof (Z.div_mod y 400 ltac:(lia)). pose proof (Z.mod_pos_bound y 400 ltac:(lia)).
  pose proof (Z.div_mod (y - 1) 400 ltac:(lia)). pose proof (Z.mod_pos_bound (y - 1) 400 ltac:(lia)).
  destruct (Z.eqb_spec (y mod 4) 0), (Z.eqb_spec (y mod 100) 0), (Z.eqb_spec (y mod 400) 0); simpl; lia.
Qed.

Lemma days_before_year_ref k : _days_before_year (Z.of_nat k + 1) = days_of_years k.
Proof.
  induction k as [|k IH]; [reflexivity|]. cbn [days_of_years].
  replace (Z.of_nat (S k)) with (Z.of_nat k + 1) by lia.
  rewrite days_before_year_succ, IH, gregorian_leap_is_leap.
  destruct (_is_leap (Z.of_nat k + 1)); simpl; lia.
Qed.

Lemma days_before_month_agrees_true leap : days_before_month_agrees leap = true.
Proof. destruct leap; vm_compute; reflexivity. Qed.

Lemma days_before_month_ref y m :
  1 <= m <= 12 -> _days_before_month y m = days_of_months (gregorian_leap y) (Z.to_nat (m - 1)).
Proof.
  intros Hm. rewrite gregorian_leap_is_leap. unfold _days_before_month.
  refine (proj1 (bool_decide_eq_true _) _).
  exact (forallb_seqZ _ 1 12 m (days_before_month_agrees_true (_is_leap y)) ltac:(lia)).
Qed.

(** ** [time.gmtime] inverts [calendar.timegm] *)

Lemma check_fields_spec dt :
  _check_fields dt = true <->
  1 <= dt_year dt <= 9999 /\ 1 <= dt_month dt <= 12 /\ 1 <= dt_day dt <= _days_in_month (dt_year dt) (dt_month dt) /\
  0 <= dt_hour dt <= 23 /\ 0 <= dt_minute dt <= 59 /\ 0 <= dt_second dt <= 59.
Proof. unfold _check_fields. rewrite !andb_true_iff, !Z.leb_le. tauto. Qed.

Lemma gmtime_to_unix_aux dt :
  _check_fields dt = true ->
  gmtime (to_unix dt) =
    {| tm_year := dt_year dt; tm_mon := dt_month dt; tm_mday := dt_day dt;
       tm_hour := dt_hour dt; tm_min := dt_minute dt; tm_sec := dt_second dt;
       tm_wday := (_ymd2ord (dt_year dt) (dt_month dt) (dt_day dt) + 6) mod 7 |}.
Proof.
  rewrite check_fields_spec. destruct dt as [y m d h mi s]; cbn [dt_year dt_month dt_day dt_hour dt_minute dt_second].
  intros (Hy & Hm & Hd & Hh & Hmi & Hs). unfold gmtime, to_unix, timegm. cbn [dt_year dt_month dt_day dt_hour dt_minute dt_second].
  replace (_ymd2ord y m 1 - _EPOCH_ORD + d - 1) with (_ymd2ord y m d - _EPOCH_ORD) by (unfold _ymd2ord; lia).
  set (D := _ymd2ord y m d - _EPOCH_ORD).
  assert (E1 : (((D * 24 + h) * 60 + mi) * 60 + s) / 86400 = D)
    by (symmetry; apply Z.div_unique with (h * 3600 + mi * 60 + s); lia).
  assert (E2 : (((D * 24 + h) * 60 + mi) * 60 + s) mod 86400 = h * 3600 + mi * 60 + s)
    by (symmetry; apply Z.mod_unique with D; lia).
  rewrite E1, E2. replace (D + _EPOCH_ORD) with (_ymd2ord y m d) by (unfold D; lia).
  rewrite ord2ymd_ymd2ord_aux by lia. cbv iota.
  replace ((h * 3600 + mi * 60 + s) / 3600) with h by (apply Z.div_unique with (mi * 60 + s); lia).
  replace ((h * 3600 + mi * 60 + s) mod 3600) with (mi * 60 + s) by (apply Z.mod_unique with h; lia).
  replace ((mi * 60 + s) / 60) with mi by (apply Z.div_unique with s; lia).
  replace ((h * 3600 + mi * 60 + s) mod 60) with s by (apply Z.mod_unique with (h * 60 + mi); lia).
  replace (_ymd2ord y m d - _EPOCH_ORD + _EPOCH_ORD + 6) with (_ymd2ord y m d + 6) by lia.
  reflexivity.
Qed.

(** ** The printed fields and the length of the header *)

Lemma zeros_length k : String.length (zeros k) = k.
Proof. induction k as [|k IH]; simpl; auto. Qed.

(** A number below [10 ^ k] prints with at most [k] digits. *)
Lemma decimal_fuel_length fuel n k :
  0 <= n < 10 ^ Z.of_nat k -> (1 <= k)%nat -> (String.length (decimal_fuel fuel n) <= k)%nat.
Proof.
  revert n k. induction fuel as [|fuel IH]; intros n k Hn Hk; simpl; [lia|].
  destruct (Z.ltb_spec n 10); simpl; [lia|].
  rewrite string_length_app. simpl. destruct k as [|[|k]]; [lia| |].
  - simpl in Hn. lia.
  - assert (String.length (decimal_fuel fuel (n / 10)) <= S k)%nat; [|lia].
    apply IH; [|lia]. rewrite Nat2Z.inj_succ, Z.pow_succ_r in Hn by lia. split; [apply Z.div_pos; lia|].
    apply Z.div_lt_upper_bound; lia.
Qed.

(** ['%0wd' % n] is exactly [w] characters for [0 <= n < 10 ^ w]. *)
Lemma format_0d_length w n :
  0 <= n < 10 ^ Z.of_nat w -> (1 <= w)%nat -> String.length (format_0d w n) = w.
Proof.
  intros Hn Hw. unfold format_0d. destruct (Z.ltb_spec n 0); [lia|].
  rewrite string_length_app, zeros_length. unfold decimal.
  pose proof (decimal_fuel_length (S (Z.to_nat (Z.log2 n))) n w Hn Hw). lia.
Qed.

Lemma name_at_length names i :
  Forall (fun s => String.length s = 3%nat) names -> 0 <= i < Z.of_nat (length names) ->
  String.length (name_at names i) = 3%nat.
Proof.
  intros Hall Hi. unfold name_at. rewrite Forall_forall in Hall. apply Hall, list_elem_of_In, nth_In. lia.
Qed.

Lemma days_in_month_le y m : 1 <= m <= 12 -> _days_in_month y m <= 31.
Proof.
  intros Hm. unfold _days_in_month. destruct (_ && _); [lia|].
  assert (m = 1 \/ m = 2 \/ m = 3 \/ m = 4 \/ m = 5 \/ m = 6 \/ m = 7 \/ m = 8 \/ m = 9 \/ m = 10 \/ m = 11 \/ m = 12)
    as Hms by lia.
  repeat destruct Hms as [->|Hms]; subst; vm_compute; congruence.
Qed.

(** For every datetime, [http_date(times.to_unix(dt))], the
    [Last-Modified] header [set_last_modified] writes, is exactly 29
    characters, ["Tue, 15 Nov 1994 08:12:31 GMT"]: each field is printed
    in its width, the year in four digits. *)
Lemma http_date_length dt : _check_fields dt = true -> String.length (http_date_of dt) = 29%nat.
Proof.
  intros Hc. cbn [http_date_of calendar_http_date]. unfold http_date, formatdate.
  rewrite (gmtime_to_unix_aux dt Hc). cbn [tm_year tm_mon tm_mday tm_hour tm_min tm_sec tm_wday].
  apply check_fields_spec in Hc as (Hy & Hm & Hd & Hh & Hmi & Hs).
  pose proof (days_in_month_le (dt_year dt) (dt_month dt) Hm).
  pose proof (Z.mod_pos_bound (_ymd2ord (dt_year dt) (dt_month dt) (dt_day dt) + 6) 7 ltac:(lia)).
  rewrite !string_length_app, !format_0d_length by (simpl; lia).
  rewrite !name_at_length by (repeat constructor || (simpl; lia)).
  reflexivity.
Qed.

(** CPython's closed form [_ymd2ord(y, m, d)] =
    [_days_before_year(y) + _days_before_month(y, m) + d], with its tables,
    equals the day count of the Gregorian calendar done year by year and
    month by month, for every year from 1 and every month. *)
Lemma ymd2ord_counts_days y m d :
  1 <= y -> 1 <= m <= 12 -> _ymd2ord y m d = ordinal_ref y m d.
Proof.
  intros Hy Hm. unfold _ymd2ord, ordinal_ref. rewrite days_before_month_ref by done.
  rewrite <- days_before_year_ref, Z2Nat.id by lia. by replace (y - 1 + 1) with y by lia.
Qed.

(** [_ord2ymd(_ymd2ord(y, m, d)) == (y, m, d)] for every
    valid date: the 400/100/4/1-year cycles, the early return for the last
    day of a leap year, and the month estimate [(n + 50) >> 5] with its
    correction by one give the date back. *)
Lemma ord2ymd_ymd2ord y m d :
  1 <= m <= 12 -> 1 <= d <= _days_in_month y m -> _ord2ymd (_ymd2ord y m d) = (y, m, d).
Proof. exact (ord2ymd_ymd2ord_aux y m d). Qed.

(** [time.gmtime(times.to_unix(dt))] gives the fields of
    [dt] back, with its weekday [date.weekday()]: the [Last-Modified]
    header is printed from the datetime the response was given. *)
Lemma gmtime_to_unix dt :
  _check_fields dt = true ->
  gmtime (to_unix dt) =
    {| tm_year := dt_year dt; tm_mon := dt_month dt; tm_mday := dt_day dt;
       tm_hour := dt_hour dt; tm_min := dt_minute dt; tm_sec := dt_second dt;
       tm_wday := (_ymd2ord (dt_year dt) (dt_month dt) (dt_day dt) + 6) mod 7 |}.
Proof. exact (gmtime_to_unix_aux dt). Qed.

End Calendar.
