(* ===== verification/Context.v ===== *)
(** * The request context ([src/restosaur/context.py], class [Context])

    A [Context] is built once per request by the dispatch layer: it
    holds the request, the resource (by name: resources are a static,
    read-only registry, see [Resource.v]), the deserialized body and the
    response headers.  [parameters] is not set by [__init__]: the
    attribute exists only when the dispatcher assigns it, which the model
    records as an [option]; reading it when absent raises
    [AttributeError] ([getattr_parameters]).  The response factories of
    the class are in [Factories.v], after the responses they build. *)

From stdpp Require Import base list strings gmap.
From S2P Require Import Prelude PyValue.

(** The host framework's request object: only its absolute-URI builder
    is used. *)
Record http_request := mkRequest {
  req_path : string;
  req_query : dict;
  req_headers : dict
}.

Class RequestApi := {
  request_build_absolute_uri : http_request -> string -> string
}.

Module Context.

Record context := mkContext {
  headers : dict;
  request : http_request;
  body : pyval;
  resource : string;
  deserializer : pyval;
  content_type : pyval;
  parameters : option pyval
}.

(** [Context.__init__(self, request, resource, body=None)] *)
Definition __init__ (request : http_request) (resource : string) (body : pyval) : context :=
  {| headers := [];
     request := request;
     body := body;
     resource := resource;
     deserializer := PNone;
     content_type := PNone;
     parameters := None |}.

(** [self.build_absolute_uri(path)] *)
Definition build_absolute_uri `{RequestApi} (self : context) (path : string) : string :=
  request_build_absolute_uri (request self) path.

(** The [deserialized] property. *)
Definition deserialized (self : context) : pyval := body self.

(** [self.parameters] as an attribute read. *)
Definition getattr_parameters (self : context) : result pyval :=
  match parameters self with
  | Some p => Ok p
  | None => Raise (AttributeError "parameters")
  end.

(** The dispatcher's assignment [context.parameters = p]. *)
Definition set_parameters (self : context) (p : pyval) : context :=
  {| headers := headers self; request := request self; body := body self;
     resource := resource self; deserializer := deserializer self;
     content_type := content_type self; parameters := Some p |}.

End Context.
