(* ===== verification/Resource.v ===== *)
(** * The resource interface (restosaur's [Resource], outside [src/])

    Responses read three things of the context's resource: its
    [representations] (name to converter), its [_links] (key to an HTTP
    method and a linked resource) and, through [convert] and the linked
    resource's [uri], the values they compute.  The resource class is not
    part of the sources; this file states what the response layer uses of
    it as a class over a static registry of resources named by strings,
    which the spec requires to be read-only at request time.  [_links] is
    a Python dict, so its keys are distinct ([resource_links_wf]). *)

From stdpp Require Import base list strings gmap.
From S2P Require Import Prelude PyValue Context.

(** A converter [lambda x, context: ...]. *)
Definition converter : Type := pyval -> Context.context -> result pyval.

Class ResourceRegistry := {
  (** [resource.representations] *)
  resource_representations : string -> list (string * converter);
  (** [resource.convert(context, data, representation)] *)
  resource_convert : string -> Context.context -> pyval -> string -> result pyval;
  (** [resource._links]: key to [(method, linked_resource)] *)
  resource_links : string -> list (string * (string * string));
  (** [linked_resource.uri(context, params=...)] *)
  resource_uri : string -> Context.context -> pyval -> result string;
  resource_links_wf : forall r, NoDup (map fst (resource_links r))
}.
