(* ===== verification/Responses.v ===== *)
(** * Responses ([src/restosaur/responses.py])

    [Response] holds a status, headers, the data, an [extra] mapping and
    the links settings; [serialize(data, representation)] builds the
    payload: [''] when there is nothing to send, the converted data with
    [extra] and a links block for a 2xx status, the raw data otherwise.
    [CollectionResponse] overrides [serialize] with the [items] /
    [totalCount] envelope.  The other classes only fix the status code
    and the shape of the data passed to [Response.__init__].

    The Python class of a response object is the field [cls] (an
    inductive with the source's class names); [CollectionResponse]
    carries the two attributes its [__init__] adds.  Each [__init__] is a
    definition returning the new object, [set_last_modified] returns the
    object with its headers changed, and [serialize] dispatches on the
    class the way Python's method lookup does.  Everything that can raise
    returns a [result]. *)

From stdpp Require Import base list strings gmap.
From Stdlib Require Import ZArith.
From S2P Require Import Prelude PyValue HttpDate Context Resource.

Module Responses.

Inductive rclass :=
| Response
| CreatedResponse
| NoContentResponse
| NotModifiedResponse
| UnauthorizedResponse
| ForbiddenResponse
| NotFoundResponse
| MethodNotAllowedResponse
| CollectionResponse (key : string) (totalCount : pyval)
| EntityResponse
| NotAcceptableResponse
| ValidationErrorResponse.

Record response := mkResponse {
  cls : rclass;
  headers : dict;
  representation : pyval;
  content_type : pyval;
  context : Context.context;
  status : Z;
  extra : pyval;
  links_key : string;
  add_links : pyval;
  data : pyval
}.

Definition with_headers (self : response) (h : dict) : response :=
  {| cls := cls self; headers := h; representation := representation self;
     content_type := content_type self; context := context self;
     status := status self; extra := extra self; links_key := links_key self;
     add_links := add_links self; data := data self |}.

Section WithResources.
Context `{ResourceRegistry} `{HttpDate}.

(** ** Construction *)

(** [set_last_modified(self, dt)]: a datetime is always true, [None]
    is false. *)
Definition set_last_modified (self : response) (dt : option datetime) : response :=
  match dt with
  | Some d => with_headers self (dict_set "Last-Modified" (PStr (http_date_of d)) (headers self))
  | None => with_headers self (dict_pop "Last-Modified" (headers self))
  end.

(** [Response.__init__(self, context, data=None, status=200, headers=None,
    last_modified=None, extra=None, add_links=True, links_key='_links')],
    run on an object of class [cls]. *)
Definition Response___init__ (cls : rclass) (context : Context.context) (data : pyval)
    (status : Z) (headers : option dict) (last_modified : option datetime)
    (extra : pyval) (add_links : pyval) (links_key : string) : response :=
  let self := {| cls := cls;
                 headers := dict_merge [] (default [] headers);
                 representation := PNone;
                 content_type := PNone;
                 context := context;
                 status := status;
                 extra := extra;
                 links_key := links_key;
                 add_links := add_links;
                 data := data |} in
  match last_modified with
  | Some _ => set_last_modified self last_modified
  | None => self
  end.

(** [Response(context, ...)] and [EntityResponse(context, ...)], which
    inherits the constructor. *)
Definition Response_new := Response___init__ Response.
Definition EntityResponse_new := Response___init__ EntityResponse.

(** The subclasses that fix the status: [__init__(self, context,
    data=None, headers=None)]. *)
Definition CreatedResponse_new (context : Context.context) (data : pyval) (headers : option dict) :=
  Response___init__ CreatedResponse context data 201 headers None PNone (PBool true) "_links".
Definition NoContentResponse_new (context : Context.context) (data : pyval) (headers : option dict) :=
  Response___init__ NoContentResponse context data 204 headers None PNone (PBool true) "_links".
Definition NotModifiedResponse_new (context : Context.context) (data : pyval) (headers : option dict) :=
  Response___init__ NotModifiedResponse context data 304 headers None PNone (PBool true) "_links".
Definition UnauthorizedResponse_new (context : Context.context) (data : pyval) (headers : option dict) :=
  Response___init__ UnauthorizedResponse context data 401 headers None PNone (PBool true) "_links".
Definition ForbiddenResponse_new (context : Context.context) (data : pyval) (headers : option dict) :=
  Response___init__ ForbiddenResponse context data 403 headers None PNone (PBool true) "_links".
Definition NotFoundResponse_new (context : Context.context) (data : pyval) (headers : option dict) :=
  Response___init__ NotFoundResponse context data 404 headers None PNone (PBool true) "_links".
Definition MethodNotAllowedResponse_new (context : Context.context) (data : pyval) (headers : option dict) :=
  Response___init__ MethodNotAllowedResponse context data 405 headers None PNone (PBool true) "_links".

(** [CollectionResponse(context, iterable, totalCount=None, key=None,
    **kwargs)]: [data] is the iterable, [self.key = key or 'items']. *)
Definition CollectionResponse_new (context : Context.context) (iterable : pyval)
    (totalCount : pyval) (key : option string)
    (status : Z) (headers : option dict) (last_modified : option datetime)
    (extra : pyval) (add_links : pyval) (links_key : string) : response :=
  let key := match key with Some (String _ _ as k) => k | _ => "items" end in
  Response___init__ (CollectionResponse key totalCount) context iterable
    status headers last_modified extra add_links links_key.

(** [NotAcceptableResponse(context, headers=None)]: no data. *)
Definition NotAcceptableResponse_new (context : Context.context) (headers : option dict) :=
  Response___init__ NotAcceptableResponse context PNone 406 headers None PNone (PBool true) "_links".

(** [ValidationErrorResponse(context, errors, headers=None)]: the data is
    [{'errors': errors}]. *)
Definition ValidationErrorResponse_new (context : Context.context) (errors : pyval) (headers : option dict) :=
  let resp := PDict [("errors", errors)] in
  Response___init__ ValidationErrorResponse context resp 422 headers None PNone (PBool true) "_links".

(** ** Serialization *)

(** [get_converter(self, representation)] (not called by the module). *)
Definition get_converter (self : response) (representation : string) : converter :=
  let dummy_converter := fun (x : pyval) (_ : Context.context) => Ok x in
  match assoc_get representation (resource_representations (Context.resource (context self))) with
  | Some converter => converter
  | None => dummy_converter
  end.

(** The body of the loop of [_serialize_links]:
    [links[key] = {'uri': linked_resource.uri(self.context,
    params=self.context.parameters), 'method': method.upper()}]. *)
Definition serialize_link (self : response) (links_out : dict)
    (entry : string * (string * string)) : result dict :=
  let '(key, (method, linked_resource)) := entry in
  params <- Context.getattr_parameters (context self) ;;
  uri <- resource_uri linked_resource (context self) params ;;
  Ok (dict_set key (PDict [("uri", PStr uri); ("method", PStr (str_upper method))]) links_out).

(** [_serialize_links(self, data, representation)]: one entry per key of
    the resource's [_links] when [add_links] and [_links] are true. *)
Definition _serialize_links (self : response) (data : pyval) (representation : string) : result dict :=
  let links := resource_links (Context.resource (context self)) in
  if py_truthy (add_links self) && negb (bool_decide (links = [])) then
    rfold (serialize_link self) [] links
  else Ok [].

(** [_add_links(self, resp, data, representation)]: make sure
    [resp[links_key]] exists, then [resp[links_key].update(links)]; a value
    without an [update] method raises [AttributeError] before the links
    are computed. *)
Definition _add_links (self : response) (resp : dict) (data : pyval) (representation : string) : result dict :=
  let lk := links_key self in
  let resp := if negb (dict_contains lk resp) then dict_set lk (PDict []) resp else resp in
  match dict_get lk resp with
  | Some (PDict existing) =>
      links <- _serialize_links self data representation ;;
      Ok (dict_set lk (PDict (dict_merge existing links)) resp)
  | _ => Raise (AttributeError "update")
  end.

(** [Response.serialize(self, data, representation)] *)
Definition Response_serialize (self : response) (data : pyval) (representation : string) : result pyval :=
  if is_none data && negb (py_truthy (extra self)) then Ok (PStr "")
  else if (200 <=? status self)%Z && (status self <? 300)%Z then
    output <- py_update [] (or_empty_dict (extra self)) ;;
    converted <- resource_convert (Context.resource (context self)) (context self) data representation ;;
    output <- py_update output converted ;;
    output <- _add_links self output data representation ;;
    Ok (PDict output)
  else Ok data.

(** [CollectionResponse.serialize(self, iterable, representation)]: the
    dict display evaluates [map(...)] before [len(iterable)]. *)
Definition CollectionResponse_serialize (self : response) (key : string) (totalCount : pyval)
    (iterable : pyval) (representation : string) : result pyval :=
  items <- (xs <- py_iter iterable ;;
            rmapM (fun x => resource_convert (Context.resource (context self)) (context self) x representation) xs) ;;
  total <- (if is_none totalCount then n <- py_len iterable ;; Ok (PInt n) else Ok totalCount) ;;
  let resp := dict_set "totalCount" total (dict_set key (PList items) []) in
  resp <- py_update resp (or_empty_dict (extra self)) ;;
  resp <- _add_links self resp iterable representation ;;
  Ok (PDict resp).

(** [response.serialize(data, representation)]: method lookup on the
    object's class. *)
Definition serialize (self : response) (data : pyval) (representation : string) : result pyval :=
  match cls self with
  | CollectionResponse key totalCount => CollectionResponse_serialize self key totalCount data representation
  | _ => Response_serialize self data representation
  end.

End WithResources.

(** The classes that do not override [serialize]. *)
Definition is_collection (c : rclass) : bool :=
  match c with CollectionResponse _ _ => true | _ => false end.

(** A 2xx status, as [serialize] tests it. *)
Definition is_success (status : Z) : bool := (200 <=? status)%Z && (status <? 300)%Z.

(** ** Concrete resources and contexts for the witnesses

    A registry with one resource ["users"] that declares one link, whose
    converter wraps a non-dict value under ["value"], and whose uris are
    ["http://testserver/<name>"]. *)

#[local] Instance demo_registry : ResourceRegistry.
Proof.
  refine {| resource_representations := fun _ => [];
            resource_convert := fun _ _ d _ =>
              match d with PDict _ => Ok d | _ => Ok (PDict [("value", d)]) end;
            resource_links := fun r =>
              if decide (r = "users") then [("other", ("post", "items"))] else [];
            resource_uri := fun r _ _ => Ok ("http://testserver/" +:+ r) |}.
  intros r. case_decide; [|constructor]. repeat constructor; set_solver.
Defined.

#[local] Instance demo_http_date : HttpDate :=
  {| http_date_of := fun _ => "Tue, 15 Nov 1994 08:12:31 GMT" |}.

Definition demo_request : http_request := {| req_path := "/users/"; req_query := []; req_headers := [] |}.

(** A context without the [parameters] attribute, and the same context
    after the dispatcher has set it. *)
Definition demo_context : Context.context :=
  {| Context.headers := []; Context.request := demo_request; Context.body := PNone;
     Context.resource := "users"; Context.deserializer := PNone; Context.content_type := PNone;
     Context.parameters := None |}.
Definition demo_context_params : Context.context := Context.set_parameters demo_context (PDict []).

(** A 2xx response whose [extra] pre-seeds a custom link (the spec's
    additive-links example). *)
Definition demo_data : pyval := PDict [("name", PStr "ann")].
Definition demo_extra : pyval := PDict [("_links", PDict [("self", PStr "x")])].
Definition demo_response : response :=
  Response_new demo_context_params demo_data 200 None None demo_extra (PBool true) "_links".
Definition demo_items : list pyval := [PStr "a"; PStr "b"; PStr "c"].

Section Lemmas.
Context `{ResourceRegistry} `{HttpDate}.

Lemma is_success_iff z : is_success z = true <-> (200 <= z < 300)%Z.
Proof. unfold is_success. rewrite andb_true_iff, Z.leb_le, Z.ltb_lt. lia. Qed.

Lemma is_success_false z : ~ (200 <= z < 300)%Z -> is_success z = false.
Proof. intros Hz. destruct (is_success z) eqn:E; [|done]. by apply is_success_iff in E. Qed.

(** ** Lemmas on the links block *)

Lemma serialize_not_collection self data representation :
  is_collection (cls self) = false ->
  serialize self data representation = Response_serialize self data representation.
Proof. unfold serialize. by destruct (cls self). Qed.

Lemma _serialize_links_wf self data representation L :
  _serialize_links self data representation = Ok L -> dict_wf L.
Proof.
  unfold _serialize_links. case_match; [|intros [= <-]; apply NoDup_nil_2].
  apply rfold_invariant; [apply NoDup_nil_2|].
  intros acc [key [method lr]] acc' Hacc Hstep. simpl in Hstep.
  inv_bind Hstep. inv_bind Hk. injection Hk0 as <-. by apply dict_wf_set.
Qed.

(** The loop of [_serialize_links] over declared links with distinct
    keys, each uri computable: the new keys come after the old ones, each
    carries its uri and upper-cased method, other keys are untouched. *)
Lemma serialize_link_loop self p ls acc :
  Context.parameters (context self) = Some p ->
  NoDup (map fst ls) -> (forall k, k ∈ map fst ls -> dict_get k acc = None) ->
  (forall key method lr, (key, (method, lr)) ∈ ls ->
     exists uri, resource_uri lr (context self) p = Ok uri) ->
  exists L, rfold (serialize_link self) acc ls = Ok L /\
    dict_keys L = dict_keys acc ++ map fst ls /\
    (forall k, k ∉ map fst ls -> dict_get k L = dict_get k acc) /\
    (forall key method lr, (key, (method, lr)) ∈ ls -> exists uri,
       resource_uri lr (context self) p = Ok uri /\
       dict_get key L = Some (PDict [("uri", PStr uri); ("method", PStr (str_upper method))])).
Proof.
  intros Hp. revert acc. induction ls as [|[key [method lr]] ls IH]; intros acc Hnd Hfresh Huri.
  { exists acc. rewrite app_nil_r. split_and!; [done|done|done|]. intros ??? []%elem_of_nil. }
  simpl in Hnd. apply NoDup_cons in Hnd as [Hkey Hnd].
  destruct (Huri key method lr) as [uri Hu]; [apply list_elem_of_here|].
  set (acc' := dict_set key (PDict [("uri", PStr uri); ("method", PStr (str_upper method))]) acc).
  destruct (IH acc') as (L & HL & Hkeys & Hother & Hin); [done| | |].
  { intros k Hk. unfold acc'. rewrite dict_get_set_ne by (intros ->; contradiction).
    apply Hfresh. simpl. by apply list_elem_of_further. }
  { intros k m l Hkml. apply (Huri k m l). by apply list_elem_of_further. }
  exists L. simpl. unfold Context.getattr_parameters. rewrite Hp. simpl. rewrite Hu. simpl. fold acc'. rewrite HL.
  split_and!; [done| | |].
  - rewrite Hkeys. unfold acc'. rewrite dict_keys_set.
    assert (Hnone : dict_get key acc = None) by (apply Hfresh; apply list_elem_of_here).
    unfold dict_contains. rewrite Hnone. by rewrite <- app_assoc.
  - intros k Hk. rewrite Hother by set_solver. unfold acc'.
    apply dict_get_set_ne. set_solver.
  - intros k m l [Heq|Hin']%elem_of_cons.
    + simplify_eq. exists uri. split; [done|]. rewrite Hother by done. apply dict_get_set_eq.
    + by apply Hin.
Qed.

(** [resp[links_key]] after the default [{}] is put in place. *)
Lemma links_default_get lk resp :
  dict_get lk (if negb (dict_contains lk resp) then dict_set lk (PDict []) resp else resp) =
    Some (default (PDict []) (dict_get lk resp)).
Proof.
  unfold dict_contains. destruct (dict_get lk resp) eqn:E; simpl; [done|].
  apply dict_get_set_eq.
Qed.

Lemma links_default_abs lk resp x :
  dict_abs (dict_set lk x (if negb (dict_contains lk resp) then dict_set lk (PDict []) resp else resp)) =
    <[lk := x]> (dict_abs resp).
Proof.
  destruct (negb _); rewrite !dict_abs_set; [|done]. apply insert_insert_eq.
Qed.

Lemma links_default_wf lk resp x :
  dict_wf resp ->
  dict_wf (dict_set lk x (if negb (dict_contains lk resp) then dict_set lk (PDict []) resp else resp)).
Proof. intros Hwf. apply dict_wf_set. destruct (negb _); [by apply dict_wf_set|done]. Qed.

(** [_add_links] when [resp[links_key]] is (or defaults to) a dict and the
    links are computed: the entry becomes the old links updated with the
    new ones, the rest of [resp] is unchanged. *)
Lemma _add_links_Ok self resp data representation existing L :
  default (PDict []) (dict_get (links_key self) resp) = PDict existing ->
  _serialize_links self data representation = Ok L ->
  exists out, _add_links self resp data representation = Ok out /\
    dict_abs out = <[links_key self := PDict (dict_merge existing L)]> (dict_abs resp) /\
    (dict_wf resp -> dict_wf out).
Proof.
  intros Hex HL. unfold _add_links. rewrite links_default_get, Hex. simpl. rewrite HL. simpl.
  eexists. split; [done|]. split; [apply links_default_abs|apply links_default_wf].
Qed.

(** A value without [update] at [resp[links_key]] raises. *)
Lemma _add_links_not_dict self resp data representation v :
  default (PDict []) (dict_get (links_key self) resp) = v ->
  (forall e, v <> PDict e) ->
  _add_links self resp data representation = Raise (AttributeError "update").
Proof.
  intros Hv Hnd. unfold _add_links. rewrite links_default_get, Hv.
  destruct v; try done. by destruct (Hnd kvs).
Qed.

Lemma _add_links_Raise self resp data representation existing ex :
  default (PDict []) (dict_get (links_key self) resp) = PDict existing ->
  _serialize_links self data representation = Raise ex ->
  _add_links self resp data representation = Raise ex.
Proof. intros Hex HL. unfold _add_links. by rewrite links_default_get, Hex; simpl; rewrite HL. Qed.

(** [__init__] stores its arguments; [last_modified] only touches the
    headers. *)
Lemma Response___init___fields c ctx x st h lm ex al lk :
  let self := Response___init__ c ctx x st h lm ex al lk in
  cls self = c /\ context self = ctx /\ data self = x /\ status self = st /\
  extra self = ex /\ add_links self = al /\ links_key self = lk.
Proof. destruct lm; repeat split. Qed.

(** The 2xx branch of [Response.serialize] once [extra] and the
    converter have produced dicts: what is left is [_add_links]. *)
Lemma serialize_2xx self data representation e d :
  is_collection (cls self) = false ->
  (200 <= status self < 300)%Z ->
  is_none data = false \/ py_truthy (extra self) = true ->
  or_empty_dict (extra self) = PDict e ->
  resource_convert (Context.resource (context self)) (context self) data representation = Ok (PDict d) ->
  serialize self data representation =
    (out <- _add_links self (dict_merge (dict_merge [] e) d) data representation ;; Ok (PDict out)).
Proof.
  intros Hc Hs Hne Hex Hconv.
  rewrite serialize_not_collection by done. unfold Response_serialize.
  assert (Hnone : is_none data && negb (py_truthy (extra self)) = false)
    by (destruct Hne as [-> | ->]; [done|apply andb_false_r]).
  rewrite Hnone.
  change ((200 <=? status self)%Z && (status self <? 300)%Z) with (is_success (status self)).
  rewrite (proj2 (is_success_iff _) Hs), Hex. cbn [py_update rbind]. by rewrite Hconv.
Qed.

Lemma dict_abs_payload (e d : dict) :
  dict_wf e -> dict_wf d -> dict_abs (dict_merge (dict_merge [] e) d) = dict_abs d ∪ dict_abs e.
Proof.
  intros Hwe Hwd. rewrite !dict_abs_merge by done. unfold dict_abs at 3.
  by rewrite list_to_map_nil, (right_id ∅ (∪)).
Qed.

(** An exception of the links block is the exception of a 2xx
    [serialize] whose payload has a dict (or nothing) at [links_key]. *)
Lemma serialize_success_links_raise self data representation e d existing ex :
  is_collection (cls self) = false ->
  (200 <= status self < 300)%Z ->
  is_none data = false \/ py_truthy (extra self) = true ->
  or_empty_dict (extra self) = PDict e -> dict_wf e ->
  resource_convert (Context.resource (context self)) (context self) data representation = Ok (PDict d) ->
  dict_wf d ->
  default (PDict []) ((dict_abs d ∪ dict_abs e) !! links_key self) = PDict existing ->
  _serialize_links self data representation = Raise ex ->
  serialize self data representation = Raise ex.
Proof.
  intros Hc Hs Hne Hex Hwe Hconv Hwd Hlk HL.
  rewrite (serialize_2xx self data representation e d) by done.
  rewrite (_add_links_Raise self _ data representation existing ex); [done| |done].
  by rewrite <- dict_abs_lookup, dict_abs_payload.
Qed.

(** ** [serialize] on the classes that keep [Response.serialize] *)

(** C2: nothing to send.  With no data and a false
    [extra] the payload is the empty string, whatever the status. *)
Theorem serialize_nothing_to_send self data representation :
  is_collection (cls self) = false ->
  is_none data = true -> py_truthy (extra self) = false ->
  serialize self data representation = Ok (PStr "").
Proof.
  intros Hc Hd He. rewrite serialize_not_collection by done.
  unfold Response_serialize. by rewrite Hd, He.
Qed.

(** C3: a status outside [200, 300) sends the data as it
    is (the empty string when there is nothing to send). *)
Theorem serialize_non_success self data representation :
  is_collection (cls self) = false ->
  ~ (200 <= status self < 300)%Z ->
  serialize self data representation =
    Ok (if is_none data && negb (py_truthy (extra self)) then PStr "" else data).
Proof.
  intros Hc Hs. rewrite serialize_not_collection by done.
  unfold Response_serialize.
  change ((200 <=? status self)%Z && (status self <? 300)%Z) with (is_success (status self)).
  rewrite is_success_false by done. by destruct (_ && _).
Qed.

(** C1 (refinement): a 2xx payload, as a finite map, is
    [extra] overridden by the converted data, with the links entry set to
    the links it held (or [{}]) updated with the resource's links. *)
Theorem serialize_success self data representation e d existing L :
  is_collection (cls self) = false ->
  (200 <= status self < 300)%Z ->
  is_none data = false \/ py_truthy (extra self) = true ->
  or_empty_dict (extra self) = PDict e -> dict_wf e ->
  resource_convert (Context.resource (context self)) (context self) data representation = Ok (PDict d) ->
  dict_wf d ->
  default (PDict []) ((dict_abs d ∪ dict_abs e) !! links_key self) = PDict existing ->
  _serialize_links self data representation = Ok L ->
  exists out, serialize self data representation = Ok (PDict out) /\ dict_wf out /\
    dict_abs out = <[links_key self := PDict (dict_merge existing L)]> (dict_abs d ∪ dict_abs e).
Proof.
  intros Hc Hs Hne Hex Hwe Hconv Hwd Hlk HL.
  rewrite (serialize_2xx self data representation e d) by done.
  destruct (_add_links_Ok self (dict_merge (dict_merge [] e) d) data representation existing L)
    as (out & -> & Habs & Hwf); [by rewrite <- dict_abs_lookup, dict_abs_payload|done|].
  exists out. split; [done|]. split.
  - apply Hwf, dict_wf_merge, dict_wf_merge, NoDup_nil_2.
  - by rewrite Habs, dict_abs_payload.
Qed.

(** ** The links block *)

(** C4: with [add_links] true and [context.parameters]
    set, the links block has exactly the resource's link keys, in order,
    each mapped to [{'uri': uri, 'method': METHOD}] with the linked
    resource's uri. *)
Theorem serialize_links_block self data representation p :
  py_truthy (add_links self) = true ->
  Context.parameters (context self) = Some p ->
  (forall key method lr, (key, (method, lr)) ∈ resource_links (Context.resource (context self)) ->
     exists uri, resource_uri lr (context self) p = Ok uri) ->
  exists L, _serialize_links self data representation = Ok L /\
    dict_keys L = map fst (resource_links (Context.resource (context self))) /\
    forall key method lr, (key, (method, lr)) ∈ resource_links (Context.resource (context self)) ->
      exists uri, resource_uri lr (context self) p = Ok uri /\
        dict_get key L = Some (PDict [("uri", PStr uri); ("method", PStr (str_upper method))]).
Proof.
  intros Hal Hp Huri. unfold _serialize_links. rewrite Hal. simpl.
  destruct (bool_decide_reflect (resource_links (Context.resource (context self)) = [])) as [Hnil|Hnil].
  - exists []. rewrite Hnil. split_and!; [done|done|]. intros ??? []%elem_of_nil.
  - destruct (serialize_link_loop self p (resource_links (Context.resource (context self))) [])
      as (L & HL & Hkeys & _ & Hin); [done|apply resource_links_wf|done|done|].
    exists L. split_and!; [done|done|done].
Qed.

(** C5 (code bug): [Context.__init__] never sets
    [parameters], so as soon as the resource declares a link and
    [add_links] is true, [_serialize_links] raises [AttributeError]
    unless the dispatcher assigned [context.parameters]. *)
Theorem serialize_links_missing_parameters self data representation :
  py_truthy (add_links self) = true ->
  resource_links (Context.resource (context self)) <> [] ->
  Context.parameters (context self) = None ->
  _serialize_links self data representation = Raise (AttributeError "parameters").
Proof.
  intros Hal Hne Hp. unfold _serialize_links. rewrite Hal, bool_decide_false by done. simpl.
  destruct (resource_links _) as [|[key [method lr]] ls]; [done|]. simpl.
  unfold Context.getattr_parameters. by rewrite Hp.
Qed.

(** C7 (spec divergence): with [add_links] false the
    spec omits the links, but [_add_links] still puts [links_key: {}] in a
    2xx payload. *)
Theorem serialize_add_links_false self data representation e d :
  is_collection (cls self) = false ->
  (200 <= status self < 300)%Z ->
  is_none data = false \/ py_truthy (extra self) = true ->
  or_empty_dict (extra self) = PDict e -> dict_wf e ->
  resource_convert (Context.resource (context self)) (context self) data representation = Ok (PDict d) ->
  dict_wf d ->
  (dict_abs d ∪ dict_abs e) !! links_key self = None ->
  py_truthy (add_links self) = false ->
  exists out, serialize self data representation = Ok (PDict out) /\
    dict_get (links_key self) out = Some (PDict []).
Proof.
  intros Hc Hs Hne Hex Hwe Hconv Hwd Hlk Hal.
  assert (HL : _serialize_links self data representation = Ok []).
  { unfold _serialize_links. by rewrite Hal. }
  rewrite (serialize_2xx self data representation e d) by done.
  destruct (_add_links_Ok self (dict_merge (dict_merge [] e) d) data representation [] [])
    as (out & -> & Habs & _); [by rewrite <- dict_abs_lookup, dict_abs_payload, Hlk|done|].
  exists out. split; [done|]. by rewrite <- dict_abs_lookup, Habs, lookup_insert_eq.
Qed.

(** ** The response classes *)

(** ** [CollectionResponse.serialize] *)

(** C8: over a list, the payload is, as a finite map,
    [extra] over [{key: converted items, 'totalCount': totalCount or
    len(items)}], with the links entry as in [Response.serialize]. *)
Theorem collection_serialize self key totalCount xs representation items e existing L :
  cls self = CollectionResponse key totalCount ->
  rmapM (fun x => resource_convert (Context.resource (context self)) (context self) x representation) xs = Ok items ->
  or_empty_dict (extra self) = PDict e -> dict_wf e ->
  default (PDict []) ((dict_abs e ∪ <["totalCount" := if is_none totalCount then PInt (Z.of_nat (length xs)) else totalCount]>
                         {[key := PList items]}) !! links_key self) = PDict existing ->
  _serialize_links self (PList xs) representation = Ok L ->
  exists out, serialize self (PList xs) representation = Ok (PDict out) /\ dict_wf out /\
    dict_abs out = <[links_key self := PDict (dict_merge existing L)]>
      (dict_abs e ∪ <["totalCount" := if is_none totalCount then PInt (Z.of_nat (length xs)) else totalCount]>
                       {[key := PList items]}).
Proof.
  intros Hc Hitems Hex Hwe Hlk HL. unfold serialize. rewrite Hc.
  unfold CollectionResponse_serialize. cbn [py_iter rbind]. rewrite Hitems. cbn [rbind].
  set (total := if is_none totalCount then PInt (Z.of_nat (length xs)) else totalCount).
  replace (rbind (if is_none totalCount then _ else _) _) with
    (rbind (Ok total) (fun total => resp <- py_update (dict_set "totalCount" total (dict_set key (PList items) [])) (or_empty_dict (extra self)) ;;
       resp <- _add_links self resp (PList xs) representation ;; Ok (PDict resp)))
    by (unfold total; by destruct (is_none totalCount)).
  cbn [rbind]. rewrite Hex. cbn [py_update rbind].
  set (resp := dict_merge (dict_set "totalCount" total (dict_set key (PList items) [])) e).
  assert (Habs0 : dict_abs resp = dict_abs e ∪ <["totalCount" := total]> {[key := PList items]}).
  { unfold resp. rewrite dict_abs_merge, !dict_abs_set by done.
    unfold dict_abs at 2. by rewrite list_to_map_nil. }
  destruct (_add_links_Ok self resp (PList xs) representation existing L)
    as (out & -> & Habs & Hwf); [by rewrite <- dict_abs_lookup, Habs0|done|].
  exists out. split; [done|]. split.
  - apply Hwf, dict_wf_merge, dict_wf_set, dict_wf_set, NoDup_nil_2.
  - by rewrite Habs, Habs0.
Qed.

(** C9: a generator has no [len], so without an
    explicit [totalCount] a collection over one raises [TypeError] once
    its items are converted. *)
Theorem collection_generator_needs_total self key xs representation items :
  cls self = CollectionResponse key PNone ->
  rmapM (fun x => resource_convert (Context.resource (context self)) (context self) x representation) xs = Ok items ->
  serialize self (PIter xs) representation = Raise (TypeError "object has no len()").
Proof.
  intros Hc Hitems. unfold serialize. rewrite Hc.
  unfold CollectionResponse_serialize. cbn [py_iter rbind]. by rewrite Hitems.
Qed.

(** ** Headers *)

(** C14: [set_last_modified] sets [Last-Modified] to the
    HTTP date of a datetime, removes it for [None], and leaves every other
    header as it was. *)
Theorem set_last_modified_get self dt k :
  dict_get k (headers (set_last_modified self dt)) =
    if decide ("Last-Modified" = k) then (fun d => PStr (http_date_of d)) <$> dt
    else dict_get k (headers self).
Proof.
  destruct dt as [d|]; simpl; [apply dict_get_set|apply dict_get_pop].
Qed.

(** C15 (functional): the headers of a new response are a copy
    of the [headers] argument ([headers or {}]), with [Last-Modified] set
    to the HTTP date of [last_modified] when one is given; without
    [last_modified] a [Last-Modified] of the argument is kept. *)
Theorem init_headers_get c ctx x st h lm ex al lk k :
  dict_wf (default [] h) ->
  dict_get k (headers (Response___init__ c ctx x st h lm ex al lk)) =
    if decide ("Last-Modified" = k) then
      match lm with Some d => Some (PStr (http_date_of d)) | None => dict_get k (default [] h) end
    else dict_get k (default [] h).
Proof.
  intros Hwf. unfold Response___init__. destruct lm as [d|]; cbn [set_last_modified headers with_headers].
  - rewrite dict_get_set, dict_merge_nil by done. by case_decide.
  - rewrite dict_merge_nil by done. by case_decide.
Qed.

(** [_add_links] always leaves the links key in the payload. *)
Lemma _add_links_contains self resp data representation out :
  _add_links self resp data representation = Ok out -> dict_contains (links_key self) out = true.
Proof.
  intros Hadd. unfold _add_links in Hadd. rewrite links_default_get in Hadd.
  destruct (default _ _); try discriminate. inv_bind Hadd. injection Hk as <-.
  by rewrite dict_contains_set, bool_decide_true.
Qed.

(** C12 (spec divergence): the spec's table gives [NoContentResponse] an
    empty payload, but 204 is a 2xx status: whatever the context, given
    data other than [None], a [NoContentResponse] that serializes sends
    a dict, the converted data with a links block, never [''] . *)
Theorem no_content_with_data_sends_body ctx d headers representation v :
  is_none d = false -> serialize (NoContentResponse_new ctx d headers) d representation = Ok v ->
  exists out, v = PDict out /\ dict_contains "_links" out = true.
Proof.
  intros Hd Hs. cbn [serialize NoContentResponse_new Response___init__ cls] in Hs.
  unfold Response_serialize in Hs. cbn [status data extra] in Hs. rewrite Hd in Hs. simpl in Hs.
  inv_bind Hs. inv_bind Hk. inv_bind Hk0. injection Hk as <-.
  eexists. split; [done|]. exact (_add_links_contains _ _ _ _ _ Hm1).
Qed.

End Lemmas.

(** ** Witnesses *)

Lemma serialize_nothing_to_send_witness :
  serialize (Response_new demo_context PNone 200 None None PNone (PBool true) "_links") PNone "default" =
    Ok (PStr "").
Proof. apply serialize_nothing_to_send; reflexivity. Defined.

Lemma serialize_non_success_witness :
  serialize (NotFoundResponse_new demo_context (PStr "missing") None) (PStr "missing") "default" =
    Ok (PStr "missing").
Proof. rewrite serialize_non_success; [reflexivity|reflexivity|simpl; lia]. Defined.

Lemma serialize_success_witness :
  exists out, serialize demo_response demo_data "default" = Ok (PDict out) /\
    dict_get "name" out = Some (PStr "ann") /\
    dict_get "_links" out =
      Some (PDict [("self", PStr "x");
                   ("other", PDict [("uri", PStr "http://testserver/items"); ("method", PStr "POST")])]).
Proof.
  destruct (serialize_success demo_response demo_data "default"
              [("_links", PDict [("self", PStr "x")])] [("name", PStr "ann")] [("self", PStr "x")]
              [("other", PDict [("uri", PStr "http://testserver/items"); ("method", PStr "POST")])])
    as (out & Hs & _ & Habs);
    [reflexivity|simpl; lia|left; reflexivity|reflexivity|solve_dict_wf|reflexivity|solve_dict_wf
    |reflexivity|reflexivity|].
  exists out. split; [exact Hs|]. rewrite <- !dict_abs_lookup, Habs. split; reflexivity.
Defined.

Lemma serialize_links_block_witness :
  exists L, _serialize_links demo_response demo_data "default" = Ok L /\
    dict_keys L = ["other"].
Proof.
  destruct (serialize_links_block demo_response demo_data "default" (PDict []))
    as (L & HL & Hkeys & _); [reflexivity|reflexivity| |].
  - intros key method lr Hin. simpl in Hin.
    apply elem_of_cons in Hin as [[= -> -> ->]|[]%elem_of_nil]. eexists; reflexivity.
  - exists L. split; [exact HL|exact Hkeys].
Defined.

Lemma serialize_links_missing_parameters_witness :
  _serialize_links (Response_new demo_context demo_data 200 None None PNone (PBool true) "_links")
    demo_data "default" = Raise (AttributeError "parameters").
Proof. apply serialize_links_missing_parameters; [reflexivity|discriminate|reflexivity]. Defined.

Lemma serialize_add_links_false_witness :
  exists out, serialize (Response_new demo_context_params demo_data 200 None None PNone (PBool false) "_links")
    demo_data "default" = Ok (PDict out) /\ dict_get "_links" out = Some (PDict []).
Proof.
  apply (serialize_add_links_false
           (Response_new demo_context_params demo_data 200 None None PNone (PBool false) "_links")
           demo_data "default" [] [("name", PStr "ann")]);
    [reflexivity|simpl; lia|left; reflexivity|reflexivity|solve_dict_wf|reflexivity|solve_dict_wf
    |reflexivity|reflexivity].
Defined.

Lemma collection_serialize_witness :
  exists out,
    serialize (CollectionResponse_new demo_context_params (PList demo_items) PNone None
                 200 None None PNone (PBool true) "_links") (PList demo_items) "default" = Ok (PDict out) /\
    dict_get "totalCount" out = Some (PInt 3) /\
    dict_get "items" out = Some (PList [PDict [("value", PStr "a")]; PDict [("value", PStr "b")];
                                        PDict [("value", PStr "c")]]).
Proof.
  destruct (collection_serialize
              (CollectionResponse_new demo_context_params (PList demo_items) PNone None
                 200 None None PNone (PBool true) "_links") "items" PNone demo_items "default"
              [PDict [("value", PStr "a")]; PDict [("value", PStr "b")]; PDict [("value", PStr "c")]]
              [] [] [("other", PDict [("uri", PStr "http://testserver/items"); ("method", PStr "POST")])])
    as (out & Hs & _ & Habs); [reflexivity|reflexivity|reflexivity|solve_dict_wf|reflexivity|reflexivity|].
  exists out. split; [exact Hs|]. rewrite <- !dict_abs_lookup, Habs. split; reflexivity.
Defined.

Lemma collection_generator_needs_total_witness :
  serialize (CollectionResponse_new demo_context_params (PIter demo_items) PNone None
               200 None None PNone (PBool true) "_links") (PIter demo_items) "default" =
    Raise (TypeError "object has no len()").
Proof.
  apply (collection_generator_needs_total _ "items" demo_items "default"
           [PDict [("value", PStr "a")]; PDict [("value", PStr "b")]; PDict [("value", PStr "c")]]);
    reflexivity.
Defined.

Lemma init_headers_get_witness :
  dict_get "X-Tag" (headers (Response___init__ Response demo_context_params PNone 200
                               (Some [("X-Tag", PStr "a")]) None PNone (PBool true) "_links")) = Some (PStr "a").
Proof.
  rewrite (init_headers_get Response demo_context_params PNone 200 (Some [("X-Tag", PStr "a")]) None
             PNone (PBool true) "_links" "X-Tag"); [reflexivity|apply NoDup_singleton].
Defined.

Lemma no_content_with_data_sends_body_witness :
  serialize (NoContentResponse_new demo_context_params demo_data None) demo_data "default" =
    Ok (PDict [("name", PStr "ann");
               ("_links", PDict [("other", PDict [("uri", PStr "http://testserver/items");
                                                  ("method", PStr "POST")])])]) /\
  exists out, PDict [("name", PStr "ann");
                     ("_links", PDict [("other", PDict [("uri", PStr "http://testserver/items");
                                                        ("method", PStr "POST")])])] = PDict out /\
    dict_contains "_links" out = true.
Proof.
  assert (H : serialize (NoContentResponse_new demo_context_params demo_data None) demo_data "default" =
    Ok (PDict [("name", PStr "ann");
               ("_links", PDict [("other", PDict [("uri", PStr "http://testserver/items");
                                                  ("method", PStr "POST")])])])) by (vm_compute; reflexivity).
  split; [exact H|]. exact (no_content_with_data_sends_body demo_context_params demo_data None "default" _ eq_refl H).
Defined.

End Responses.
