(* ===== verification/LastModified.v ===== *)
(** * The [Last-Modified] header a response writes

    [Response.set_last_modified(dt)] (responses.py:27-31) stores
    [http_date(times.to_unix(dt))] under [Last-Modified].  With the
    libraries of [Calendar] as the [HttpDate] instance, this file states
    what that header is, against a specification written apart from the
    code: the IMF-fixdate of RFC 7231 (section 7.1.1.1),
    ["Sun, 06 Nov 1994 08:49:37 GMT"], whose day name comes from the
    Gregorian day count done year by year ([Calendar.ordinal_ref]), whose
    numbers are printed digit by digit, and whose names are the RFC's
    tables.  A naive [datetime] is read as UTC, as [times.to_unix] does. *)

From stdpp Require Import base numbers list strings.
From Stdlib Require Import ZArith Ascii.
From S2P Require Import Prelude PyValue HttpDate Calendar Context Resource Responses.

Module LastModified.
Import Calendar Responses.
Local Open Scope Z_scope.

(** ** The IMF-fixdate of a datetime *)

(** [day-name] and [month] of RFC 7231, in the RFC's order. *)
Definition rfc_day_names : list string := ["Mon"; "Tue"; "Wed"; "Thu"; "Fri"; "Sat"; "Sun"].
Definition rfc_month_names : list string :=
  ["Jan"; "Feb"; "Mar"; "Apr"; "May"; "Jun"; "Jul"; "Aug"; "Sep"; "Oct"; "Nov"; "Dec"].

(** The ASCII digit of [0 <= d <= 9]. *)
Definition ascii_digit (d : Z) : ascii := ascii_of_nat (48 + Z.to_nat d)%nat.

(** [2DIGIT] and [4DIGIT]: the decimal digits, most significant first. *)
Definition two_digits (n : Z) : string :=
  String (ascii_digit (n / 10)) (String (ascii_digit (n mod 10)) EmptyString).
Definition four_digits (n : Z) : string :=
  String (ascii_digit (n / 1000)) (String (ascii_digit (n / 100 mod 10))
    (String (ascii_digit (n / 10 mod 10)) (String (ascii_digit (n mod 10)) EmptyString))).

(** The day of the week, Monday 0: day 1 of the count, 1 January of the
    year 1, is a Monday in the proleptic Gregorian calendar. *)
Definition weekday_ref (y m d : Z) : Z := (ordinal_ref y m d + 6) mod 7.

(** [IMF-fixdate = day-name "," SP date1 SP time-of-day SP GMT]. *)
Definition imf_fixdate (dt : datetime) : string :=
  nth (Z.to_nat (weekday_ref (dt_year dt) (dt_month dt) (dt_day dt))) rfc_day_names "" +:+ ", " +:+
  two_digits (dt_day dt) +:+ " " +:+ nth (Z.to_nat (dt_month dt - 1)) rfc_month_names "" +:+ " " +:+
  four_digits (dt_year dt) +:+ " " +:+
  two_digits (dt_hour dt) +:+ ":" +:+ two_digits (dt_minute dt) +:+ ":" +:+ two_digits (dt_second dt) +:+
  " GMT".

(** ** Lemmas *)

(** The two checks, by evaluation: every two- and every four-digit number. *)
Lemma format_2_agrees : forallb (fun n => bool_decide (format_0d 2 n = two_digits n)) (seqZ 0 100) = true.
Proof. vm_compute. reflexivity. Qed.

Lemma format_4_agrees : forallb (fun n => bool_decide (format_0d 4 n = four_digits n)) (seqZ 0 10000) = true.
Proof. vm_compute. reflexivity. Qed.

(** ['%02d' % n] is [2DIGIT] on [0 .. 99], ['%04d' % n] [4DIGIT] on
    [0 .. 9999]. *)
Lemma format_0d_2 n : 0 <= n < 100 -> format_0d 2 n = two_digits n.
Proof.
  intros Hn. pose proof format_2_agrees as H.
  apply (forallb_seqZ _ 0 100 n) in H; [|lia]. by apply bool_decide_eq_true in H.
Qed.

Lemma format_0d_4 n : 0 <= n < 10000 -> format_0d 4 n = four_digits n.
Proof.
  intros Hn. pose proof format_4_agrees as H.
  apply (forallb_seqZ _ 0 10000 n) in H; [|lia]. by apply bool_decide_eq_true in H.
Qed.

(** C13 (functional): for every valid [datetime] [dt],
    [set_last_modified(dt)] (responses.py:29, with Django's [http_date]
    and [times.to_unix]) sets [Last-Modified] to the IMF-fixdate of [dt]
    itself, read as UTC: the right day name, day, month, four-digit year
    and time, each field in its width, and ["GMT"]. *)
Theorem last_modified_header (self : response) dt :
  _check_fields dt = true ->
  dict_get "Last-Modified" (headers (set_last_modified self (Some dt))) = Some (PStr (imf_fixdate dt)).
Proof.
  intros Hc. cbn [set_last_modified headers with_headers http_date_of calendar_http_date].
  rewrite dict_get_set_eq. do 2 f_equal.
  (* [gmtime] gives the fields back, CPython's ordinal is the day count,
     and each field is printed in its width *)
  unfold http_date, formatdate, imf_fixdate, weekday_ref.
  rewrite (gmtime_to_unix_aux dt Hc). cbn [tm_year tm_mon tm_mday tm_hour tm_min tm_sec tm_wday].
  apply check_fields_spec in Hc as (Hy & Hm & Hd & Hh & Hmi & Hs).
  pose proof (days_in_month_le (dt_year dt) (dt_month dt) Hm).
  rewrite (ymd2ord_counts_days (dt_year dt) (dt_month dt) (dt_day dt)) by lia.
  rewrite !format_0d_2, format_0d_4 by lia. reflexivity.
Qed.

(** ** Witness *)

(** The example of RFC 7231: 6 November 1994, 08:49:37, a Sunday. *)
Lemma last_modified_header_witness :
  dict_get "Last-Modified" (headers (set_last_modified demo_response (Some (mkDatetime 1994 11 6 8 49 37)))) =
    Some (PStr "Sun, 06 Nov 1994 08:49:37 GMT").
Proof.
  rewrite (last_modified_header demo_response (mkDatetime 1994 11 6 8 49 37)); [|reflexivity].
  vm_compute. reflexivity.
Defined.

End LastModified.
