(* ===== verification/Factories.v ===== *)
(** * The response factories of [Context] ([src/restosaur/context.py])

    [Context] has one method per response class it can build,
    [ctx.Response(...)], [ctx.ValidationError(...)], ..., each forwarding
    its arguments to the class's constructor with [context=self].  The
    methods a name resolves to are [context_factory]; a name the class
    does not define raises [AttributeError] ([getattr_factory]).  The
    spec (and the tests) call twelve factories; the class defines nine. *)

From stdpp Require Import base list strings gmap.
From Stdlib Require Import ZArith.
From S2P Require Import Prelude PyValue HttpDate Context Resource Responses.

Module Factories.
Import Responses.

Inductive factory :=
| FResponse
| FValidationError
| FNotAcceptable
| FMethodNotAllowed
| FForbidden
| FUnauthorized
| FNoContent
| FEntity
| FCollection.

(** The factory methods [Context] defines, by name. *)
Definition context_factory (name : string) : option factory :=
  match name with
  | "Response" => Some FResponse
  | "ValidationError" => Some FValidationError
  | "NotAcceptable" => Some FNotAcceptable
  | "MethodNotAllowed" => Some FMethodNotAllowed
  | "Forbidden" => Some FForbidden
  | "Unauthorized" => Some FUnauthorized
  | "NoContent" => Some FNoContent
  | "Entity" => Some FEntity
  | "Collection" => Some FCollection
  | _ => None
  end%string.

(** [getattr(ctx, name)] for a factory name. *)
Definition getattr_factory (name : string) : result factory :=
  match context_factory name with
  | Some f => Ok f
  | None => Raise (AttributeError name)
  end.

(** The class of the response each factory builds. *)
Definition factory_class (f : factory) : option rclass :=
  match f with
  | FResponse => Some Response
  | FValidationError => Some ValidationErrorResponse
  | FNotAcceptable => Some NotAcceptableResponse
  | FMethodNotAllowed => Some MethodNotAllowedResponse
  | FForbidden => Some ForbiddenResponse
  | FUnauthorized => Some UnauthorizedResponse
  | FNoContent => Some NoContentResponse
  | FEntity => Some EntityResponse
  | FCollection => None
  end.

Section Methods.
Context `{HttpDate}.

(** [def Response(self, *args, **kwargs): return responses.Response(self, *args, **kwargs)]
    and its siblings. *)
Definition Context_Response (self : Context.context) := Response_new self.
Definition Context_ValidationError (self : Context.context) := ValidationErrorResponse_new self.
Definition Context_NotAcceptable (self : Context.context) := NotAcceptableResponse_new self.
Definition Context_MethodNotAllowed (self : Context.context) := MethodNotAllowedResponse_new self.
Definition Context_Forbidden (self : Context.context) := ForbiddenResponse_new self.
Definition Context_Unauthorized (self : Context.context) := UnauthorizedResponse_new self.
Definition Context_NoContent (self : Context.context) := NoContentResponse_new self.
Definition Context_Entity (self : Context.context) := EntityResponse_new self.
Definition Context_Collection (self : Context.context) := CollectionResponse_new self.

End Methods.

(** The factory names the spec and the tests use. *)
Definition spec_factory_names : list string :=
  ["Response"; "Created"; "NoContent"; "NotModified"; "Unauthorized"; "Forbidden";
   "NotFound"; "MethodNotAllowed"; "NotAcceptable"; "Entity"; "Collection"; "ValidationError"].

Section Properties.
Context `{ResourceRegistry} `{HttpDate}.

(** Of the twelve factories the
    spec lists, [Created], [NotModified] and [NotFound] are not methods of
    [Context]: calling them raises [AttributeError]; the other nine
    resolve. *)
Lemma spec_factories_resolution name :
  name ∈ spec_factory_names ->
  (getattr_factory name = Raise (AttributeError name) <-> name ∈ ["Created"; "NotModified"; "NotFound"]).
Proof.
  intros Hin. repeat (apply elem_of_cons in Hin as [->|Hin]; [vm_compute; split; intros;
    first [done | set_solver] |]).
  by apply elem_of_nil in Hin.
Qed.

(** C6 (code bug, end to end): a handler that builds
    its context with [Context(request, resource, body)] and returns
    [ctx.Response(data)] for a resource that declares links cannot be
    serialized: [serialize] raises [AttributeError] on
    [context.parameters]. *)
Theorem fresh_context_response_raises request resource body x st h lm ex al lk representation e d existing :
  (200 <= st < 300)%Z -> is_none x = false ->
  or_empty_dict ex = PDict e -> dict_wf e ->
  resource_convert resource (Context.__init__ request resource body) x representation = Ok (PDict d) ->
  dict_wf d ->
  default (PDict []) ((dict_abs d ∪ dict_abs e) !! lk) = PDict existing ->
  py_truthy al = true -> resource_links resource <> [] ->
  serialize (Context_Response (Context.__init__ request resource body) x st h lm ex al lk) x representation =
    Raise (AttributeError "parameters").
Proof.
  intros Hs Hx Hex Hwe Hconv Hwd Hlk Hal Hlinks.
  destruct (Response___init___fields Response (Context.__init__ request resource body) x st h lm ex al lk)
    as (Hc & Hctx & _ & Hst & Hext & Hal' & Hlk').
  unfold Context_Response, Response_new.
  apply (serialize_success_links_raise _ _ _ e d existing); rewrite ?Hc, ?Hctx, ?Hst, ?Hext, ?Hal', ?Hlk'; try done.
  - by left.
  - unfold _serialize_links. rewrite Hctx, Hal', Hal. cbn [Context.resource Context.__init__].
    rewrite bool_decide_false by done. simpl.
    destruct (resource_links resource) as [|[key [method lr]] ls]; [done|]. simpl. by rewrite Hctx.
Qed.

End Properties.

(** ** Witnesses, on the registry of [Responses] *)

#[local] Existing Instance demo_registry.
#[local] Existing Instance demo_http_date.

Lemma fresh_context_response_raises_witness :
  serialize (Context_Response (Context.__init__ demo_request "users" PNone) demo_data 200 None None
               PNone (PBool true) "_links") demo_data "default" = Raise (AttributeError "parameters").
Proof.
  apply (fresh_context_response_raises _ _ _ _ _ _ _ _ _ _ _ [] [("name", PStr "ann")] []);
    [simpl; lia|reflexivity|reflexivity|solve_dict_wf|reflexivity|solve_dict_wf|reflexivity
    |reflexivity|discriminate].
Defined.

End Factories.
