(* ===== verification/Aliasing.v ===== *)
(** * Dict objects and aliasing in [Response.serialize]

    [Responses] models values by copy.  Python dicts are objects, and
    [Response.serialize] shares them: [output.update(self.extra)] copies the
    references held by [extra], so [output[links_key]] can be the very dict
    [self.extra[links_key]], and [_add_links] then runs
    [resp[links_key].update(links)] on it.  This file models the store of
    dict objects: a value [hval] refers to a dict by its location, the
    store maps locations to dicts, [alloc] creates an object ([{}] or a
    dict display), [h_update] is [d.update(x)] on an object, and
    [Response_serialize_h], [CollectionResponse_serialize_h] and
    [_add_links_h] are the methods with these objects; [serialize_each]
    is a caller serializing several responses in turn with one [extra].
    The converter [resource.convert] becomes the class [HeapConverter],
    which may allocate but does not change existing objects. *)

From stdpp Require Import base list strings gmap.
From Stdlib Require Import ZArith.
From S2P Require Import Prelude PyValue HttpDate Context Resource Responses.

Module Aliasing.
Import Responses.

(** Values with dicts by reference. *)
Inductive hval :=
| HNone
| HBool (b : bool)
| HInt (z : Z)
| HStr (s : string)
| HList (xs : list hval)
| HIter (xs : list hval)
| HRef (l : positive).

Record store := mkStore {
  objs : gmap positive (list (string * hval));
  next : positive
}.

(** A new object ([{}], a dict display). *)
Definition alloc (d : list (string * hval)) (st : store) : positive * store :=
  (next st, {| objs := <[next st := d]> (objs st); next := Pos.succ (next st) |}).

(** The object at [l] becomes [d] (an in-place mutation). *)
Definition write (l : positive) (d : list (string * hval)) (st : store) : store :=
  {| objs := <[l := d]> (objs st); next := next st |}.

Definition load (l : positive) (st : store) : result (list (string * hval)) :=
  match objs st !! l with
  | Some d => Ok d
  | None => Raise (TypeError "dangling reference")
  end.

(** [bool(v)] and [v is None] on values with references. *)
Definition h_truthy (st : store) (v : hval) : bool :=
  match v with
  | HNone => false
  | HBool b => b
  | HInt z => negb (Z.eqb z 0)
  | HStr s => match s with EmptyString => false | _ => true end
  | HList xs => match xs with [] => false | _ => true end
  | HIter _ => true
  | HRef l => match objs st !! l with Some [] => false | _ => true end
  end.

Definition h_is_none (v : hval) : bool :=
  match v with HNone => true | _ => false end.

(** [iter(v)] *)
Definition h_iter (st : store) (v : hval) : result (list hval) :=
  match v with
  | HList xs | HIter xs => Ok xs
  | HRef l => d <- load l st ;; Ok (map (fun kv => HStr kv.1) d)
  | HStr s => Ok (map (fun c => HStr (String c EmptyString)) (String.list_ascii_of_string s))
  | _ => Raise (TypeError "object is not iterable")
  end.

Definition h_update_pair (st : store) (d : list (string * hval)) (x : hval) : result (list (string * hval)) :=
  match h_iter st x with
  | Ok [HStr k; v] => Ok (dict_set k v d)
  | Ok [_; _] => Raise (TypeError "dictionary key is not a string")
  | Ok _ => Raise (ValueError "dictionary update sequence element has length other than 2")
  | Raise _ => Raise (TypeError "cannot convert dictionary update sequence element to a sequence")
  end.

(** [objs[l].update(x)]: the references [x] holds are copied, not the
    objects they refer to. *)
Definition h_update (l : positive) (x : hval) (st : store) : result store :=
  d <- load l st ;;
  match x with
  | HRef l' => d' <- load l' st ;; Ok (write l (dict_merge d d') st)
  | _ => elems <- h_iter st x ;; d <- rfold (h_update_pair st) d elems ;; Ok (write l d st)
  end.

(** Allocating the elements of a sequence, left to right. *)
Fixpoint alloc_seq {A B} (f : A -> store -> B * store) (xs : list A) (st : store) : list B * store :=
  match xs with
  | [] => ([], st)
  | x :: xs => let '(y, st) := f x st in let '(ys, st) := alloc_seq f xs st in (y :: ys, st)
  end.

(** A fresh Python value: every dict in it is a new object, allocated
    after the values it holds. *)
Fixpoint alloc_py (v : pyval) (st : store) {struct v} : hval * store :=
  match v with
  | PNone => (HNone, st)
  | PBool b => (HBool b, st)
  | PInt z => (HInt z, st)
  | PStr s => (HStr s, st)
  | PList xs => let '(ys, st) := alloc_seq alloc_py xs st in (HList ys, st)
  | PIter xs => let '(ys, st) := alloc_seq alloc_py xs st in (HIter ys, st)
  | PDict kvs =>
      let '(d, st) := alloc_seq (fun kv st => let '(y, st) := alloc_py kv.2 st in ((kv.1, y), st)) kvs st in
      let '(l, st) := alloc d st in (HRef l, st)
  end.

(** The value a reference denotes, read with a depth bound. *)
Fixpoint deref (fuel : nat) (st : store) (v : hval) : option pyval :=
  match fuel with
  | O => None
  | S fuel' =>
      match v with
      | HNone => Some PNone
      | HBool b => Some (PBool b)
      | HInt z => Some (PInt z)
      | HStr s => Some (PStr s)
      | HList xs => PList <$> mapM (deref fuel' st) xs
      | HIter xs => PIter <$> mapM (deref fuel' st) xs
      | HRef l =>
          match objs st !! l with
          | Some d => PDict <$> mapM (fun kv => (fun y => (kv.1, y)) <$> deref fuel' st kv.2) d
          | None => None
          end
      end
  end.

(** [resource.convert(context, data, representation)] on objects. *)
Class HeapConverter := {
  hconvert : string -> Context.context -> hval -> string -> store -> result (hval * store)
}.

(** Every object lives below [next]: [alloc] never reuses a location. *)
Definition store_wf (st : store) : Prop :=
  forall l, is_Some (objs st !! l) -> (l < next st)%positive.

(** [st'] keeps every object of [st] as it was. *)
Definition store_ext (st st' : store) : Prop :=
  forall l d, objs st !! l = Some d -> objs st' !! l = Some d.

Section Serialize.
Context `{ResourceRegistry} `{HeapConverter}.

(** [_add_links(self, resp, data, representation)] on the object [resp]:
    the [update] mutates whatever object [resp[links_key]] refers to.  The
    links dict is fresh ([_serialize_links] does not read [data]). *)
Definition _add_links_h (self : response) (resp : positive) (representation : string) (st : store) : result store :=
  let lk := links_key self in
  d <- load resp st ;;
  st <- (if negb (dict_contains lk d)
         then let '(l, st) := alloc [] st in Ok (write resp (dict_set lk (HRef l) d) st)
         else Ok st) ;;
  d <- load resp st ;;
  match dict_get lk d with
  | Some (HRef l) =>
      links <- _serialize_links self PNone representation ;;
      let '(hl, st) := alloc_py (PDict links) st in
      h_update l hl st
  | _ => Raise (AttributeError "update")
  end.

(** [Response.serialize(self, data, representation)] with [self.extra]
    the value [extra]. *)
Definition Response_serialize_h (self : response) (extra data : hval) (representation : string)
    (st : store) : result (hval * store) :=
  if h_is_none data && negb (h_truthy st extra) then Ok (HStr "", st)
  else if (200 <=? status self)%Z && (status self <? 300)%Z then
    let '(output, st) := alloc [] st in
    let '(ex, st) := if h_truthy st extra then (extra, st)
                     else let '(l, st) := alloc [] st in (HRef l, st) in
    st <- h_update output ex st ;;
    r <- hconvert (Context.resource (context self)) (context self) data representation st ;;
    let '(converted, st) := r in
    st <- h_update output converted st ;;
    st <- _add_links_h self output representation st ;;
    Ok (HRef output, st)
  else Ok (data, st).

(** [len(v)] on objects: a generator has no length. *)
Definition h_len (st : store) (v : hval) : result Z :=
  match v with
  | HList xs => Ok (Z.of_nat (length xs))
  | HStr s => Ok (Z.of_nat (String.length s))
  | HRef l => d <- load l st ;; Ok (Z.of_nat (length d))
  | _ => Raise (TypeError "object has no len()")
  end.

(** [map(f, xs)] with an [f] that threads the store. *)
Fixpoint hmapM (f : hval -> store -> result (hval * store)) (xs : list hval) (st : store)
    : result (list hval * store) :=
  match xs with
  | [] => Ok ([], st)
  | x :: xs => r <- f x st ;; let '(y, st) := r in
               r <- hmapM f xs st ;; let '(ys, st) := r in
               Ok (y :: ys, st)
  end.

(** [CollectionResponse.serialize(self, iterable, representation)] with
    [self.totalCount] the value [totalCount] and [self.extra] the value
    [extra]: the envelope is a new dict, [resp.update(self.extra or {})]
    copies the references [extra] holds, and [_add_links] follows. *)
Definition CollectionResponse_serialize_h (self : response) (key : string) (totalCount extra iterable : hval)
    (representation : string) (st : store) : result (hval * store) :=
  xs <- h_iter st iterable ;;
  r <- hmapM (fun x st => hconvert (Context.resource (context self)) (context self) x representation st) xs st ;;
  let '(items, st) := r in
  total <- (if h_is_none totalCount then n <- h_len st iterable ;; Ok (HInt n) else Ok totalCount) ;;
  let '(resp, st) := alloc (dict_set "totalCount" total (dict_set key (HList items) [])) st in
  let '(ex, st) := if h_truthy st extra then (extra, st)
                   else let '(l, st) := alloc [] st in (HRef l, st) in
  st <- h_update resp ex st ;;
  st <- _add_links_h self resp representation st ;;
  Ok (HRef resp, st).

(** A client serializing several responses in turn, with the same
    [extra] and data, through one store. *)
Fixpoint serialize_each (rs : list response) (extra data : hval) (representation : string) (st : store)
    : result (list hval * store) :=
  match rs with
  | [] => Ok ([], st)
  | r :: rs =>
      x <- Response_serialize_h r extra data representation st ;;
      let '(out, st) := x in
      y <- serialize_each rs extra data representation st ;;
      let '(outs, st) := y in
      Ok (out :: outs, st)
  end.

End Serialize.

(** ** Lemmas on the store *)

Lemma store_ext_refl st : store_ext st st.
Proof. by intros l d. Qed.

Lemma store_ext_trans st1 st2 st3 : store_ext st1 st2 -> store_ext st2 st3 -> store_ext st1 st3.
Proof. intros H12 H23 l d Hl. by apply H23, H12. Qed.

Lemma alloc_fresh st : store_wf st -> objs st !! next st = None.
Proof.
  intros Hwf. destruct (objs st !! next st) eqn:E; [|done].
  specialize (Hwf (next st) ltac:(by rewrite E)). lia.
Qed.

Lemma alloc_spec d st :
  store_wf st ->
  store_wf (alloc d st).2 /\ store_ext st (alloc d st).2 /\
  objs (alloc d st).2 !! (alloc d st).1 = Some d /\ objs st !! (alloc d st).1 = None.
Proof.
  intros Hwf. pose proof (alloc_fresh st Hwf) as Hfresh. simpl. split_and!.
  - intros l Hl. cbn [alloc objs next snd] in *. rewrite lookup_insert in Hl.
    destruct (decide (next st = l)) as [Heq|Hne]; [subst l; lia|].
    specialize (Hwf l Hl). lia.
  - intros l d' Hl. simpl. rewrite lookup_insert_ne; [done|]. intros Heq. subst l. congruence.
  - apply lookup_insert_eq.
  - done.
Qed.

Lemma write_ext st l d : objs st !! l = None -> store_ext st (write l d st).
Proof. intros Hl l' d' Hl'. simpl. rewrite lookup_insert_ne; [done|]. intros ->. congruence. Qed.

Lemma write_wf st l d : store_wf st -> is_Some (objs st !! l) -> store_wf (write l d st).
Proof.
  intros Hwf Hl l' Hl'. simpl in *. rewrite lookup_insert in Hl'.
  case_decide; subst; [by apply Hwf|by apply Hwf].
Qed.

Lemma write_get st l l' d : objs (write l d st) !! l' = if decide (l = l') then Some d else objs st !! l'.
Proof. simpl. apply lookup_insert. Qed.

Lemma write_get_eq st l d : objs (write l d st) !! l = Some d.
Proof. simpl. apply lookup_insert_eq. Qed.

(** [o = {}] followed by writes to [o]: the store keeps every earlier
    object, [o] holds the last dict written. *)
Lemma alloc_write st d :
  store_wf st ->
  store_wf (write (next st) d (alloc [] st).2) /\ store_ext st (write (next st) d (alloc [] st).2) /\
  objs (write (next st) d (alloc [] st).2) !! next st = Some d /\ objs st !! next st = None.
Proof.
  intros Hwf. destruct (alloc_spec [] st Hwf) as (Hwf1 & Hext1 & Ho1 & Ho).
  cbn [alloc fst snd] in Ho1, Ho, Hext1, Hwf1. split_and!; [|intros l d' Hl|apply write_get_eq|done].
  - apply write_wf; [exact Hwf1|exists []; exact Ho1].
  - rewrite write_get. case_decide; [subst; congruence|]. by apply Hext1.
Qed.

(** Two new empty dicts: the output [next st] and the [{}] that replaces
    a false [extra]. *)
Lemma alloc2_write st :
  store_wf st ->
  let st2 := write (next st) [] (alloc [] (alloc [] st).2).2 in
  store_wf st2 /\ store_ext st st2 /\ objs st2 !! next st = Some [] /\ objs st !! next st = None.
Proof.
  intros Hwf st2. destruct (alloc_spec [] st Hwf) as (Hwf1 & Hext1 & Ho1 & Ho).
  destruct (alloc_spec [] _ Hwf1) as (Hwf2 & Hext2 & _ & _). cbn [alloc fst snd] in *.
  split_and!; [apply write_wf; [done|eexists; by apply Hext2]| |apply write_get_eq|done].
  intros l d Hl. unfold st2. rewrite write_get. case_decide; [congruence|]. by apply Hext2, Hext1.
Qed.

Lemma list_all_Forall (P : pyval -> Prop) xs : list_all pyval P xs -> Forall P xs.
Proof. induction 1; constructor; auto. Qed.

Lemma list_all_prod_Forall (P : pyval -> Prop) (kvs : list (string * pyval)) :
  list_all (string * pyval) (prod_all string (fun _ => unit) pyval P) kvs -> Forall (fun kv => P kv.2) kvs.
Proof. induction 1 as [|kv Hkv]; constructor; [destruct Hkv; done|auto]. Qed.

Lemma alloc_seq_frame {A B} (P : A -> Prop) (f : A -> store -> B * store) xs :
  Forall P xs ->
  (forall x, P x -> forall st, store_wf st -> store_wf (f x st).2 /\ store_ext st (f x st).2) ->
  forall st, store_wf st -> store_wf (alloc_seq f xs st).2 /\ store_ext st (alloc_seq f xs st).2.
Proof.
  intros Hall Hf. induction Hall as [|x xs Px Hall IH]; intros st Hwf; simpl; [split; [done|apply store_ext_refl]|].
  destruct (f x st) as [y st1] eqn:E1. destruct (Hf x Px st Hwf) as [Hwf1 Hext1]. rewrite E1 in Hwf1, Hext1.
  destruct (alloc_seq f xs st1) as [ys st2] eqn:E2. destruct (IH st1 Hwf1) as [Hwf2 Hext2].
  rewrite E2 in Hwf2, Hext2. split; [done|]. by apply (store_ext_trans _ st1).
Qed.

Lemma alloc_seq_keys {B} (f : string * pyval -> store -> (string * B) * store) kvs st :
  (forall kv st, ((f kv st).1).1 = kv.1) ->
  map fst (alloc_seq f kvs st).1 = map fst kvs.
Proof.
  intros Hf. revert st. induction kvs as [|kv kvs IH]; intros st; simpl; [done|].
  specialize (Hf kv st). destruct (f kv st) as [[k y] st1]. simpl in Hf.
  specialize (IH st1). destruct (alloc_seq f kvs st1) as [ys st2]. simpl in *. by rewrite Hf, IH.
Qed.

(** Allocating a fresh value only adds objects. *)
Lemma alloc_py_frame v st :
  store_wf st -> store_wf (alloc_py v st).2 /\ store_ext st (alloc_py v st).2.
Proof.
  revert st. induction v as [| | | |xs IH|xs IH|kvs IH] using pyval_ind; intros st Hwf; simpl;
    try (split; [done|apply store_ext_refl]).
  - pose proof (alloc_seq_frame _ alloc_py xs (list_all_Forall _ _ IH) (fun x Px => Px) st Hwf) as Hs.
    destruct (alloc_seq alloc_py xs st). exact Hs.
  - pose proof (alloc_seq_frame _ alloc_py xs (list_all_Forall _ _ IH) (fun x Px => Px) st Hwf) as Hs.
    destruct (alloc_seq alloc_py xs st). exact Hs.
  - set (g := fun (kv : string * pyval) st => let '(y, st) := alloc_py kv.2 st in ((kv.1, y), st)).
    assert (Hg : forall kv : string * pyval,
                 (forall st, store_wf st -> store_wf (alloc_py kv.2 st).2 /\ store_ext st (alloc_py kv.2 st).2) ->
                 forall st, store_wf st -> store_wf (g kv st).2 /\ store_ext st (g kv st).2).
    { intros kv Hx st' Hwf'. unfold g. specialize (Hx st' Hwf'). destruct (alloc_py kv.2 st'). exact Hx. }
    destruct (alloc_seq_frame _ g kvs (list_all_prod_Forall _ _ IH) Hg st Hwf) as [Hwf1 Hext1].
    destruct (alloc_seq g kvs st) as [d st1]. simpl in *.
    destruct (alloc_spec d st1 Hwf1) as (Hwf2 & Hext2 & _). unfold alloc in *; simpl in *.
    split; [exact Hwf2|]. by apply (store_ext_trans _ st1).
Qed.

Lemma ext_none st st' l : store_ext st st' -> objs st' !! l = None -> objs st !! l = None.
Proof. intros Hext Hl. destruct (objs st !! l) eqn:E; [|done]. by rewrite (Hext _ _ E) in Hl. Qed.

Lemma wf_ne st l l' d : store_wf st -> objs st !! l = Some d -> objs st !! l' = None -> l <> l'.
Proof. intros _ Hl Hl' ->. congruence. Qed.

(** A fresh dict is a new object with the same keys, and only that is
    added to the store. *)
Lemma alloc_py_dict kvs st :
  store_wf st ->
  exists l d, (alloc_py (PDict kvs) st).1 = HRef l /\ objs (alloc_py (PDict kvs) st).2 !! l = Some d /\
    objs st !! l = None /\ dict_keys d = dict_keys kvs.
Proof.
  intros Hwf. cbn [alloc_py].
  set (g := fun (kv : string * pyval) st => let '(y, st) := alloc_py kv.2 st in ((kv.1, y), st)).
  assert (Hkeys : map fst (alloc_seq g kvs st).1 = map fst kvs).
  { apply alloc_seq_keys. intros kv st'. unfold g. by destruct (alloc_py kv.2 st'). }
  assert (Hg : forall kv : string * pyval, True ->
                 forall st, store_wf st -> store_wf (g kv st).2 /\ store_ext st (g kv st).2).
  { intros kv _ st' Hwf'. unfold g. pose proof (alloc_py_frame kv.2 st' Hwf') as Hx.
    destruct (alloc_py kv.2 st'). exact Hx. }
  destruct (alloc_seq_frame (fun _ => True) g kvs (Forall_true _ kvs (fun _ => I)) Hg st Hwf) as [Hwf1 Hext1].
  destruct (alloc_seq g kvs st) as [d st1]. simpl in Hkeys, Hwf1, Hext1. unfold alloc. simpl.
  exists (next st1), d. split_and!; [done| apply lookup_insert_eq | | exact Hkeys].
  apply (ext_none _ _ _ Hext1), alloc_fresh, Hwf1.
Qed.

(** A false value stays false in a store that keeps every object. *)
Lemma h_truthy_false_ext st st' v : store_ext st st' -> h_truthy st v = false -> h_truthy st' v = false.
Proof.
  intros Hext Hv. destruct v as [| | | | | |l]; try done. cbn [h_truthy] in *.
  destruct (objs st !! l) as [[|]|] eqn:E; try done. by rewrite (Hext _ _ E).
Qed.

Lemma load_Some l st d : objs st !! l = Some d -> load l st = Ok d.
Proof. unfold load. by intros ->. Qed.

Lemma h_update_ref l l' d d' st :
  objs st !! l = Some d -> objs st !! l' = Some d' ->
  h_update l (HRef l') st = Ok (write l (dict_merge d d') st).
Proof. intros Hl Hl'. unfold h_update. by rewrite (load_Some _ _ _ Hl), (load_Some _ _ _ Hl'). Qed.

Section SerializeLemmas.
Context `{ResourceRegistry} `{HeapConverter}.

(** The converter of the resource, at a given call: it allocates only, and
    returns a fresh dict without the links key. *)
Definition converter_fresh (self : response) (data : hval) (representation : string) : Prop :=
  forall st1, store_wf st1 -> exists c dc st2,
    hconvert (Context.resource (context self)) (context self) data representation st1 = Ok (HRef c, st2) /\
    store_wf st2 /\ store_ext st1 st2 /\ objs st1 !! c = None /\ objs st2 !! c = Some dc /\
    dict_wf dc /\ dict_contains (links_key self) dc = false.

(** The run of [_add_links] on an output whose links entry refers to an
    object [X]: the links dict is allocated and [X] becomes [X] merged
    with it. *)
Lemma _add_links_h_run (self : response) resp d X dX representation links st :
  store_wf st -> objs st !! resp = Some d -> dict_get (links_key self) d = Some (HRef X) ->
  objs st !! X = Some dX ->
  _serialize_links self PNone representation = Ok links ->
  exists L dL st1, alloc_py (PDict links) st = (HRef L, st1) /\ objs st1 !! L = Some dL /\
    dict_keys dL = dict_keys links /\
    _add_links_h self resp representation st = Ok (write X (dict_merge dX dL) st1).
Proof.
  intros Hwf Hr Hlk HX Hlinks. unfold _add_links_h.
  assert (Hc : dict_contains (links_key self) d = true) by (apply dict_contains_get; by rewrite Hlk).
  rewrite (load_Some _ _ _ Hr), rbind_Ok, Hc. simpl negb. cbv iota.
  rewrite rbind_Ok, (load_Some _ _ _ Hr), rbind_Ok, Hlk, Hlinks, rbind_Ok.
  destruct (alloc_py_dict links st Hwf) as (L & dL & HL1 & HL2 & HL & Hkeys).
  pose proof (alloc_py_frame (PDict links) st Hwf) as [_ Hext].
  destruct (alloc_py (PDict links) st) as [hl st1]. simpl in *. subst hl.
  exists L, dL, st1. split_and!; try done. by rewrite (h_update_ref _ _ _ _ _ (Hext _ _ HX) HL2).
Qed.

(** [_add_links] on an output whose links entry already refers to an
    object [X]: [X] is updated in place with the serialized links, and
    every other object is left as it was. *)
Lemma _add_links_h_shared (self : response) resp d X dX representation links st :
  store_wf st -> objs st !! resp = Some d -> dict_get (links_key self) d = Some (HRef X) ->
  objs st !! X = Some dX ->
  _serialize_links self PNone representation = Ok links ->
  exists dL st', _add_links_h self resp representation st = Ok st' /\
    objs st' !! X = Some (dict_merge dX dL) /\ dict_keys dL = dict_keys links /\
    (forall l d', l <> X -> objs st !! l = Some d' -> objs st' !! l = Some d').
Proof.
  intros Hwf Hr Hlk HX Hlinks.
  destruct (_add_links_h_run self resp d X dX representation links st Hwf Hr Hlk HX Hlinks)
    as (L & dL & st1 & Halloc & HL & Hkeys & ->).
  pose proof (alloc_py_frame (PDict links) st Hwf) as [_ Hext]. rewrite Halloc in Hext.
  exists dL, (write X (dict_merge dX dL) st1). split_and!; [done| |done|].
  - rewrite write_get. by case_decide.
  - intros l d' Hne Hl. rewrite write_get. case_decide; [congruence|auto].
Qed.

(** The run of [_add_links] on an output without the links key: a new
    empty dict [next st] is stored under the key, then updated with the
    fresh links dict. *)
Lemma _add_links_h_fresh (self : response) resp d representation links st :
  store_wf st -> objs st !! resp = Some d -> dict_contains (links_key self) d = false ->
  _serialize_links self PNone representation = Ok links ->
  exists L dL stl,
    alloc_py (PDict links) (write resp (dict_set (links_key self) (HRef (next st)) d) (alloc [] st).2) =
      (HRef L, stl) /\ objs stl !! L = Some dL /\ dict_keys dL = dict_keys links /\
    _add_links_h self resp representation st = Ok (write (next st) (dict_merge [] dL) stl).
Proof.
  intros Hwf Hr Hc Hlinks. unfold _add_links_h.
  destruct (alloc_spec [] st Hwf) as (Hwf1 & Hext1 & Hl1 & _). cbn [alloc fst snd] in Hwf1, Hext1, Hl1.
  rewrite (load_Some _ _ _ Hr), rbind_Ok, Hc. cbn [negb alloc]. rewrite rbind_Ok.
  set (st1 := write resp _ _).
  assert (Hr1 : objs st1 !! resp = Some (dict_set (links_key self) (HRef (next st)) d)) by apply write_get_eq.
  assert (Hwf2 : store_wf st1) by (apply write_wf; [done|eexists; apply Hext1, Hr]).
  rewrite (load_Some _ _ _ Hr1), rbind_Ok, dict_get_set_eq, Hlinks, rbind_Ok.
  destruct (alloc_py_dict links st1 Hwf2) as (L & dL & HL1 & HL2 & _ & Hkeys).
  pose proof (alloc_py_frame (PDict links) st1 Hwf2) as [_ Hext].
  assert (Hl2 : objs st1 !! next st = Some []).
  { unfold st1. rewrite write_get. case_decide as Heq; [|done]. rewrite Heq in Hr. by rewrite alloc_fresh in Hr. }
  destruct (alloc_py (PDict links) st1) as [hl stl]. simpl in *. subst hl.
  exists L, dL, stl. split_and!; try done. by rewrite (h_update_ref _ _ _ _ _ (Hext _ _ Hl2) HL2).
Qed.

(** [_add_links] on an output without the links key when the links
    cannot be computed: the error of [_serialize_links] propagates. *)
Lemma _add_links_h_fresh_raise (self : response) resp d representation ex st :
  objs st !! resp = Some d -> dict_contains (links_key self) d = false ->
  _serialize_links self PNone representation = Raise ex ->
  _add_links_h self resp representation st = Raise ex.
Proof.
  intros Hr Hc Hlinks. unfold _add_links_h.
  rewrite (load_Some _ _ _ Hr), rbind_Ok, Hc. cbn [negb alloc]. rewrite rbind_Ok.
  rewrite (load_Some _ _ _ (write_get_eq _ _ _)), rbind_Ok, dict_get_set_eq.
  by rewrite Hlinks.
Qed.

(** The converter, at every call of a loop: it returns and only adds
    objects. *)
Definition converter_allocates (self : response) (representation : string) : Prop :=
  forall x st1, store_wf st1 -> exists v st2,
    hconvert (Context.resource (context self)) (context self) x representation st1 = Ok (v, st2) /\
    store_wf st2 /\ store_ext st1 st2.

Lemma hmapM_frame (f : hval -> store -> result (hval * store)) xs st :
  (forall x st1, store_wf st1 -> exists v st2, f x st1 = Ok (v, st2) /\ store_wf st2 /\ store_ext st1 st2) ->
  store_wf st -> exists ys st', hmapM f xs st = Ok (ys, st') /\ length ys = length xs /\
    store_wf st' /\ store_ext st st'.
Proof.
  intros Hf. revert st. induction xs as [|x xs IH]; intros st Hwf; simpl.
  - exists [], st. split_and!; [done|done|done|apply store_ext_refl].
  - destruct (Hf x st Hwf) as (v & st1 & -> & Hwf1 & Hext1). rewrite rbind_Ok.
    destruct (IH st1 Hwf1) as (ys & st2 & -> & Hlen & Hwf2 & Hext2). rewrite rbind_Ok.
    exists (v :: ys), st2. split_and!; [done|simpl; lia|done|by apply (store_ext_trans _ st1)].
Qed.

(** The 2xx path of [Response.serialize] with a non-empty [extra] dict
    [E]: a new output object, updated from [E], then from the converted
    data, then by [_add_links]. *)
Lemma Response_serialize_h_2xx (self : response) E dE data representation st :
  store_wf st -> (200 <= status self < 300)%Z -> objs st !! E = Some dE -> dE <> [] ->
  Response_serialize_h self (HRef E) data representation st =
    (r <- hconvert (Context.resource (context self)) (context self) data representation
            (write (next st) (dict_merge [] dE) (alloc [] st).2) ;;
     let '(converted, st3) := r in
     st4 <- h_update (next st) converted st3 ;;
     st5 <- _add_links_h self (next st) representation st4 ;;
     Ok (HRef (next st), st5)).
Proof.
  intros Hwf Hst HE HdE. unfold Response_serialize_h.
  assert (Hs : ((200 <=? status self)%Z && (status self <? 300)%Z) = true) by (apply andb_true_intro; split; lia).
  rewrite Hs. destruct (alloc_spec [] st Hwf) as (_ & Hext1 & Ho1 & _).
  pose proof (Hext1 _ _ HE) as HE1. unfold alloc in *. cbn [fst snd] in *.
  cbn [h_is_none h_truthy andb]. rewrite HE, HE1. destruct dE as [|kv dE0]; [done|]. rewrite andb_false_r.
  cbv iota. by rewrite (h_update_ref _ _ _ _ _ Ho1 HE1), rbind_Ok.
Qed.

(** The whole 2xx run with a non-empty [extra] dict [E] whose links
    entry refers to [X], when the converter returns a dict object without
    the links key: the output is a new object [next st] holding [extra]
    merged with the converted dict, and [X] is updated in place with a
    fresh dict of the links. *)
Lemma Response_serialize_h_run (self : response) E X dE dX data representation links st cl dc st3 :
  store_wf st -> (200 <= status self < 300)%Z -> objs st !! E = Some dE -> dE <> [] -> dict_wf dE ->
  dict_get (links_key self) dE = Some (HRef X) -> objs st !! X = Some dX ->
  _serialize_links self PNone representation = Ok links ->
  hconvert (Context.resource (context self)) (context self) data representation
    (write (next st) (dict_merge [] dE) (alloc [] st).2) = Ok (HRef cl, st3) ->
  store_wf st3 -> store_ext (write (next st) (dict_merge [] dE) (alloc [] st).2) st3 ->
  objs st3 !! cl = Some dc -> dict_contains (links_key self) dc = false ->
  exists L dL stl,
    alloc_py (PDict links) (write (next st) (dict_merge (dict_merge [] dE) dc) st3) = (HRef L, stl) /\
    objs stl !! L = Some dL /\ dict_keys dL = dict_keys links /\
    Response_serialize_h self (HRef E) data representation st =
      Ok (HRef (next st), write X (dict_merge dX dL) stl).
Proof.
  intros Hwf Hst HE HdE HwfE HlkE HX Hlinks Hc Hwf3 Hext3 Hcl Hlkc.
  rewrite (Response_serialize_h_2xx self E dE) by done. rewrite Hc, rbind_Ok. cbv iota.
  destruct (alloc_spec [] st Hwf) as (Hwf1 & Hext1 & Ho1 & Ho). cbn [alloc fst snd] in Ho1, Ho, Hext1, Hwf1.
  set (st2 := write (next st) (dict_merge [] dE) _) in *.
  assert (Ho2 : objs st2 !! next st = Some (dict_merge [] dE)) by (unfold st2; rewrite write_get; by case_decide).
  rewrite (h_update_ref _ _ _ _ _ (Hext3 _ _ Ho2) Hcl), rbind_Ok.
  set (merged := dict_merge (dict_merge [] dE) dc).
  assert (Hwf4 : store_wf (write (next st) merged st3)) by (apply write_wf; [done|by rewrite (Hext3 _ _ Ho2)]).
  assert (Hlk : dict_get (links_key self) merged = Some (HRef X)).
  { unfold merged. rewrite dict_get_merge_notin, dict_merge_nil by done. done. }
  assert (HX4 : objs (write (next st) merged st3) !! X = Some dX).
  { rewrite write_get. case_decide as Heq; [rewrite <- Heq in HX; congruence|].
    apply Hext3. unfold st2. rewrite write_get. case_decide; [congruence|]. by apply Hext1. }
  destruct (_add_links_h_run self (next st) merged X dX representation links _ Hwf4) as (L & dL & stl & ? & ? & ? & Hrun);
    [rewrite write_get; by case_decide|done|done|done|].
  exists L, dL, stl. split_and!; try done. by rewrite Hrun, rbind_Ok.
Qed.

(** The tail of the 2xx run on an output object [o] without the links
    key: the converter's call, the update of [o] with the converted dict
    and [_add_links], which stores under the key a new dict [next st3]
    updated with the fresh links dict. *)
Lemma serialize_h_tail_fresh (self : response) o d0 data representation links st2 cl dc st3 :
  store_wf st2 -> objs st2 !! o = Some d0 -> dict_contains (links_key self) d0 = false ->
  _serialize_links self PNone representation = Ok links ->
  hconvert (Context.resource (context self)) (context self) data representation st2 = Ok (HRef cl, st3) ->
  store_ext st2 st3 -> store_wf st3 ->
  objs st3 !! cl = Some dc -> dict_contains (links_key self) dc = false ->
  let merged := dict_merge d0 dc in
  exists L dL stl,
    alloc_py (PDict links) (write o (dict_set (links_key self) (HRef (next st3)) merged)
                             (alloc [] (write o merged st3)).2) = (HRef L, stl) /\
    objs stl !! L = Some dL /\ dict_keys dL = dict_keys links /\
    (r <- hconvert (Context.resource (context self)) (context self) data representation st2 ;;
     let '(converted, st3) := r in
     st4 <- h_update o converted st3 ;;
     st5 <- _add_links_h self o representation st4 ;;
     Ok (HRef o, st5)) = Ok (HRef o, write (next st3) (dict_merge [] dL) stl).
Proof.
  intros Hwf2 Ho Hlk0 Hlinks Hc Hext3 Hwf3 Hcl Hlkc merged.
  rewrite Hc, rbind_Ok. cbv iota.
  rewrite (h_update_ref _ _ _ _ _ (Hext3 _ _ Ho) Hcl), rbind_Ok. fold merged.
  assert (Hwf4 : store_wf (write o merged st3)) by (apply write_wf; [done|by rewrite (Hext3 _ _ Ho)]).
  assert (Hlk : dict_contains (links_key self) merged = false) by (unfold merged; by rewrite dict_contains_merge_notin).
  destruct (_add_links_h_fresh self o merged representation links _ Hwf4 (write_get_eq _ _ _) Hlk Hlinks)
    as (L & dL & stl & ? & ? & ? & Hrun).
  exists L, dL, stl. split_and!; try done. by rewrite Hrun, rbind_Ok.
Qed.

(** The same tail when the links cannot be computed: the error of
    [_serialize_links] propagates. *)
Lemma serialize_h_tail_raise (self : response) o d0 data representation ex st2 cl dc st3 :
  objs st2 !! o = Some d0 -> dict_contains (links_key self) d0 = false ->
  _serialize_links self PNone representation = Raise ex ->
  hconvert (Context.resource (context self)) (context self) data representation st2 = Ok (HRef cl, st3) ->
  store_ext st2 st3 -> objs st3 !! cl = Some dc -> dict_contains (links_key self) dc = false ->
  (r <- hconvert (Context.resource (context self)) (context self) data representation st2 ;;
   let '(converted, st3) := r in
   st4 <- h_update o converted st3 ;;
   st5 <- _add_links_h self o representation st4 ;;
   Ok (HRef o, st5)) = Raise ex.
Proof.
  intros Ho Hlk0 Hlinks Hc Hext3 Hcl Hlkc.
  rewrite Hc, rbind_Ok. cbv iota.
  rewrite (h_update_ref _ _ _ _ _ (Hext3 _ _ Ho) Hcl), rbind_Ok.
  rewrite (_add_links_h_fresh_raise self o (dict_merge d0 dc) representation ex); [done|apply write_get_eq| |done].
  by rewrite dict_contains_merge_notin.
Qed.

(** The whole 2xx run with a non-empty [extra] dict [E] without the
    links key, when the converter returns a dict object without it: the
    output is a new object [next st] holding [extra] merged with the
    converted dict and, under the links key, a new dict of the links. *)
Lemma Response_serialize_h_run_fresh (self : response) E dE data representation links st cl dc st3 :
  store_wf st -> (200 <= status self < 300)%Z -> objs st !! E = Some dE -> dE <> [] ->
  dict_contains (links_key self) dE = false ->
  _serialize_links self PNone representation = Ok links ->
  hconvert (Context.resource (context self)) (context self) data representation
    (write (next st) (dict_merge [] dE) (alloc [] st).2) = Ok (HRef cl, st3) ->
  store_ext (write (next st) (dict_merge [] dE) (alloc [] st).2) st3 -> store_wf st3 ->
  objs st3 !! cl = Some dc -> dict_contains (links_key self) dc = false ->
  let merged := dict_merge (dict_merge [] dE) dc in
  exists L dL stl,
    alloc_py (PDict links) (write (next st) (dict_set (links_key self) (HRef (next st3)) merged)
                             (alloc [] (write (next st) merged st3)).2) = (HRef L, stl) /\
    objs stl !! L = Some dL /\ dict_keys dL = dict_keys links /\
    Response_serialize_h self (HRef E) data representation st =
      Ok (HRef (next st), write (next st3) (dict_merge [] dL) stl).
Proof.
  intros Hwf Hst HE HdE HlkE Hlinks Hc Hext3 Hwf3 Hcl Hlkc merged.
  rewrite (Response_serialize_h_2xx self E dE) by done.
  destruct (alloc_write st (dict_merge [] dE) Hwf) as (Hwf2 & _ & Ho2 & _).
  apply (serialize_h_tail_fresh self (next st) (dict_merge [] dE) data representation links _ cl dc st3); try done.
  by rewrite dict_contains_merge_notin.
Qed.

(** The 2xx branch of [Response.serialize] with a false [extra] ([None]
    or an empty dict) and data other than [None]: the output [next st]
    is updated from a new empty dict [next st1], then converted. *)
Lemma Response_serialize_h_2xx_noextra (self : response) ex data representation st :
  store_wf st -> (200 <= status self < 300)%Z -> h_is_none data = false -> h_truthy st ex = false ->
  Response_serialize_h self ex data representation st =
    (r <- hconvert (Context.resource (context self)) (context self) data representation
            (write (next st) [] (alloc [] (alloc [] st).2).2) ;;
     let '(converted, st3) := r in
     st4 <- h_update (next st) converted st3 ;;
     st5 <- _add_links_h self (next st) representation st4 ;;
     Ok (HRef (next st), st5)).
Proof.
  intros Hwf Hst Hd Hex. unfold Response_serialize_h.
  assert (Hs : ((200 <=? status self)%Z && (status self <? 300)%Z) = true) by (apply andb_true_intro; split; lia).
  rewrite Hd, Hs. cbn [andb]. destruct (alloc_spec [] st Hwf) as (Hwf1 & Hext1 & Ho1 & _).
  destruct (alloc_spec [] (alloc [] st).2 Hwf1) as (_ & Hext2 & Ho2 & _).
  pose proof (h_truthy_false_ext _ _ _ Hext1 Hex) as Hex1.
  unfold alloc in *. cbn [fst snd] in *. rewrite Hex1. cbv iota.
  rewrite (h_update_ref _ _ _ _ _ (Hext2 _ _ Ho1) Ho2), rbind_Ok. done.
Qed.



(** The run of [CollectionResponse.serialize] on an iterable whose items
    the converter maps to [hs], with a non-empty [extra] dict [E] without
    the links key, when neither the collection key nor ["totalCount"] is
    the links key: the envelope is a new object [next st3] allocated after
    the conversions, updated from [E], then given a new links dict. *)
Lemma CollectionResponse_serialize_h_run_fresh (self : response) key thc E dE hit xs hs th representation
    links st st3 :
  store_wf st -> h_iter st hit = Ok xs ->
  hmapM (fun x st => hconvert (Context.resource (context self)) (context self) x representation st) xs st =
    Ok (hs, st3) -> store_wf st3 -> store_ext st st3 ->
  (if h_is_none thc then n <- h_len st3 hit ;; Ok (HInt n) else Ok thc) = Ok th ->
  objs st !! E = Some dE -> dE <> [] -> dict_contains (links_key self) dE = false ->
  links_key self <> key -> links_key self <> "totalCount" ->
  _serialize_links self PNone representation = Ok links ->
  let env := dict_set "totalCount" th (dict_set key (HList hs) []) in
  let st4 := (alloc env st3).2 in
  exists L dL stl,
    alloc_py (PDict links) (write (next st3) (dict_set (links_key self) (HRef (next st4)) (dict_merge env dE))
                             (alloc [] (write (next st3) (dict_merge env dE) st4)).2) = (HRef L, stl) /\
    objs stl !! L = Some dL /\
    CollectionResponse_serialize_h self key thc (HRef E) hit representation st =
      Ok (HRef (next st3), write (next st4) (dict_merge [] dL) stl).
Proof.
  intros Hwf Hit Hmap Hwf3 Hext3 Htot HE HdE HlkE Hkey Htc Hlinks env st4.
  unfold CollectionResponse_serialize_h. rewrite Hit, rbind_Ok, Hmap, rbind_Ok. cbv iota.
  rewrite Htot, rbind_Ok. fold env.
  destruct (alloc_spec env st3 Hwf3) as (Hwf4 & Hext4 & Ho4 & _). cbn [alloc fst snd] in *. fold st4 in Hwf4, Hext4, Ho4 |- *.
  assert (HE4 : objs st4 !! E = Some dE) by auto.
  cbn [h_truthy]. rewrite HE4. destruct dE as [|kv dE0] eqn:HdE'; [done|]. rewrite <- HdE' in *. cbv iota.
  rewrite (h_update_ref _ _ _ _ _ Ho4 HE4), rbind_Ok.
  assert (Hwf5 : store_wf (write (next st3) (dict_merge env dE) st4)) by (apply write_wf; [done|by rewrite Ho4]).
  assert (Hlk : dict_contains (links_key self) (dict_merge env dE) = false).
  { rewrite dict_contains_merge_notin by done. unfold env. rewrite !dict_contains_set. by rewrite !bool_decide_false. }
  destruct (_add_links_h_fresh self (next st3) (dict_merge env dE) representation links _ Hwf5
              (write_get_eq _ _ _) Hlk Hlinks) as (L & dL & stl & ? & ? & _ & Hrun).
  exists L, dL, stl. split_and!; try done. by rewrite Hrun, rbind_Ok.
Qed.

(** The same run with a false [extra]: the envelope is updated from a
    new empty dict [next st4], then given a new links dict. *)
Lemma CollectionResponse_serialize_h_run_noextra (self : response) key thc hex hit xs hs th representation
    links st st3 :
  store_wf st -> h_iter st hit = Ok xs ->
  hmapM (fun x st => hconvert (Context.resource (context self)) (context self) x representation st) xs st =
    Ok (hs, st3) -> store_wf st3 -> store_ext st st3 ->
  (if h_is_none thc then n <- h_len st3 hit ;; Ok (HInt n) else Ok thc) = Ok th ->
  h_truthy st hex = false -> links_key self <> key -> links_key self <> "totalCount" ->
  _serialize_links self PNone representation = Ok links ->
  let env := dict_set "totalCount" th (dict_set key (HList hs) []) in
  let st4 := (alloc [] (alloc env st3).2).2 in
  exists L dL stl,
    alloc_py (PDict links) (write (next st3) (dict_set (links_key self) (HRef (next st4)) (dict_merge env []))
                             (alloc [] (write (next st3) (dict_merge env []) st4)).2) = (HRef L, stl) /\
    objs stl !! L = Some dL /\
    CollectionResponse_serialize_h self key thc hex hit representation st =
      Ok (HRef (next st3), write (next st4) (dict_merge [] dL) stl).
Proof.
  intros Hwf Hit Hmap Hwf3 Hext3 Htot Hex Hkey Htc Hlinks env st4.
  unfold CollectionResponse_serialize_h. rewrite Hit, rbind_Ok, Hmap, rbind_Ok. cbv iota.
  rewrite Htot, rbind_Ok. fold env.
  destruct (alloc_spec env st3 Hwf3) as (Hwf4 & Hext4 & Ho4 & _).
  destruct (alloc_spec [] _ Hwf4) as (Hwf5 & Hext5 & Hl5 & _). cbn [alloc fst snd next objs] in *.
  rewrite (h_truthy_false_ext st _ hex (store_ext_trans _ _ _ Hext3 Hext4) Hex). cbv iota. cbn [next objs].
  erewrite h_update_ref; [|apply Hext5, Ho4|exact Hl5]. rewrite rbind_Ok. fold st4.
  assert (Hwf6 : store_wf (write (next st3) (dict_merge env []) st4)) by (apply write_wf; [done|eexists; apply Hext5, Ho4]).
  assert (Hlk : dict_contains (links_key self) (dict_merge env []) = false).
  { unfold env. cbn [dict_merge foldl]. rewrite !dict_contains_set. by rewrite !bool_decide_false. }
  destruct (_add_links_h_fresh self (next st3) (dict_merge env []) representation links _ Hwf6
              (write_get_eq _ _ _) Hlk Hlinks) as (L & dL & stl & ? & ? & _ & Hrun).
  exists L, dL, stl. split_and!; try done. by rewrite Hrun, rbind_Ok.
Qed.

(** The run of [CollectionResponse.serialize] when [extra] is a
    non-empty dict [E] whose links entry refers to a dict [X]: the
    envelope [next st3] is updated from [E], so it takes that reference,
    and [X] is updated in place with a new links dict. *)
Lemma CollectionResponse_serialize_h_run (self : response) key thc E X dE dX hit xs hs th representation
    links st st3 :
  store_wf st -> h_iter st hit = Ok xs ->
  hmapM (fun x st => hconvert (Context.resource (context self)) (context self) x representation st) xs st =
    Ok (hs, st3) -> store_wf st3 -> store_ext st st3 ->
  (if h_is_none thc then n <- h_len st3 hit ;; Ok (HInt n) else Ok thc) = Ok th ->
  objs st !! E = Some dE -> dE <> [] -> dict_wf dE ->
  dict_get (links_key self) dE = Some (HRef X) -> objs st !! X = Some dX ->
  _serialize_links self PNone representation = Ok links ->
  let env := dict_set "totalCount" th (dict_set key (HList hs) []) in
  let st4 := (alloc env st3).2 in
  exists L dL stl,
    alloc_py (PDict links) (write (next st3) (dict_merge env dE) st4) = (HRef L, stl) /\
    objs stl !! L = Some dL /\ dict_keys dL = dict_keys links /\
    CollectionResponse_serialize_h self key thc (HRef E) hit representation st =
      Ok (HRef (next st3), write X (dict_merge dX dL) stl).
Proof.
  intros Hwf Hit Hmap Hwf3 Hext3 Htot HE HdE HwfE HlkE HX Hlinks env st4.
  unfold CollectionResponse_serialize_h. rewrite Hit, rbind_Ok, Hmap, rbind_Ok. cbv iota.
  rewrite Htot, rbind_Ok. fold env.
  destruct (alloc_spec env st3 Hwf3) as (Hwf4 & Hext4 & Ho4 & Ho3). cbn [alloc fst snd] in *. fold st4 in Hwf4, Hext4, Ho4 |- *.
  assert (HE4 : objs st4 !! E = Some dE) by auto.
  cbn [h_truthy]. rewrite HE4. destruct dE as [|kv dE0] eqn:HdE'; [done|]. rewrite <- HdE' in *. cbv iota.
  rewrite (h_update_ref _ _ _ _ _ Ho4 HE4), rbind_Ok.
  assert (Hwf5 : store_wf (write (next st3) (dict_merge env dE) st4)) by (apply write_wf; [done|by rewrite Ho4]).
  assert (Hlk : dict_get (links_key self) (dict_merge env dE) = Some (HRef X)) by (rewrite dict_get_merge by done; by rewrite HlkE).
  assert (HX5 : objs (write (next st3) (dict_merge env dE) st4) !! X = Some dX).
  { rewrite write_get. case_decide as Heq; [rewrite Heq, (Hext3 _ _ HX) in Ho3; congruence|auto]. }
  destruct (_add_links_h_run self (next st3) (dict_merge env dE) X dX representation links _ Hwf5
              (write_get_eq _ _ _) Hlk HX5 Hlinks) as (L & dL & stl & ? & ? & ? & Hrun).
  exists L, dL, stl. split_and!; try done. by rewrite Hrun, rbind_Ok.
Qed.

(** One 2xx [serialize] with [extra[links_key]] the dict [X]: a new
    output object whose links entry is [X] itself, [X] merged with the
    links, and every other object kept. *)
Lemma serialize_shared_step (self : response) (E X : positive) (dE dX : list (string * hval))
    (data : hval) (representation : string) links st :
  store_wf st -> (200 <= status self < 300)%Z ->
  objs st !! E = Some dE -> dE <> [] -> dict_wf dE ->
  dict_get (links_key self) dE = Some (HRef X) -> objs st !! X = Some dX ->
  _serialize_links self PNone representation = Ok links ->
  converter_fresh self data representation ->
  exists o d dL st', Response_serialize_h self (HRef E) data representation st = Ok (HRef o, st') /\
    store_wf st' /\ objs st !! o = None /\ objs st' !! o = Some d /\ dict_get (links_key self) d = Some (HRef X) /\
    objs st' !! X = Some (dict_merge dX dL) /\ dict_keys dL = dict_keys links /\
    (forall l d', l <> X -> objs st !! l = Some d' -> objs st' !! l = Some d').
Proof.
  intros Hwf Hst HE HdE HwfE HlkE HX Hlinks Hconv.
  destruct (alloc_spec [] st Hwf) as (Hwf1 & Hext1 & Ho1 & Ho). cbn [alloc fst snd] in Ho1, Ho, Hext1, Hwf1.
  set (st2 := write (next st) (dict_merge [] dE) (alloc [] st).2).
  assert (Hwf2 : store_wf st2) by (apply write_wf; [exact Hwf1|exists []; exact Ho1]).
  destruct (Hconv st2 Hwf2) as (c & dc & st3 & Hc & Hwf3 & Hext3 & _ & Hc3 & _ & Hlkc).
  destruct (Response_serialize_h_run self E X dE dX data representation links st c dc st3)
    as (L & dL & stl & Halloc & _ & Hkeys & Hrun); try done.
  set (merged := dict_merge (dict_merge [] dE) dc) in *.
  assert (Ho2 : objs st2 !! next st = Some (dict_merge [] dE)) by (unfold st2; rewrite write_get; by case_decide).
  assert (Hwf4 : store_wf (write (next st) merged st3)) by (apply write_wf; [done|by rewrite (Hext3 _ _ Ho2)]).
  pose proof (alloc_py_frame (PDict links) (write (next st) merged st3) Hwf4) as Hfr.
  rewrite Halloc in Hfr. destruct Hfr as [Hwfl Hext4].
  assert (HoX : next st <> X) by (intros Heq; rewrite Heq in Ho; congruence).
  assert (Hframe : forall l d', objs st !! l = Some d' -> objs (write (next st) merged st3) !! l = Some d').
  { intros l d' Hl. rewrite write_get. case_decide as Heq; [rewrite <- Heq in Hl; congruence|].
    apply Hext3. unfold st2. rewrite write_get. case_decide; [congruence|]. by apply Hext1. }
  exists (next st), merged, dL, (write X (dict_merge dX dL) stl). split_and!; try done.
  - apply write_wf; [done|]. eexists. by apply Hext4, Hframe.
  - rewrite write_get. case_decide; [congruence|]. apply Hext4, write_get_eq.
  - unfold merged. by rewrite dict_get_merge_notin, dict_merge_nil.
  - rewrite write_get. by case_decide.
  - intros l d' HlX Hl. rewrite write_get. case_decide; [congruence|]. by apply Hext4, Hframe.
Qed.

(** C21: on the 2xx path, when the caller's [extra] dict [E] holds at
    [links_key] a reference to a dict [X] and the converter returns a fresh
    dict without that key, [Response.serialize] returns a new output object,
    leaves [E] as it was, and updates the caller's dict [X] in place with
    the serialized links: [X] afterwards is [X] merged with a dict whose keys
    are exactly the link names. *)
Theorem serialize_updates_caller_links (self : response) (E X : positive) (dE dX : list (string * hval))
    (data : hval) (representation : string) links st :
  store_wf st -> (200 <= status self < 300)%Z ->
  objs st !! E = Some dE -> dE <> [] -> dict_wf dE ->
  dict_get (links_key self) dE = Some (HRef X) -> E <> X -> objs st !! X = Some dX ->
  _serialize_links self PNone representation = Ok links ->
  converter_fresh self data representation ->
  exists o dL st', Response_serialize_h self (HRef E) data representation st = Ok (HRef o, st') /\
    objs st' !! E = Some dE /\ objs st' !! X = Some (dict_merge dX dL) /\ dict_keys dL = dict_keys links.
Proof.
  intros Hwf Hst HE HdE HwfE HlkE HEX HX Hlinks Hconv.
  destruct (serialize_shared_step self E X dE dX data representation links st Hwf Hst HE HdE HwfE HlkE HX Hlinks Hconv)
    as (o & d & dL & st' & Hrun & _ & _ & _ & _ & HX' & Hkeys & Hfr).
  exists o, dL, st'. split_and!; [done|by apply Hfr|done|done].
Qed.

(** C25: [CollectionResponse.serialize] over a list, with a converter
    that only allocates, updates the caller's [extra[links_key]] dict in
    place with the serialized links whatever the converter returns: the
    envelope takes the reference from [extra] after the items. *)
Theorem collection_serialize_updates_caller_links (self : response) (key : string) (totalCount : hval)
    (E X : positive) (dE dX : list (string * hval)) (xs : list hval) (representation : string) links st :
  store_wf st ->
  objs st !! E = Some dE -> dE <> [] -> dict_wf dE ->
  dict_get (links_key self) dE = Some (HRef X) -> E <> X -> objs st !! X = Some dX ->
  _serialize_links self PNone representation = Ok links ->
  converter_allocates self representation ->
  exists o dL st', CollectionResponse_serialize_h self key totalCount (HRef E) (HList xs) representation st =
      Ok (HRef o, st') /\
    objs st' !! E = Some dE /\ objs st' !! X = Some (dict_merge dX dL) /\ dict_keys dL = dict_keys links.
Proof.
  intros Hwf HE HdE HwfE HlkE HEX HX Hlinks Hconv.
  destruct (hmapM_frame _ xs st Hconv Hwf) as (items & st3 & Hmap & _ & Hwf3 & Hext3).
  set (total := if h_is_none totalCount then HInt (Z.of_nat (length xs)) else totalCount).
  assert (Htot : (if h_is_none totalCount then n <- h_len st3 (HList xs) ;; Ok (HInt n) else Ok totalCount)
                 = Ok total) by (unfold total; by destruct (h_is_none totalCount)).
  destruct (CollectionResponse_serialize_h_run self key totalCount E X dE dX (HList xs) xs items total
              representation links st st3 Hwf eq_refl Hmap Hwf3 Hext3 Htot HE HdE HwfE HlkE HX Hlinks)
    as (L & dL & stl & Halloc & _ & Hkeys & Hrun).
  set (env := dict_set "totalCount" total (dict_set key (HList items) [])) in *.
  destruct (alloc_spec env st3 Hwf3) as (Hwf4 & Hext4 & Ho4 & Ho3).
  change (alloc env st3).1 with (next st3) in Ho4, Ho3.
  pose proof (alloc_py_frame (PDict links) (write (next st3) (dict_merge env dE) (alloc env st3).2)) as Hfr.
  rewrite Halloc in Hfr. destruct Hfr as [_ Hext5]; [apply write_wf; [done|by rewrite Ho4]|].
  exists (next st3), dL, (write X (dict_merge dX dL) stl). split_and!; [done| |by rewrite write_get; case_decide|done].
  rewrite write_get. case_decide; [congruence|]. apply Hext5. rewrite write_get.
  case_decide as Heq; [rewrite Heq, (Hext3 _ _ HE) in Ho3; congruence|]. auto.
Qed.

(** C22 (invariant): responses serialized in turn with one [extra]
    dict [E] whose links entry is a dict [X] all share [X]: after the
    sequence, every payload's links entry is [X] itself, [X] holds its
    former keys and the link names of every response of the sequence, and
    every object other than [X] (the caller's [extra] among them) is kept.
    The links of one response leak into all the others. *)
Theorem serialize_each_shares_links (rs : list response) (lk : string) (linksf : response -> dict)
    (E X : positive) (dE dX : list (string * hval)) (data : hval) (representation : string) st :
  store_wf st -> objs st !! E = Some dE -> dE <> [] -> dict_wf dE ->
  dict_get lk dE = Some (HRef X) -> E <> X -> objs st !! X = Some dX ->
  (forall r, r ∈ rs -> links_key r = lk /\ (200 <= status r < 300)%Z /\
     _serialize_links r PNone representation = Ok (linksf r) /\ converter_fresh r data representation) ->
  exists outs st' dX', serialize_each rs (HRef E) data representation st = Ok (outs, st') /\
    store_wf st' /\ objs st' !! X = Some dX' /\
    (forall k, k ∈ dict_keys dX -> k ∈ dict_keys dX') /\
    (forall r k, r ∈ rs -> k ∈ dict_keys (linksf r) -> k ∈ dict_keys dX') /\
    Forall (fun o => exists l d, o = HRef l /\ objs st' !! l = Some d /\ dict_get lk d = Some (HRef X)) outs /\
    (forall l d, l <> X -> objs st !! l = Some d -> objs st' !! l = Some d).
Proof.
  intros Hwf HE HdE HwfE HlkE HEX HX Hrs. revert st dX Hwf HE HX.
  induction rs as [|r rs IH]; intros st dX Hwf HE HX.
  { exists [], st, dX. split_and!; try done. intros ? ? Hr. by apply elem_of_nil in Hr. }
  destruct (Hrs r (list_elem_of_here _ _)) as (<- & Hst & Hlinks & Hconv).
  destruct (serialize_shared_step r E X dE dX data representation (linksf r) st Hwf Hst HE HdE HwfE HlkE HX Hlinks Hconv)
    as (o & d & dL & st1 & Hrun & Hwf1 & Ho & Ho1 & Hlk1 & HX1 & Hkeys & Hfr1).
  destruct (IH ltac:(intros r' Hr'; apply Hrs; by apply list_elem_of_further) st1 (dict_merge dX dL) Hwf1
              ltac:(by apply Hfr1) HX1) as (outs & st' & dX' & Hrun' & Hwf' & HX' & Hk' & Hl' & Hos & Hfr').
  exists (HRef o :: outs), st', dX'. cbn [serialize_each]. rewrite Hrun, rbind_Ok, Hrun', rbind_Ok.
  assert (HoX : o <> X) by (intros ->; congruence).
  split_and!; try done.
  - intros k Hk. apply Hk', dict_keys_merge_elem. by left.
  - intros r' k [->|Hr']%elem_of_cons Hk; [|by apply (Hl' r')].
    apply Hk', dict_keys_merge_elem. right. by rewrite Hkeys.
  - constructor; [|done]. exists o, d. split_and!; [done|by apply Hfr'|done].
  - intros l d' HlX Hl. by apply Hfr', Hfr1.
Qed.

End SerializeLemmas.

(** ** A concrete run: one [extra] dict passed to two responses *)

#[local] Existing Instance demo_registry.
#[local] Existing Instance demo_http_date.

(** A converter that wraps the data in a fresh dict [{"value": data}]. *)
#[local] Instance demo_hconvert : HeapConverter := {|
  hconvert := fun _ _ v _ st => let '(l, st) := alloc [("value", v)] st in Ok (HRef l, st)
|}.

(** Object 1 is the data, object 3 the caller's [extra] and object 2 its
    [extra["_links"]]. *)
Definition demo_store : store :=
  {| objs := <[3%positive := [("_links", HRef 2)]]> (<[2%positive := []]>
               (<[1%positive := [("name", HStr "ann")]]> ∅));
     next := 4 |}.

Definition demo_context_plain : Context.context :=
  Context.set_parameters (Context.__init__ demo_request "plain" PNone) (PDict []).

Definition demo_r1 : response :=
  Response_new demo_context_params PNone 200 None None PNone (PBool true) "_links".
Definition demo_r2 : response :=
  Response_new demo_context_plain PNone 200 None None PNone (PBool true) "_links".

Lemma demo_store_wf : store_wf demo_store.
Proof.
  intros l [d Hd]. simpl in Hd. rewrite !lookup_insert_Some, lookup_empty in Hd.
  repeat (destruct Hd as [[<- _]|[_ Hd]]; [simpl; lia|]). done.
Qed.

Lemma demo_converter_fresh self data representation :
  links_key self <> "value" -> converter_fresh self data representation.
Proof.
  intros Hlk.
  intros st1 Hwf1. destruct (alloc_spec [("value", data)] st1 Hwf1) as (Hwf2 & Hext & Hl & Hfresh).
  unfold alloc in *. simpl in *. eexists _, _, _. split_and!; [reflexivity|done..| |].
  - apply NoDup_singleton.
  - unfold dict_contains. simpl. by case_decide.
Qed.

Lemma demo_converter_allocates self representation : converter_allocates self representation.
Proof.
  intros x st1 Hwf1. destruct (alloc_spec [("value", x)] st1 Hwf1) as (Hwf2 & Hext & _).
  unfold alloc in *. simpl in *. eexists _, _. split_and!; [reflexivity|done..].
Qed.

Lemma serialize_updates_caller_links_witness :
  exists o dL st', Response_serialize_h demo_r1 (HRef 3) (HRef 1) "default" demo_store = Ok (HRef o, st') /\
    objs st' !! 3%positive = Some [("_links", HRef 2)] /\ objs st' !! 2%positive = Some (dict_merge [] dL) /\
    dict_keys dL = dict_keys [("other", PDict [("uri", PStr "http://testserver/items"); ("method", PStr "POST")])].
Proof.
  apply (serialize_updates_caller_links demo_r1 3 2 [("_links", HRef 2)] [] (HRef 1) "default"
           [("other", PDict [("uri", PStr "http://testserver/items"); ("method", PStr "POST")])] demo_store).
  - exact demo_store_wf.
  - simpl; lia.
  - reflexivity.
  - discriminate.
  - apply NoDup_singleton.
  - reflexivity.
  - lia.
  - reflexivity.
  - vm_compute. reflexivity.
  - apply demo_converter_fresh. discriminate.
Defined.

Lemma collection_serialize_updates_caller_links_witness :
  exists o dL st',
    CollectionResponse_serialize_h demo_r1 "items" HNone (HRef 3) (HList [HInt 1; HInt 2]) "default" demo_store =
      Ok (HRef o, st') /\
    objs st' !! 3%positive = Some [("_links", HRef 2)] /\ objs st' !! 2%positive = Some (dict_merge [] dL) /\
    dict_keys dL = dict_keys [("other", PDict [("uri", PStr "http://testserver/items"); ("method", PStr "POST")])].
Proof.
  apply (collection_serialize_updates_caller_links demo_r1 "items" HNone 3 2 [("_links", HRef 2)] []
           [HInt 1; HInt 2] "default"
           [("other", PDict [("uri", PStr "http://testserver/items"); ("method", PStr "POST")])] demo_store).
  - exact demo_store_wf.
  - reflexivity.
  - discriminate.
  - apply NoDup_singleton.
  - reflexivity.
  - lia.
  - reflexivity.
  - vm_compute. reflexivity.
  - apply demo_converter_allocates.
Defined.

Lemma serialize_each_shares_links_witness :
  exists outs st' dX', serialize_each [demo_r1; demo_r2] (HRef 3) (HRef 1) "default" demo_store = Ok (outs, st') /\
    objs st' !! 2%positive = Some dX' /\ "other" ∈ dict_keys dX' /\
    Forall (fun o => exists l d, o = HRef l /\ objs st' !! l = Some d /\ dict_get "_links" d = Some (HRef 2)) outs.
Proof.
  destruct (serialize_each_shares_links [demo_r1; demo_r2] "_links"
              (fun r => match _serialize_links r PNone "default" with Ok l => l | Raise _ => [] end)
              3 2 [("_links", HRef 2)] [] (HRef 1) "default" demo_store)
    as (outs & st' & dX' & Hrun & _ & HX & _ & Hl & Hos & _).
  - exact demo_store_wf.
  - reflexivity.
  - discriminate.
  - apply NoDup_singleton.
  - reflexivity.
  - discriminate.
  - reflexivity.
  - intros r Hr. apply elem_of_cons in Hr as [->|Hr]; [|apply elem_of_cons in Hr as [->|[]%elem_of_nil]];
      (split_and!; [reflexivity|simpl; lia|simpl; lia|vm_compute; reflexivity|by apply demo_converter_fresh]).
  - exists outs, st', dX'. split_and!; [done|done| |done].
    apply (Hl demo_r1); [apply list_elem_of_here|vm_compute; left].
Defined.

(** The links of one response leak into the next one through a
    shared [extra]: serializing [demo_r1] (resource "users", one link
    "other") and then [demo_r2] (resource "plain", no links) with the same
    [extra] object makes [demo_r2]'s output carry "other", while
    [demo_r2] alone on the initial store emits an empty links dict. *)
Example serialize_extra_links_leak :
  match Response_serialize_h demo_r2 (HRef 3) (HRef 1) "default" demo_store with
  | Ok (out, st) => deref 10 st out
  | Raise _ => None
  end = Some (PDict [("_links", PDict []); ("value", PDict [("name", PStr "ann")])]) /\
  match Response_serialize_h demo_r1 (HRef 3) (HRef 1) "default" demo_store with
  | Ok (_, st1) =>
      match Response_serialize_h demo_r2 (HRef 3) (HRef 1) "default" st1 with
      | Ok (out, st2) => deref 10 st2 out
      | Raise _ => None
      end
  | Raise _ => None
  end = Some (PDict [("_links", PDict [("other", PDict [("uri", PStr "http://testserver/items");
                                                         ("method", PStr "POST")])]);
                     ("value", PDict [("name", PStr "ann")])]).
Proof. split; vm_compute; reflexivity. Qed.

End Aliasing.
