(* ===== verification/Refinement.v ===== *)
(** * The store model refines the value model ([serialize])

    [Responses] computes the payload of [Response.serialize] and
    [CollectionResponse.serialize] on values; [Aliasing] runs the same
    methods on a store of dict objects.  This file relates the two:
    reading the output object back as a value ([deref]) gives the payload
    of the value model, as long as the dict [extra[links_key]], which
    [_add_links] mutates in place, is not shared with the other entries of
    [extra] or with the data; when [extra] has no links entry the links
    dict is new, and the run keeps every object of the caller.  The locations a
    read visits are [reach]; [agree_except] says a store keeps every object
    of an earlier one except a few; the converter of the store model is
    related to the one of the value model by [converter_coherent]. *)

From stdpp Require Import base list strings gmap.
From Stdlib Require Import ZArith.
From S2P Require Import Prelude PyValue HttpDate Context Resource Responses Aliasing.

Module Refinement.
Import Responses Aliasing.

(** The locations [deref fuel st v] reads. *)
Fixpoint reach (fuel : nat) (st : store) (v : hval) : list positive :=
  match fuel with
  | O => []
  | S fuel' =>
      match v with
      | HList xs | HIter xs => xs ≫= reach fuel' st
      | HRef l => l :: match objs st !! l with
                       | Some d => d ≫= (fun kv => reach fuel' st kv.2)
                       | None => []
                       end
      | _ => []
      end
  end.

(** The entries of a dict object read as values. *)
Definition deref_dict (fuel : nat) (st : store) (d : list (string * hval)) : option (list (string * pyval)) :=
  mapM (fun kv => (fun y => (kv.1, y)) <$> deref fuel st kv.2) d.

(** [st'] keeps every object of [st] but those at [L]. *)
Definition agree_except (L : list positive) (st st' : store) : Prop :=
  forall l d, l ∉ L -> objs st !! l = Some d -> objs st' !! l = Some d.

(** The allocation of one entry of a dict display. *)
Local Abbreviation entry_alloc :=
  (fun (kv : string * pyval) st => let '(y, st) := alloc_py kv.2 st in ((kv.1, y), st)).

(** The converter of the store model does what the converter of the
    value model does: on data that reads as [d], it returns an object that
    reads as the converted value, adding objects only, and what it returns
    visits only the data's objects and new ones. *)
Definition converter_coherent `{ResourceRegistry} `{HeapConverter} : Prop :=
  forall r ctx hd d representation st n c,
    store_wf st -> deref n st hd = Some d -> resource_convert r ctx d representation = Ok c ->
    exists hv st' m, hconvert r ctx hd representation st = Ok (hv, st') /\ store_wf st' /\
      store_ext st st' /\ deref m st' hv = Some c /\
      forall l, l ∈ reach m st' hv -> l ∈ reach n st hd \/ objs st !! l = None.

(** The converter raises the error of the value model's converter, on
    every object that reads as its argument. *)
Definition converter_errors_coherent `{ResourceRegistry} `{HeapConverter} : Prop :=
  forall r ctx hd d representation st n ex,
    store_wf st -> deref n st hd = Some d -> resource_convert r ctx d representation = Raise ex ->
    hconvert r ctx hd representation st = Raise ex.

(** [h] reads as [x] in [st], visiting only objects that [st0] does not
    have: a value built after [st0]. *)
Definition fresh_read (fuel : nat) (st0 st : store) (h : hval) (x : pyval) : Prop :=
  deref fuel st h = Some x /\ forall l, l ∈ reach fuel st h -> objs st0 !! l = None.

(** ** Reading values back *)

Lemma mapM_Some_Forall {A B} (f g : A -> option B) xs ys :
  Forall (fun x => forall y, f x = Some y -> g x = Some y) xs ->
  mapM f xs = Some ys -> mapM g xs = Some ys.
Proof.
  intros Hall. rewrite !mapM_Some. intros H2. induction H2 as [|x y xs ys Hxy H2 IH]; [constructor|].
  apply Forall_cons in Hall as [Hx Hall]. constructor; auto.
Qed.

Lemma deref_ref fuel st l d :
  objs st !! l = Some d -> deref (S fuel) st (HRef l) = PDict <$> deref_dict fuel st d.
Proof. intros Hl. simpl. by rewrite Hl. Qed.

(** A read that succeeds in [st] gives the same value in a store that
    keeps the objects it visits. *)
Lemma deref_frame L fuel st st' v x :
  agree_except L st st' -> (forall l, l ∈ reach fuel st v -> l ∉ L) ->
  deref fuel st v = Some x -> deref fuel st' v = Some x.
Proof.
  intros Hag. revert v x. induction fuel as [|fuel IH]; intros v x Hreach Hv; [done|].
  destruct v as [| | | |xs|xs|l]; simpl in *; try done.
  1-2: destruct (mapM (deref fuel st) xs) as [ys|] eqn:E; [|done]; simpl in Hv;
    rewrite (mapM_Some_Forall (deref fuel st) (deref fuel st') xs ys); [done| |done];
    apply Forall_forall; intros y Hy z Hz; apply IH; [|done];
    intros l Hl; apply Hreach, list_elem_of_bind; eauto.
  destruct (objs st !! l) as [d|] eqn:Hl; [|done].
    rewrite (Hag l d); [|apply Hreach, list_elem_of_here|done].
    destruct (mapM _ d) as [ys|] eqn:E; [|done]. simpl in Hv.
    rewrite (mapM_Some_Forall (fun kv => (fun y => (kv.1, y)) <$> deref fuel st kv.2)
               (fun kv => (fun y => (kv.1, y)) <$> deref fuel st' kv.2) d ys); [done| |done].
    apply Forall_forall. intros [k y] Hy z Hz. simpl in *.
    destruct (deref fuel st y) as [y'|] eqn:Ey; [|done]. simpl in Hz.
    rewrite (IH y y'); [done| |done].
    intros l' Hl'. apply Hreach, list_elem_of_further, list_elem_of_bind. exists (k, y). done.
Qed.

Lemma mapM_Some_elem {A B} (f : A -> option B) xs ys x :
  mapM f xs = Some ys -> x ∈ xs -> exists y, f x = Some y.
Proof.
  rewrite mapM_Some. intros H2 Hx. induction H2 as [|x' y xs ys Hxy H2 IH]; [by apply elem_of_nil in Hx|].
  apply elem_of_cons in Hx as [->|Hx]; eauto.
Qed.

(** More fuel reads the same value, visiting the same locations. *)
Lemma deref_mono fuel st v x :
  deref fuel st v = Some x ->
  forall fuel', fuel <= fuel' -> deref fuel' st v = Some x /\ reach fuel' st v = reach fuel st v.
Proof.
  revert v x. induction fuel as [|fuel IH]; intros v x Hv fuel' Hle; [done|].
  destruct fuel' as [|fuel']; [lia|]. assert (Hle' : fuel <= fuel') by lia.
  destruct v as [| | | |xs|xs|l]; simpl in *; try done.
  1-2: destruct (mapM (deref fuel st) xs) as [ys|] eqn:E; [|done]; simpl in Hv;
    rewrite (mapM_Some_Forall (deref fuel st) (deref fuel' st) xs ys); [split; [done|]| |done];
    [apply Forall_bind_ext, Forall_forall; intros y Hy;
     destruct (mapM_Some_elem _ _ _ _ E Hy) as [z Hz]; by apply (IH y z)
    |apply Forall_forall; intros y Hy z Hz; by apply (IH y z)].
  destruct (objs st !! l) as [d|] eqn:Hl; [|done].
  destruct (mapM _ d) as [ys|] eqn:E; [|done]. simpl in Hv.
  rewrite (mapM_Some_Forall (fun kv => (fun y => (kv.1, y)) <$> deref fuel st kv.2)
             (fun kv => (fun y => (kv.1, y)) <$> deref fuel' st kv.2) d ys); [split; [done|]| |done].
  - f_equal. apply Forall_bind_ext, Forall_forall. intros [k y] Hy.
    destruct (mapM_Some_elem _ _ _ _ E Hy) as [z Hz]. simpl in Hz.
    destruct (deref fuel st y) as [y'|] eqn:Ey; [|done]. by apply (IH y y').
  - apply Forall_forall. intros [k y] Hy z Hz. simpl in *.
    destruct (deref fuel st y) as [y'|] eqn:Ey; [|done]. by rewrite (proj1 (IH y y' Ey fuel' Hle')).
Qed.

(** A successful read visits only existing objects. *)
Lemma reach_dom fuel st v x l :
  deref fuel st v = Some x -> l ∈ reach fuel st v -> is_Some (objs st !! l).
Proof.
  revert v x. induction fuel as [|fuel IH]; intros v x Hv Hl; [done|].
  destruct v as [| | | |xs|xs|l']; simpl in *; try (by apply elem_of_nil in Hl).
  1-2: destruct (mapM (deref fuel st) xs) as [ys|] eqn:E; [|done];
    apply list_elem_of_bind in Hl as (y & Hl & Hy);
    destruct (mapM_Some_elem _ _ _ _ E Hy) as [z Hz]; by apply (IH y z).
  destruct (objs st !! l') as [d|] eqn:Hl'; [|done].
  apply elem_of_cons in Hl as [->|Hl]; [by rewrite Hl'|].
  destruct (mapM _ d) as [ys|] eqn:E; [|done].
  apply list_elem_of_bind in Hl as ([k y] & Hl & Hy).
  destruct (mapM_Some_elem _ _ _ _ E Hy) as [z Hz]. simpl in Hz.
  destruct (deref fuel st y) as [y'|] eqn:Ey; [|done]. by apply (IH y y').
Qed.

(** The locations a successful read visits do not change in a store that
    keeps them. *)
Lemma reach_frame L fuel st st' v x :
  agree_except L st st' -> (forall l, l ∈ reach fuel st v -> l ∉ L) ->
  deref fuel st v = Some x -> reach fuel st' v = reach fuel st v.
Proof.
  intros Hag. revert v x. induction fuel as [|fuel IH]; intros v x Hreach Hv; [done|].
  destruct v as [| | | |xs|xs|l]; simpl in *; try done.
  1-2: destruct (mapM (deref fuel st) xs) as [ys|] eqn:E; [|done];
    apply Forall_bind_ext, Forall_forall; intros y Hy;
    destruct (mapM_Some_elem _ _ _ _ E Hy) as [z Hz]; apply (IH y z); [|done];
    intros l Hl; apply Hreach, list_elem_of_bind; eauto.
  destruct (objs st !! l) as [d|] eqn:Hl; [|done].
  rewrite (Hag l d); [|apply Hreach, list_elem_of_here|done]. f_equal.
  destruct (mapM _ d) as [ys|] eqn:E; [|done].
  apply Forall_bind_ext, Forall_forall. intros [k y] Hy.
  destruct (mapM_Some_elem _ _ _ _ E Hy) as [z Hz]. simpl in Hz.
  destruct (deref fuel st y) as [y'|] eqn:Ey; [|done]. apply (IH y y'); [|done].
  intros l' Hl'. apply Hreach, list_elem_of_further, list_elem_of_bind. by exists (k, y).
Qed.

(** ** Reading dicts back *)

Lemma deref_dict_cons fuel st k v d :
  deref_dict fuel st ((k, v) :: d) =
    y ← deref fuel st v; e ← deref_dict fuel st d; Some ((k, y) :: e).
Proof.
  unfold deref_dict. simpl. destruct (deref fuel st v); simpl; [|done].
  by destruct (mapM _ d).
Qed.

Lemma deref_dict_cons_inv fuel st k v d e :
  deref_dict fuel st ((k, v) :: d) = Some e ->
  exists y e', deref fuel st v = Some y /\ deref_dict fuel st d = Some e' /\ e = (k, y) :: e'.
Proof.
  rewrite deref_dict_cons. destruct (deref fuel st v) as [y|]; simpl; [|done].
  destruct (deref_dict fuel st d) as [e'|]; simpl; [|done]. intros [= <-]. eauto.
Qed.

(** A dict is read entry by entry: reads that carry over carry the dict. *)
Lemma deref_dict_lift fuel fuel' st st' d e :
  (forall k v, (k, v) ∈ d -> forall y, deref fuel st v = Some y -> deref fuel' st' v = Some y) ->
  deref_dict fuel st d = Some e -> deref_dict fuel' st' d = Some e.
Proof.
  revert e. induction d as [|[k v] d IH]; intros e Hd He; [done|].
  apply deref_dict_cons_inv in He as (y & e' & Hy & He' & ->).
  rewrite deref_dict_cons, (Hd k v (list_elem_of_here _ _) y Hy). simpl.
  rewrite (IH e'); [done| |done]. intros k' v' Hin. apply (Hd k' v'). by apply list_elem_of_further.
Qed.

Lemma deref_dict_keys fuel st d e : deref_dict fuel st d = Some e -> dict_keys e = dict_keys d.
Proof.
  revert e. induction d as [|[k v] d IH]; intros e He; [by injection He as <-|].
  apply deref_dict_cons_inv in He as (y & e' & _ & He' & ->). simpl. f_equal. by apply IH.
Qed.

Lemma deref_dict_set fuel st k v x d e :
  deref fuel st v = Some x -> deref_dict fuel st d = Some e ->
  deref_dict fuel st (dict_set k v d) = Some (dict_set k x e).
Proof.
  intros Hv. revert e. induction d as [|[k' v'] d IH]; intros e He.
  - injection He as <-. cbn [dict_set]. rewrite deref_dict_cons, Hv. done.
  - apply deref_dict_cons_inv in He as (y & e' & Hy & He' & ->). cbn [dict_set].
    case_decide; rewrite deref_dict_cons; [by rewrite Hv, He'|]. by rewrite Hy, (IH e').
Qed.

Lemma deref_dict_merge fuel st d1 d2 e1 e2 :
  deref_dict fuel st d1 = Some e1 -> deref_dict fuel st d2 = Some e2 ->
  deref_dict fuel st (dict_merge d1 d2) = Some (dict_merge e1 e2).
Proof.
  unfold dict_merge. revert d1 e1 e2. induction d2 as [|[k v] d2 IH]; intros d1 e1 e2 H1 H2.
  - by injection H2 as <-.
  - apply deref_dict_cons_inv in H2 as (y & e' & Hy & He' & ->). simpl.
    apply IH; [|done]. by apply deref_dict_set.
Qed.

(** The entry [k] of a dict with distinct keys read in a new store, the
    others reading as before. *)
Lemma deref_dict_update fuel fuel' st st' k hv x d e :
  dict_wf d -> dict_get k d = Some hv -> deref fuel' st' hv = Some x ->
  (forall k' v', (k', v') ∈ d -> k' <> k -> forall y, deref fuel st v' = Some y -> deref fuel' st' v' = Some y) ->
  deref_dict fuel st d = Some e -> deref_dict fuel' st' d = Some (dict_set k x e).
Proof.
  unfold dict_wf, dict_keys. revert e. induction d as [|[k0 v0] d IH]; intros e Hwf Hget Hx Hothers He; [done|].
  apply deref_dict_cons_inv in He as (y & e' & Hy & He' & ->). cbn [dict_get dict_set map] in Hget, Hwf |- *.
  apply NoDup_cons in Hwf as [Hk0 Hwf]. rewrite deref_dict_cons.
  case_decide as Hk; [subst k0; injection Hget as <-|].
  - rewrite Hx. simpl. rewrite (deref_dict_lift fuel fuel' st st' d e'); [done| |done].
    intros k' v' Hin. apply (Hothers k' v'); [by apply list_elem_of_further|].
    intros ->. apply Hk0. by apply (list_elem_of_fmap_2 fst) in Hin.
  - rewrite (Hothers k0 v0 ltac:(apply list_elem_of_here) ltac:(congruence) y Hy). simpl.
    rewrite (IH e'); [done|done|done|done| |done].
    intros k' v' Hin. apply Hothers. by apply list_elem_of_further.
Qed.

(** ** Fresh values read back as the values they were built from *)

Lemma store_ext_agree st st' : store_ext st st' -> agree_except [] st st'.
Proof. intros Hext l d _ Hl. by apply Hext. Qed.

Lemma fresh_read_lift fuel fuel' st0 st0' st st' h x :
  fresh_read fuel st0 st h x -> store_ext st st' -> fuel <= fuel' -> store_ext st0' st0 ->
  fresh_read fuel' st0' st' h x.
Proof.
  intros [Hd Hr] Hext Hle Hext0.
  assert (Hag := store_ext_agree _ _ Hext).
  assert (Hd' : deref fuel st' h = Some x) by (apply (deref_frame [] fuel st st' h x); [done|set_solver|done]).
  destruct (deref_mono _ _ _ _ Hd' fuel' Hle) as [Hd'' Hr''].
  split; [done|]. intros l Hl. rewrite Hr'', (reach_frame [] fuel st st' h x) in Hl; [|done|set_solver|done].
  apply (ext_none _ _ _ Hext0). by apply Hr.
Qed.

Lemma alloc_seq_py_frame xs st :
  store_wf st -> store_wf (alloc_seq alloc_py xs st).2 /\ store_ext st (alloc_seq alloc_py xs st).2.
Proof.
  apply (alloc_seq_frame (fun _ => True)); [by apply Forall_true|]. intros x _ st' Hwf. by apply alloc_py_frame.
Qed.

Lemma alloc_seq_py_deref xs st :
  Forall (fun x => forall st, store_wf st ->
            exists n, fresh_read n st (alloc_py x st).2 (alloc_py x st).1 x) xs ->
  store_wf st ->
  exists n, mapM (deref n (alloc_seq alloc_py xs st).2) (alloc_seq alloc_py xs st).1 = Some xs /\
    forall l, l ∈ (alloc_seq alloc_py xs st).1 ≫= reach n (alloc_seq alloc_py xs st).2 -> objs st !! l = None.
Proof.
  intros Hall. revert st. induction Hall as [|x xs Hx Hall IH]; intros st Hwf.
  { exists 0. split; [done|]. intros l Hl. by apply elem_of_nil in Hl. }
  simpl. destruct (Hx st Hwf) as [n1 Hr1]. destruct (alloc_py_frame x st Hwf) as [Hwf1 Hext1].
  destruct (alloc_py x st) as [y st1] eqn:E1. simpl in *.
  destruct (IH st1 Hwf1) as (n2 & Hm2 & Hr2). destruct (alloc_seq_py_frame xs st1 Hwf1) as [_ Hext2].
  destruct (alloc_seq alloc_py xs st1) as [ys st2] eqn:E2. simpl in *.
  destruct (fresh_read_lift n1 (max n1 n2) st st st1 st2 y x) as [Hy Hry]; [done|done|lia|apply store_ext_refl|].
  exists (max n1 n2). split.
  - simpl. rewrite Hy. simpl.
    rewrite (mapM_Some_Forall (deref n2 st2) (deref (max n1 n2) st2) ys xs); [done| |done].
    apply Forall_forall. intros z _ w Hw. apply (deref_mono _ _ _ _ Hw); lia.
  - intros l Hl. apply elem_of_app in Hl as [Hl|Hl]; [by apply Hry|].
    apply (ext_none _ _ _ Hext1). apply Hr2.
    apply list_elem_of_bind in Hl as (z & Hlz & Hz). apply list_elem_of_bind. exists z. split; [|done].
    destruct (mapM_Some_elem _ _ _ _ Hm2 Hz) as [w Hw].
    rewrite <- (proj2 (deref_mono _ _ _ _ Hw (max n1 n2) ltac:(lia))). done.
Qed.

Lemma alloc_seq_entry_frame kvs st :
  store_wf st -> store_wf (alloc_seq entry_alloc kvs st).2 /\ store_ext st (alloc_seq entry_alloc kvs st).2.
Proof.
  apply (alloc_seq_frame (fun _ => True)); [by apply Forall_true|].
  intros kv _ st' Hwf. pose proof (alloc_py_frame kv.2 st' Hwf) as Hx.
  destruct (alloc_py kv.2 st'). exact Hx.
Qed.

Lemma alloc_seq_entry_deref kvs st :
  Forall (fun kv => forall st, store_wf st ->
            exists n, fresh_read n st (alloc_py kv.2 st).2 (alloc_py kv.2 st).1 kv.2) kvs ->
  store_wf st ->
  exists n, deref_dict n (alloc_seq entry_alloc kvs st).2 (alloc_seq entry_alloc kvs st).1 = Some kvs /\
    forall l, l ∈ (alloc_seq entry_alloc kvs st).1 ≫= (fun kv => reach n (alloc_seq entry_alloc kvs st).2 kv.2) ->
      objs st !! l = None.
Proof.
  intros Hall. revert st. induction Hall as [|[k x] kvs Hx Hall IH]; intros st Hwf.
  { exists 0. split; [done|]. intros l Hl. by apply elem_of_nil in Hl. }
  cbn [alloc_seq fst snd]. destruct (Hx st Hwf) as [n1 Hr1]. destruct (alloc_py_frame x st Hwf) as [Hwf1 Hext1].
  simpl in Hr1. destruct (alloc_py x st) as [y st1] eqn:E1. simpl in *.
  destruct (IH st1 Hwf1) as (n2 & Hm2 & Hr2). destruct (alloc_seq_entry_frame kvs st1 Hwf1) as [_ Hext2].
  destruct (alloc_seq entry_alloc kvs st1) as [ys st2] eqn:E2. cbn [fst snd] in *.
  destruct (fresh_read_lift n1 (max n1 n2) st st st1 st2 y x) as [Hy Hry]; [done|done|lia|apply store_ext_refl|].
  exists (max n1 n2). split.
  - rewrite deref_dict_cons, Hy. simpl.
    rewrite (deref_dict_lift n2 (max n1 n2) st2 st2 ys kvs); [done| |done].
    intros k' v' _ w Hw. apply (deref_mono _ _ _ _ Hw); lia.
  - intros l Hl. apply elem_of_app in Hl as [Hl|Hl]; [by apply Hry|].
    apply (ext_none _ _ _ Hext1). apply Hr2.
    apply list_elem_of_bind in Hl as ([k' z] & Hlz & Hz). apply list_elem_of_bind. exists (k', z). split; [|done].
    unfold deref_dict in Hm2. destruct (mapM_Some_elem _ _ _ _ Hm2 Hz) as [w Hw]. simpl in *.
    destruct (deref n2 st2 z) as [w'|] eqn:Ew; [|done].
    rewrite <- (proj2 (deref_mono _ _ _ _ Ew (max n1 n2) ltac:(lia))). done.
Qed.

(** A value allocated by [alloc_py] reads back as itself, through new
    objects only. *)
Lemma alloc_py_deref v st :
  store_wf st -> exists n, fresh_read n st (alloc_py v st).2 (alloc_py v st).1 v.
Proof.
  revert st. induction v as [| | | |xs IH|xs IH|kvs IH] using pyval_ind; intros st Hwf;
    try (exists 1; split; [done|intros l Hl; by apply elem_of_nil in Hl]).
  1-2: destruct (alloc_seq_py_deref xs st (list_all_Forall _ _ IH) Hwf) as (n & Hm & Hr);
    simpl; destruct (alloc_seq alloc_py xs st) as [ys st'];
    exists (S n); split; [simpl in *; by rewrite Hm|exact Hr].
  assert (Hkv : Forall (fun kv => forall st, store_wf st ->
            exists n, fresh_read n st (alloc_py kv.2 st).2 (alloc_py kv.2 st).1 kv.2) kvs).
  { apply list_all_prod_Forall in IH. eapply Forall_impl; [exact IH|]. intros kv Hkv st' Hwf'. by apply Hkv. }
  destruct (alloc_seq_entry_deref kvs st Hkv Hwf) as (n & Hd & Hr).
  destruct (alloc_seq_entry_frame kvs st Hwf) as [Hwf1 Hext1].
  cbn [alloc_py]. destruct (alloc_seq entry_alloc kvs st) as [d st1]. cbn [fst snd] in *.
  destruct (alloc_spec d st1 Hwf1) as (_ & Hext2 & HL & Hfresh).
  destruct (alloc d st1) as [L st2] eqn:EL. cbn [fst snd] in *.
  exists (S n). split.
  - rewrite (deref_ref _ _ _ d HL). rewrite (deref_dict_lift n n st1 st2 d kvs); [done| |done].
    intros k v _ y Hy. apply (deref_frame [] n st1 st2 v y); [by apply store_ext_agree|set_solver|done].
  - intros l Hl. cbn [reach] in Hl. rewrite HL in Hl.
    apply elem_of_cons in Hl as [->|Hl]; [exact (ext_none _ _ _ Hext1 Hfresh)|].
    apply Hr. apply list_elem_of_bind in Hl as ([k v] & Hlv & Hin). apply list_elem_of_bind.
    exists (k, v). split; [|done]. simpl in *.
    unfold deref_dict in Hd. destruct (mapM_Some_elem _ _ _ _ Hd Hin) as [w Hw]. simpl in Hw.
    destruct (deref n st1 v) as [v'|] eqn:Ev; [|done].
    rewrite <- (reach_frame [] n st1 st2 v v'); [done|by apply store_ext_agree|set_solver|done].
Qed.

(** ** Helpers for the refinement of [Response.serialize] *)

Lemma deref_PDict_inv m st hv c :
  deref m st hv = Some (PDict c) ->
  exists m' l d, m = S m' /\ hv = HRef l /\ objs st !! l = Some d /\ deref_dict m' st d = Some c.
Proof.
  destruct m as [|m']; [done|]. destruct hv as [| | | |xs|xs|l]; simpl; try discriminate.
  1-2: by destruct (mapM (deref m' st) xs).
  destruct (objs st !! l) as [d|] eqn:Hl; [|done].
  fold (deref_dict m' st d). destruct (deref_dict m' st d) as [c'|] eqn:Hd; simpl; [|done].
  intros [= ->]. eauto 7.
Qed.

Lemma deref_frame_mono L fuel fuel' st st' v x :
  agree_except L st st' -> (forall l, l ∈ reach fuel st v -> l ∉ L) -> fuel <= fuel' ->
  deref fuel st v = Some x -> deref fuel' st' v = Some x.
Proof.
  intros Hag Hr Hle Hv. apply (deref_mono fuel st' v x); [|done]. by apply (deref_frame L fuel st).
Qed.

Lemma deref_dict_frame_mono L fuel fuel' st st' d e :
  agree_except L st st' -> (forall k v, (k, v) ∈ d -> forall l, l ∈ reach fuel st v -> l ∉ L) ->
  fuel <= fuel' -> deref_dict fuel st d = Some e -> deref_dict fuel' st' d = Some e.
Proof.
  intros Hag Hr Hle. apply deref_dict_lift. intros k v Hin y Hy.
  apply (deref_frame_mono L fuel fuel' st st' v y); [done| |done|done]. by apply (Hr k v).
Qed.

Lemma reach_entry fuel st l d k v x :
  objs st !! l = Some d -> (k, v) ∈ d -> x ∈ reach fuel st v -> x ∈ reach (S fuel) st (HRef l).
Proof.
  intros Hl Hin Hx. simpl. rewrite Hl. apply list_elem_of_further, list_elem_of_bind. by exists (k, v).
Qed.

Lemma agree_except_trans L1 L2 st1 st2 st3 :
  agree_except L1 st1 st2 -> agree_except L2 st2 st3 -> (forall l d, objs st1 !! l = Some d -> l ∈ L2 -> l ∈ L1) ->
  agree_except L1 st1 st3.
Proof.
  intros H12 H23 Hsub l d Hl Hd. apply H23; [|by apply H12].
  intros Hl2. by apply Hl, (Hsub l d).
Qed.

Lemma agree_except_refl L st : agree_except L st st.
Proof. by intros l d _ Hl. Qed.

Lemma agree_except_write L l d st st' :
  l ∈ L -> agree_except L st st' -> agree_except L st (write l d st').
Proof. intros Hl Hag l' d' Hl' Hd. rewrite write_get. case_decide; [subst; set_solver|by apply Hag]. Qed.

Lemma agree_except_ext_l L st st' st'' :
  store_ext st st' -> agree_except L st' st'' -> agree_except L st st''.
Proof. intros Hext Hag l d Hl Hd. by apply Hag, Hext. Qed.

Lemma agree_except_ext_r L st st' st'' :
  agree_except L st st' -> store_ext st' st'' -> agree_except L st st''.
Proof. intros Hag Hext l d Hl Hd. by apply Hext, Hag. Qed.

(** A location the first store does not have needs no exception. *)
Lemma agree_except_drop l L st st' :
  objs st !! l = None -> agree_except (l :: L) st st' -> agree_except L st st'.
Proof.
  intros Hnone Hag l' d Hl' Hd. apply Hag; [|done].
  apply not_elem_of_cons. split; [intros ->; congruence|done].
Qed.

Lemma deref_dict_reach_mono fuel st d e k v :
  deref_dict fuel st d = Some e -> (k, v) ∈ d -> reach (S fuel) st v = reach fuel st v.
Proof.
  intros Hd Hin. destruct (mapM_Some_elem _ _ _ _ Hd Hin) as [w Hw]. simpl in Hw.
  destruct (deref fuel st v) as [w'|] eqn:Ev; [|done].
  exact (proj2 (deref_mono _ _ _ _ Ev (S fuel) ltac:(lia))).
Qed.

(** What a coherent converter returns avoids objects that exist before
    the call and that the data does not reach. *)
Lemma reach_avoid (Ls : list positive) fuel st' hv fuel0 st hd :
  (forall l, l ∈ reach fuel st' hv -> l ∈ reach fuel0 st hd \/ objs st !! l = None) ->
  (forall l, l ∈ Ls -> is_Some (objs st !! l) /\ l ∉ reach fuel0 st hd) ->
  forall l, l ∈ reach fuel st' hv -> l ∉ Ls.
Proof.
  intros Hr Hls l Hl Hin. destruct (Hls l Hin) as [[d Hd] Hnr].
  destruct (Hr l Hl) as [?|?]; [done|congruence].
Qed.

(** A dict read through objects that avoid [X] reads the same after a
    write to [X]. *)
Lemma dict_read_write_avoid stl X d L dL links fuel N :
  objs stl !! L = Some dL -> deref_dict fuel stl dL = Some links -> X ∉ reach (S fuel) stl (HRef L) ->
  fuel <= N -> deref_dict N (write X d stl) dL = Some links.
Proof.
  intros HL HdL HXL Hle.
  apply (deref_dict_frame_mono [X] fuel N stl _ dL links); [|intros k v Hin l Hl|done|done].
  - apply agree_except_write; [set_solver|apply agree_except_refl].
  - assert (l <> X) by (intros ->; apply HXL; by apply (reach_entry _ _ _ dL k v)). set_solver.
Qed.

(** The links dict of the output after [_add_links]: the caller's dict
    [X], read as [existing], merged with the fresh links dict. *)
Lemma links_entry_read st stl X dX dL L existing links fuel fuel' N :
  agree_except [X] st (write X (dict_merge dX dL) stl) ->
  deref_dict fuel st dX = Some existing -> (forall k v, (k, v) ∈ dX -> X ∉ reach (S fuel) st v) ->
  objs stl !! L = Some dL -> deref_dict fuel' stl dL = Some links -> X ∉ reach (S fuel') stl (HRef L) ->
  fuel <= N -> fuel' <= N ->
  deref (S N) (write X (dict_merge dX dL) stl) (HRef X) = Some (PDict (dict_merge existing links)).
Proof.
  intros Ag HdX HshX HL HdL HXL Hle Hle'.
  rewrite (deref_ref _ _ _ (dict_merge dX dL)) by (rewrite write_get; by case_decide).
  erewrite deref_dict_merge; [done| |by apply (dict_read_write_avoid stl X _ L dL links fuel')].
  apply (deref_dict_frame_mono [X] fuel N st _ dX existing Ag); [|done|done].
  intros k v Hin l Hl. rewrite <- (deref_dict_reach_mono _ _ _ _ _ _ HdX Hin) in Hl.
  assert (l <> X) by (intros ->; by apply (HshX k v)). set_solver.
Qed.

(** The fresh links dict reads back as the links, through new objects. *)
Lemma alloc_links_read links st L dL stl X dX :
  store_wf st -> alloc_py (PDict links) st = (HRef L, stl) -> objs stl !! L = Some dL ->
  objs st !! X = Some dX ->
  exists fuel, deref_dict fuel stl dL = Some links /\ (X ∉ reach (S fuel) stl (HRef L)) /\ store_ext st stl.
Proof.
  intros Hwf Halloc HL HX. destruct (alloc_py_deref (PDict links) st Hwf) as [k [HkL HkR]].
  pose proof (alloc_py_frame (PDict links) st Hwf) as [_ Hext].
  rewrite Halloc in HkL, HkR, Hext. cbn [fst snd] in HkL, HkR, Hext.
  destruct (deref_PDict_inv _ _ _ _ HkL) as (k' & L' & dL' & -> & [= <-] & HL' & HdL).
  rewrite HL in HL'. injection HL' as <-. exists k'. split_and!; [done| |done].
  intros HXr. specialize (HkR X HXr). congruence.
Qed.

Lemma deref_dict_get fuel st d e k hv :
  deref_dict fuel st d = Some e -> dict_get k d = Some hv ->
  exists y, deref fuel st hv = Some y /\ dict_get k e = Some y.
Proof.
  revert e. induction d as [|[k' v'] d IH]; intros e He Hk; [done|].
  apply deref_dict_cons_inv in He as (y & e' & Hy & He' & ->). cbn [dict_get] in *.
  case_decide; [injection Hk as <-; eauto|]. by apply IH.
Qed.

(** The entries of the dict a coherent converter returned read the same
    after writes to objects [Ls] that the data does not reach: objects
    created before the call, or earlier objects the data does not reach. *)
Lemma converted_entries_read Ls st st2 st3 st5 hd d fuel cl dc c fuel' N :
  store_ext st st2 -> deref fuel st hd = Some d ->
  (forall l, l ∈ Ls -> is_Some (objs st2 !! l) /\ (objs st !! l = None \/ l ∉ reach fuel st hd)) ->
  agree_except Ls st3 st5 -> objs st3 !! cl = Some dc -> deref_dict fuel' st3 dc = Some c ->
  (forall l, l ∈ reach (S fuel') st3 (HRef cl) -> l ∈ reach fuel st2 hd \/ objs st2 !! l = None) ->
  fuel' <= N -> deref_dict N st5 dc = Some c.
Proof.
  intros Hext2 Hd HLs Ag3 Hcl Hdc Hreach Hle.
  apply (deref_dict_frame_mono Ls fuel' N st3 st5 dc c Ag3); [|done|done].
  intros k v Hin l Hl. apply (reach_avoid Ls (S fuel') st3 (HRef cl) fuel st2 hd Hreach);
    [|by apply (reach_entry _ _ _ dc k v)].
  intros l' Hl'. rewrite (reach_frame [] fuel st st2 hd d); [|by apply store_ext_agree|set_solver|done].
  destruct (HLs l' Hl') as [Hs [Hn|Hn]]; split; [done| |done|done].
  intros Hr. destruct (reach_dom _ _ _ _ _ Hd Hr). congruence.
Qed.

(** The output object [extra] merged with the converted dict, its links
    entry updated, reads as the value model's payload. *)
Lemma merged_output_read fuel st o dE dc e c lk y :
  objs st !! o = Some (dict_merge (dict_merge [] dE) dc) ->
  deref_dict fuel st dE = Some (dict_set lk y e) -> deref_dict fuel st dc = Some c ->
  dict_wf e -> dict_contains lk e = true -> dict_contains lk c = false ->
  deref (S fuel) st (HRef o) = Some (PDict (dict_set lk y (dict_merge e c))).
Proof.
  intros Ho HdE Hdc Hwf Hin Hc. rewrite (deref_ref _ _ _ _ Ho).
  rewrite (deref_dict_merge _ _ _ _ _ _ (deref_dict_merge _ _ [] dE [] _ eq_refl HdE) Hdc). simpl.
  rewrite dict_merge_nil by (by apply dict_wf_set). by rewrite dict_merge_set_comm.
Qed.

(** [extra[links_key]] is a dict object [X] read as [existing]. *)
Lemma extra_links_read fuel st dE e lk X dX :
  deref_dict fuel st dE = Some e -> dict_get lk dE = Some (HRef X) -> objs st !! X = Some dX ->
  exists fuel' existing, fuel = S fuel' /\ deref_dict fuel' st dX = Some existing /\
    dict_get lk e = Some (PDict existing).
Proof.
  intros HdE HlkE HX. destruct (deref_dict_get _ _ _ _ _ _ HdE HlkE) as (y & HyX & Hlke).
  destruct fuel as [|fuel']; [done|]. rewrite (deref_ref fuel' st X dX HX) in HyX.
  destruct (deref_dict fuel' st dX) as [existing|] eqn:HdX; [|done]. injection HyX as <-. eauto.
Qed.


(** A read keeps its value in a store that keeps every object, with
    more fuel. *)
Lemma deref_lift fuel fuel' st st' v x :
  deref fuel st v = Some x -> store_ext st st' -> fuel <= fuel' -> deref fuel' st' v = Some x.
Proof.
  intros Hv Hext Hle. destruct (deref_mono _ _ _ _ Hv fuel' Hle) as [Hv' _].
  apply (deref_frame [] fuel' st st'); [by apply store_ext_agree|set_solver|done].
Qed.

Lemma mapM_deref_lift fuel fuel' st st' xs ys :
  mapM (deref fuel st) xs = Some ys -> store_ext st st' -> fuel <= fuel' -> mapM (deref fuel' st') xs = Some ys.
Proof.
  intros Hxs Hext Hle. apply (mapM_Some_Forall (deref fuel st)); [|done].
  apply Forall_forall. intros x _ y Hy. by apply (deref_lift fuel fuel' st).
Qed.

(** What a read visits is the same in a store that keeps every object,
    with more fuel. *)
Lemma reach_lift fuel fuel' st st' v x :
  deref fuel st v = Some x -> store_ext st st' -> fuel <= fuel' -> reach fuel' st' v = reach fuel st v.
Proof.
  intros Hv Hext Hle. destruct (deref_mono _ _ _ _ Hv fuel' Hle) as [Hv' <-].
  apply (reach_frame [] fuel' st st' v x); [by apply store_ext_agree|set_solver|done].
Qed.

(** [v is None] and [len(v)] on an object give what they give on the
    value it reads as. *)
Lemma deref_is_none fuel st v x : deref fuel st v = Some x -> h_is_none v = is_none x.
Proof.
  destruct fuel as [|fuel]; [done|]. destruct v; simpl; try (by intros [= <-]).
  - by destruct (mapM _ _); intros [= <-].
  - by destruct (mapM _ _); intros [= <-].
  - destruct (objs st !! l); [|done]. by destruct (mapM _ _); intros [= <-].
Qed.

Lemma h_truthy_deref fuel st v x : deref fuel st v = Some x -> h_truthy st v = py_truthy x.
Proof.
  destruct fuel as [|fuel]; [done|]. destruct v as [| | | |xs|xs|l]; simpl; try (by intros [= <-]).
  - destruct (mapM _ _) as [ys|] eqn:E; intros [= <-]. apply mapM_Some, Forall2_length in E.
    by destruct xs, ys.
  - by destruct (mapM _ _); intros [= <-].
  - destruct (objs st !! l) as [d|]; [|done]. destruct (mapM _ _) as [e|] eqn:E; intros [= <-].
    apply mapM_Some, Forall2_length in E. by destruct d, e.
Qed.

Lemma h_len_deref fuel st v x : deref fuel st v = Some x -> h_len st v = py_len x.
Proof.
  destruct fuel as [|fuel]; [done|]. destruct v as [| | | |xs|xs|l]; simpl; try (by intros [= <-]).
  - destruct (mapM _ _) as [ys|] eqn:E; intros [= <-]. simpl. apply mapM_Some, Forall2_length in E. by rewrite E.
  - by destruct (mapM _ _); intros [= <-].
  - unfold load. destruct (objs st !! l); [|done]. destruct (mapM _ _) as [ys|] eqn:E; intros [= <-].
    simpl. apply mapM_Some, Forall2_length in E. by rewrite E.
Qed.

Lemma mapM_deref_strs fuel st ks : mapM (deref (S fuel) st) (map HStr ks) = Some (map PStr ks).
Proof. apply mapM_Some. induction ks as [|k ks IH]; simpl; by constructor. Qed.

(** [iter(v)] on an object: the elements read as those of the value it
    reads as. *)
Lemma h_iter_deref fuel st v x ys :
  deref fuel st v = Some x -> py_iter x = Ok ys ->
  exists xs fuel', h_iter st v = Ok xs /\ mapM (deref fuel' st) xs = Some ys /\
    forall y l, y ∈ xs -> l ∈ reach fuel' st y -> l ∈ reach fuel st v.
Proof.
  destruct fuel as [|fuel]; [done|]. destruct v as [| | |s|xs|xs|l]; simpl; try (by intros [= <-]).
  - intros [= <-] [= <-]. eexists _, 1. split_and!; [done| |intros y l' (? & <- & _)%list_elem_of_In%in_map_iff Hl; simpl in Hl; by apply elem_of_nil in Hl].
    rewrite <- (map_map (fun c => String c EmptyString) HStr), <- (map_map (fun c => String c EmptyString) PStr).
    apply mapM_deref_strs.
  - destruct (mapM _ _) eqn:E; intros [= <-] [= <-]. exists xs, fuel. split_and!; [done|done|].
    intros y z Hy Hz. apply list_elem_of_bind. eauto.
  - destruct (mapM _ _) eqn:E; intros [= <-] [= <-]. exists xs, fuel. split_and!; [done|done|].
    intros y z Hy Hz. apply list_elem_of_bind. eauto.
  - unfold load. destruct (objs st !! l) as [d|]; [|done]. destruct (mapM _ _) as [e|] eqn:E; intros [= <-] [= <-].
    eexists _, 1. split_and!; [done| |intros y l' (? & <- & _)%list_elem_of_In%in_map_iff Hl; simpl in Hl; by apply elem_of_nil in Hl].
    pose proof (deref_dict_keys _ _ _ _ E) as Hk. unfold dict_keys in Hk.
    rewrite <- (map_map fst HStr), <- (map_map fst PStr), Hk. apply mapM_deref_strs.
Qed.

(** Writes only to an object created after [st] keep every object of
    [st]. *)
Lemma store_ext_except_fresh st st' st'' o :
  store_ext st st' -> objs st !! o = None -> agree_except [o] st' st'' -> store_ext st st''.
Proof. intros Hext Ho Ag l d Hl. apply Ag; [|by apply Hext]. intros ->%list_elem_of_singleton. congruence. Qed.

Section ValueSide.
Context `{ResourceRegistry} `{HttpDate}.

(** The value model on a 2xx response whose [extra] is a non-empty dict
    and whose converted data is a dict: [_add_links] on the merge. *)
Lemma Response_serialize_2xx_dict self d representation e c :
  extra self = PDict e -> e <> [] -> dict_wf e -> (200 <= status self < 300)%Z ->
  resource_convert (Context.resource (context self)) (context self) d representation = Ok (PDict c) ->
  Response_serialize self d representation =
    (output <- _add_links self (dict_merge e c) d representation ;; Ok (PDict output)).
Proof.
  intros Hex Hne Hwf Hst Hconv. unfold Response_serialize. rewrite Hex.
  assert (Ht : py_truthy (PDict e) = true) by (by destruct e).
  assert (Hs : ((200 <=? status self)%Z && (status self <? 300)%Z) = true) by (apply andb_true_intro; split; lia).
  rewrite Ht, andb_false_r, Hs. unfold or_empty_dict. rewrite Ht. cbn [py_update]. rewrite rbind_Ok, Hconv, rbind_Ok.
  cbn [py_update]. by rewrite rbind_Ok, dict_merge_nil.
Qed.

(** The value model on a 2xx response whose [extra] holds a links dict
    and whose converted data does not. *)
Lemma Response_serialize_links_in_extra self d representation e existing c links :
  extra self = PDict e -> e <> [] -> dict_wf e -> (200 <= status self < 300)%Z ->
  dict_get (links_key self) e = Some (PDict existing) ->
  resource_convert (Context.resource (context self)) (context self) d representation = Ok (PDict c) ->
  dict_contains (links_key self) c = false ->
  _serialize_links self PNone representation = Ok links ->
  Response_serialize self d representation =
    Ok (PDict (dict_set (links_key self) (PDict (dict_merge existing links)) (dict_merge e c))).
Proof.
  intros Hex Hne Hwf Hst Hlk Hconv Hc Hlinks. rewrite (Response_serialize_2xx_dict self d representation e c) by done.
  unfold _add_links. assert (Hin : dict_contains (links_key self) (dict_merge e c) = true).
  { apply dict_contains_get. rewrite dict_get_merge_notin by done. by rewrite Hlk. }
  rewrite Hin. cbn [negb]. rewrite dict_get_merge_notin, Hlk by done.
  change (_serialize_links self d representation) with (_serialize_links self PNone representation).
  by rewrite Hlinks, rbind_Ok, rbind_Ok.
Qed.

(** The value model of [CollectionResponse.serialize] when neither
    [extra] nor the envelope has a links entry. *)
Lemma CollectionResponse_serialize_fresh self key tc it representation ys cs t e links :
  extra self = PDict e -> e <> [] -> dict_contains (links_key self) e = false ->
  links_key self <> key -> links_key self <> "totalCount" ->
  py_iter it = Ok ys ->
  rmapM (fun x => resource_convert (Context.resource (context self)) (context self) x representation) ys = Ok cs ->
  (if is_none tc then k <- py_len it ;; Ok (PInt k) else Ok tc) = Ok t ->
  _serialize_links self PNone representation = Ok links ->
  CollectionResponse_serialize self key tc it representation =
    Ok (PDict (dict_set (links_key self) (PDict (dict_merge [] links))
                 (dict_merge (dict_set "totalCount" t (dict_set key (PList cs) [])) e))).
Proof.
  intros Hex Hne Hlk Hkey Htc Hit Hcs Htot Hlinks. unfold CollectionResponse_serialize.
  rewrite Hit, rbind_Ok, Hcs, rbind_Ok, Htot, rbind_Ok. unfold or_empty_dict. rewrite Hex.
  assert (Ht : py_truthy (PDict e) = true) by (by destruct e). rewrite Ht. cbn [py_update]. rewrite rbind_Ok.
  unfold _add_links. rewrite dict_contains_merge_notin, !dict_contains_set, !bool_decide_false by done.
  cbn [negb orb dict_contains dict_get]. rewrite dict_get_set_eq.
  change (_serialize_links self it representation) with (_serialize_links self PNone representation).
  by rewrite Hlinks, rbind_Ok, rbind_Ok, dict_set_set.
Qed.

(** The value model of [CollectionResponse.serialize] when [extra]
    holds a links dict: the envelope takes it from [extra] and it is
    merged with the links. *)
Lemma CollectionResponse_serialize_links_in_extra self key tc it representation ys cs t e existing links :
  extra self = PDict e -> e <> [] -> dict_wf e -> dict_get (links_key self) e = Some (PDict existing) ->
  py_iter it = Ok ys ->
  rmapM (fun x => resource_convert (Context.resource (context self)) (context self) x representation) ys = Ok cs ->
  (if is_none tc then k <- py_len it ;; Ok (PInt k) else Ok tc) = Ok t ->
  _serialize_links self PNone representation = Ok links ->
  CollectionResponse_serialize self key tc it representation =
    Ok (PDict (dict_set (links_key self) (PDict (dict_merge existing links))
                 (dict_merge (dict_set "totalCount" t (dict_set key (PList cs) [])) e))).
Proof.
  intros Hex Hne Hwf Hlk Hit Hcs Htot Hlinks. unfold CollectionResponse_serialize.
  rewrite Hit, rbind_Ok, Hcs, rbind_Ok, Htot, rbind_Ok. unfold or_empty_dict. rewrite Hex.
  assert (Ht : py_truthy (PDict e) = true) by (by destruct e). rewrite Ht. cbn [py_update]. rewrite rbind_Ok.
  unfold _add_links. set (env := dict_set "totalCount" t _).
  assert (Hg : dict_get (links_key self) (dict_merge env e) = Some (PDict existing))
    by (rewrite dict_get_merge by done; by rewrite Hlk).
  assert (Hin : dict_contains (links_key self) (dict_merge env e) = true) by (apply dict_contains_get; by rewrite Hg).
  rewrite Hin. cbn [negb]. rewrite Hg.
  change (_serialize_links self it representation) with (_serialize_links self PNone representation).
  by rewrite Hlinks, rbind_Ok, rbind_Ok.
Qed.

(** [_add_links] on a dict without the links key: the key is set to
    a new dict of the serialized links. *)
Lemma _add_links_fresh self resp data representation links :
  dict_contains (links_key self) resp = false -> _serialize_links self PNone representation = Ok links ->
  _add_links self resp data representation = Ok (dict_set (links_key self) (PDict (dict_merge [] links)) resp).
Proof.
  intros Hr Hlinks. unfold _add_links. rewrite links_default_get, dict_contains_get_None by done. cbn [default].
  change (_serialize_links self data representation) with (_serialize_links self PNone representation).
  rewrite Hlinks, rbind_Ok, Hr. cbn [negb]. by rewrite dict_set_set.
Qed.

(** [_add_links] on a dict without the links key raises what
    [_serialize_links] raises. *)
Lemma _add_links_fresh_raise self resp data representation ex :
  dict_contains (links_key self) resp = false -> _serialize_links self PNone representation = Raise ex ->
  _add_links self resp data representation = Raise ex.
Proof.
  intros Hr Hl. unfold _add_links. rewrite links_default_get, dict_contains_get_None by done. cbn [default].
  change (_serialize_links self data representation) with (_serialize_links self PNone representation).
  by rewrite Hl, rbind_Raise.
Qed.

(** The value model's 2xx branch after the first [output.update]. *)
Lemma Response_serialize_2xx_split self d representation e0 :
  (200 <= status self < 300)%Z -> is_none d && negb (py_truthy (extra self)) = false ->
  py_update [] (or_empty_dict (extra self)) = Ok e0 ->
  Response_serialize self d representation =
    (converted <- resource_convert (Context.resource (context self)) (context self) d representation ;;
     output <- py_update e0 converted ;;
     output <- _add_links self output d representation ;;
     Ok (PDict output)).
Proof.
  intros Hst Hg Hu. unfold Response_serialize. rewrite Hg.
  assert (Hs : ((200 <=? status self)%Z && (status self <? 300)%Z) = true) by (apply andb_true_intro; split; lia).
  by rewrite Hs, Hu, rbind_Ok.
Qed.

(** The value model of [CollectionResponse.serialize] with a false
    [extra]: the envelope and a new links entry. *)
Lemma CollectionResponse_serialize_noextra self key tc it representation ys cs t links :
  py_truthy (extra self) = false -> links_key self <> key -> links_key self <> "totalCount" ->
  py_iter it = Ok ys ->
  rmapM (fun x => resource_convert (Context.resource (context self)) (context self) x representation) ys = Ok cs ->
  (if is_none tc then k <- py_len it ;; Ok (PInt k) else Ok tc) = Ok t ->
  _serialize_links self PNone representation = Ok links ->
  CollectionResponse_serialize self key tc it representation =
    Ok (PDict (dict_set (links_key self) (PDict (dict_merge [] links))
                 (dict_merge (dict_set "totalCount" t (dict_set key (PList cs) [])) []))).
Proof.
  intros Hex Hkey Htc Hit Hcs Htot Hlinks. unfold CollectionResponse_serialize.
  rewrite Hit, rbind_Ok, Hcs, rbind_Ok, Htot, rbind_Ok. unfold or_empty_dict. rewrite Hex.
  cbn [py_update]. rewrite rbind_Ok.
  unfold _add_links. rewrite dict_contains_merge_notin, !dict_contains_set, !bool_decide_false by done.
  cbn [negb orb dict_contains dict_get]. rewrite dict_get_set_eq.
  change (_serialize_links self it representation) with (_serialize_links self PNone representation).
  by rewrite Hlinks, rbind_Ok, rbind_Ok, dict_set_set.
Qed.

End ValueSide.

Section StoreSide.
Context `{ResourceRegistry} `{HeapConverter}.

(** The converter's call, in a store [st2] that extends [st], on data
    read as [d] in [st], when the value model's converter returns a dict
    without the links key: a dict object [cl] read as that dict, through
    objects the data reaches or new ones. *)
Lemma converter_call_read (self : response) hd d representation c n st st2 :
  converter_coherent -> store_wf st2 -> store_ext st st2 -> deref n st hd = Some d ->
  resource_convert (Context.resource (context self)) (context self) d representation = Ok (PDict c) ->
  dict_contains (links_key self) c = false ->
  exists cl dc st3 m', hconvert (Context.resource (context self)) (context self) hd representation st2 =
      Ok (HRef cl, st3) /\ store_wf st3 /\ store_ext st2 st3 /\ objs st3 !! cl = Some dc /\
    deref_dict m' st3 dc = Some c /\ dict_contains (links_key self) dc = false /\
    (forall l, l ∈ reach (S m') st3 (HRef cl) -> l ∈ reach n st2 hd \/ objs st2 !! l = None).
Proof.
  intros Hcoh Hwf2 Hext2 Hd Hconv Hc.
  assert (Hd2 : deref n st2 hd = Some d)
    by (apply (deref_frame [] _ st); [by apply store_ext_agree|set_solver|done]).
  destruct (Hcoh _ _ hd d representation st2 n (PDict c) Hwf2 Hd2 Hconv)
    as (hv & st3 & m & Hcv & Hwf3 & Hext3 & Hread & Hreach).
  destruct (deref_PDict_inv _ _ _ _ Hread) as (m' & cl & dc & -> & -> & Hcl & Hdc).
  exists cl, dc, st3, m'. split_and!; try done.
  rewrite <- Hc. apply dict_contains_keys. symmetry. by apply (deref_dict_keys m' st3).
Qed.

(** The new output object [next st], holding a copy of [extra]'s
    entries, then the converter's call. *)
Lemma output_converter_call (self : response) dE hd d representation c n st :
  converter_coherent -> store_wf st -> deref n st hd = Some d ->
  resource_convert (Context.resource (context self)) (context self) d representation = Ok (PDict c) ->
  dict_contains (links_key self) c = false ->
  let st2 := write (next st) (dict_merge [] dE) (alloc [] st).2 in
  store_wf st2 /\ store_ext st st2 /\ objs st2 !! next st = Some (dict_merge [] dE) /\
  objs st !! next st = None /\
  exists cl dc st3 m', hconvert (Context.resource (context self)) (context self) hd representation st2 =
      Ok (HRef cl, st3) /\ store_wf st3 /\ store_ext st2 st3 /\ objs st3 !! cl = Some dc /\
    deref_dict m' st3 dc = Some c /\ dict_contains (links_key self) dc = false /\
    (forall l, l ∈ reach (S m') st3 (HRef cl) -> l ∈ reach n st2 hd \/ objs st2 !! l = None).
Proof.
  intros Hcoh Hwf Hd Hconv Hc st2.
  destruct (alloc_write st (dict_merge [] dE) Hwf) as (Hwf2 & Hext2 & Ho2 & Ho).
  split_and!; try done. by apply (converter_call_read self hd d representation c n st st2).
Qed.

(** [_add_links] on an output [o] whose links entry is the caller's dict
    [X]: after the fresh links dict and the update of [X], only [o] and
    [X] differ, [o] holds the merged dict, and the links dict reads back
    through objects other than [X]. *)
Lemma shared_links_phase st3 o merged X dX links L dL stl :
  store_wf st3 -> is_Some (objs st3 !! o) -> o <> X -> objs st3 !! X = Some dX ->
  alloc_py (PDict links) (write o merged st3) = (HRef L, stl) -> objs stl !! L = Some dL ->
  exists k', deref_dict k' stl dL = Some links /\ (X ∉ reach (S k') stl (HRef L)) /\
    agree_except [o; X] st3 (write X (dict_merge dX dL) stl) /\
    objs (write X (dict_merge dX dL) stl) !! o = Some merged.
Proof.
  intros Hwf3 Ho3 HoX HX Halloc HL.
  assert (Hwf4 : store_wf (write o merged st3)) by (by apply write_wf).
  assert (HX4 : objs (write o merged st3) !! X = Some dX) by (rewrite write_get; by case_decide).
  destruct (alloc_links_read links _ L dL stl X dX Hwf4 Halloc HL HX4) as (k' & HdL & HXL & Hext4).
  exists k'. split_and!; [done|done| |].
  - apply agree_except_write; [set_solver|]. apply (agree_except_ext_r _ _ (write o merged st3)); [|done].
    apply agree_except_write; [set_solver|apply agree_except_refl].
  - rewrite write_get. case_decide; [congruence|]. by apply Hext4, write_get_eq.
Qed.

(** [_add_links] on an output [o] without a links entry: after the new
    dict [next st3] under the links key and its update, only [o] differs
    from [st3] among its objects, [o] holds the merged dict with the links
    entry, and [next st3] reads back as the merge of [{}] with the links. *)
Lemma fresh_links_phase st3 o merged lk links L dL stl :
  store_wf st3 -> is_Some (objs st3 !! o) ->
  alloc_py (PDict links) (write o (dict_set lk (HRef (next st3)) merged) (alloc [] (write o merged st3)).2) =
    (HRef L, stl) ->
  objs stl !! L = Some dL ->
  let st5 := write (next st3) (dict_merge [] dL) stl in
  exists k', agree_except [o] st3 st5 /\ objs st5 !! o = Some (dict_set lk (HRef (next st3)) merged) /\
    deref k' st5 (HRef (next st3)) = Some (PDict (dict_merge [] links)).
Proof.
  intros Hwf3 [d3 Ho3] Halloc HL st5. set (l := next st3) in *.
  assert (Hl3 : objs st3 !! l = None) by (by apply alloc_fresh).
  assert (Hol : o <> l) by (intros ->; congruence).
  set (st4 := write o merged st3).
  assert (Hwf4 : store_wf st4) by (apply write_wf; [done|by rewrite Ho3]).
  destruct (alloc_spec [] st4 Hwf4) as (Hwf4a & Hext4a & Hl4a & _).
  set (st4' := write o (dict_set lk (HRef l) merged) (alloc [] st4).2) in *.
  assert (Hwf4' : store_wf st4') by (apply write_wf; [done|eexists; apply Hext4a, write_get_eq]).
  assert (Hl4' : objs st4' !! l = Some []) by (unfold st4'; rewrite write_get; by case_decide).
  destruct (alloc_links_read links st4' L dL stl l [] Hwf4' Halloc HL Hl4') as (k' & HdL & HlL & Hext4).
  exists (S (S k')). split_and!.
  - apply (agree_except_drop l); [done|]. apply agree_except_write; [set_solver|].
    apply (agree_except_ext_r _ _ st4'); [|done]. apply agree_except_write; [set_solver|].
    apply (agree_except_ext_r _ _ st4); [|done]. apply agree_except_write; [set_solver|apply agree_except_refl].
  - unfold st5. rewrite write_get. case_decide; [congruence|]. by apply Hext4, write_get_eq.
  - unfold st5. rewrite (deref_ref _ _ _ _ (write_get_eq _ _ _)).
    by rewrite (deref_dict_merge _ _ [] dL [] links eq_refl (dict_read_write_avoid stl l _ L dL links k' (S k') HL HdL HlL ltac:(lia))).
Qed.

(** The tail of the 2xx run on a new output object [o] without the links
    key, whose entries read as [e0] in [st]: the output reads back as [e0]
    updated with the converted dict and a new links entry, and every
    object of [st] is kept. *)
Lemma fresh_output_refines (self : response) o d0 e0 hd d representation c links n st st2 :
  converter_coherent -> store_wf st2 -> store_ext st st2 -> objs st !! o = None -> objs st2 !! o = Some d0 ->
  deref_dict n st d0 = Some e0 -> dict_contains (links_key self) d0 = false -> deref n st hd = Some d ->
  resource_convert (Context.resource (context self)) (context self) d representation = Ok (PDict c) ->
  dict_contains (links_key self) c = false ->
  _serialize_links self PNone representation = Ok links ->
  exists st' m,
    (r <- hconvert (Context.resource (context self)) (context self) hd representation st2 ;;
     let '(converted, st3) := r in
     st4 <- h_update o converted st3 ;;
     st5 <- _add_links_h self o representation st4 ;;
     Ok (HRef o, st5)) = Ok (HRef o, st') /\
    deref m st' (HRef o) = Some (PDict (dict_set (links_key self) (PDict (dict_merge [] links)) (dict_merge e0 c))) /\
    store_ext st st'.
Proof.
  intros Hcoh Hwf2 Hext2 Ho Ho2 Hd0 Hlk0 Hd Hconv Hc Hlinks. set (lk := links_key self) in *.
  destruct (converter_call_read self hd d representation c n st st2 Hcoh Hwf2 Hext2 Hd Hconv Hc)
    as (cl & dc & st3 & m' & Hcv & Hwf3 & Hext3 & Hcl & Hdc & Hlkc & Hreach).
  destruct (serialize_h_tail_fresh self o d0 hd representation links st2 cl dc st3)
    as (L & dL & stl & Halloc & HL & _ & Hrun); try done.
  set (merged := dict_merge d0 dc) in *.
  destruct (fresh_links_phase st3 o merged lk links L dL stl Hwf3 ltac:(by rewrite (Hext3 _ _ Ho2)) Halloc HL)
    as (k' & Ag3 & Ho5 & Hl5).
  set (st5 := write (next st3) (dict_merge [] dL) stl) in *.
  assert (Ag0 : agree_except [] st st5).
  { apply (agree_except_drop o); [done|]. apply (agree_except_ext_l _ _ st3); [|done].
    by apply (store_ext_trans _ st2). }
  set (N := max n (max m' k')).
  assert (Hd05 : deref_dict (S N) st5 d0 = Some e0)
    by (apply (deref_dict_frame_mono [] n _ st); [done|set_solver|lia|done]).
  assert (Hdc5 : deref_dict (S N) st5 dc = Some c).
  { apply (converted_entries_read [o] st st2 st3 st5 hd d n cl dc c m'); try done; [|lia].
    intros l' ->%list_elem_of_singleton. split; [by rewrite Ho2|by left]. }
  assert (Hl5' : deref (S N) st5 (HRef (next st3)) = Some (PDict (dict_merge [] links)))
    by (exact (proj1 (deref_mono _ _ _ _ Hl5 (S N) ltac:(lia)))).
  exists st5, (S (S N)). split_and!; [exact Hrun| |].
  - by rewrite (deref_ref _ _ _ _ Ho5), (deref_dict_set _ _ _ _ _ _ _ Hl5' (deref_dict_merge _ _ _ _ _ _ Hd05 Hdc5)).
  - intros l' d' Hl'. by apply Ag0; [set_solver|].
Qed.

(** A non-empty well-formed dict object reads as a non-empty
    well-formed dict with the same keys. *)
Lemma deref_dict_wf_ne fuel st dE e :
  deref_dict fuel st dE = Some e -> dE <> [] -> dict_wf dE -> dict_wf e /\ e <> [].
Proof.
  intros HdE Hne Hwf. pose proof (deref_dict_keys _ _ _ _ HdE) as Hk. split.
  - unfold dict_wf. by rewrite Hk.
  - intros ->. apply Hne. by destruct dE.
Qed.

(** The 2xx branch of both models when [extra] is false or a dict object
    without the links key and the converter returns a dict without it. *)
(** The object [output] of the 2xx branch once [output.update(extra)]
    has run: a new object [next st] of [st2] holding [d0], read in [st] as
    the dict [e0] that the value model's first [output.update] builds,
    neither of them with the links key. *)
Definition output_init (self : response) (n : nat) (st st2 : store) (d0 : list (string * hval)) (e0 : dict) : Prop :=
  store_wf st2 /\ store_ext st st2 /\ objs st !! next st = None /\ objs st2 !! next st = Some d0 /\
  deref_dict n st d0 = Some e0 /\ dict_contains (links_key self) d0 = false /\
  dict_contains (links_key self) e0 = false /\ py_update [] (or_empty_dict (extra self)) = Ok e0.

(** [extra] a true dict object [E]: [output] is a copy of its entries. *)
Lemma output_init_dict (self : response) E dE n st :
  store_wf st -> deref n st (HRef E) = Some (extra self) -> h_truthy st (HRef E) = true ->
  objs st !! E = Some dE -> dict_contains (links_key self) dE = false ->
  exists e0, output_init self n st (write (next st) (dict_merge [] dE) (alloc [] st).2) (dict_merge [] dE) e0.
Proof.
  intros Hwf Hex Htr HE HlkE. pose proof (h_truthy_deref _ _ _ _ Hex) as Ht.
  destruct n as [|n']; [done|]. rewrite (deref_ref _ _ _ _ HE) in Hex.
  destruct (deref_dict n' st dE) as [e|] eqn:HdE'; [|done]. injection Hex as Hex.
  assert (Hlke : dict_contains (links_key self) e = false)
    by (rewrite <- HlkE; by apply dict_contains_keys, deref_dict_keys with n' st).
  destruct (alloc_write st (dict_merge [] dE) Hwf) as (Hwf2 & Hext2 & Ho2 & Ho).
  exists (dict_merge [] e). split_and!; try done.
  - apply (deref_dict_merge _ _ [] dE [] e eq_refl). apply (deref_dict_frame_mono [] n' _ st); [|set_solver|lia|done].
    apply agree_except_refl.
  - by rewrite dict_contains_merge_notin.
  - by rewrite dict_contains_merge_notin.
  - unfold or_empty_dict. by rewrite <- Ht, Htr, <- Hex.
Qed.

(** [extra] false: [output] is an empty object. *)
Lemma output_init_empty (self : response) n st :
  store_wf st -> py_truthy (extra self) = false ->
  output_init self n st (write (next st) [] (alloc [] (alloc [] st).2).2) [] [].
Proof.
  intros Hwf Ht. destruct (alloc2_write st Hwf) as (Hwf2 & Hext2 & Ho2 & Ho).
  split_and!; try done; try (by destruct n); unfold or_empty_dict; by rewrite Ht.
Qed.

(** The rest of the 2xx branch, from the converter on, in both models:
    the store model returns an object that reads as the value model's
    payload, or raises the value model's exception. *)
Lemma serialize_tail_refines (self : response) hd d representation n st st2 d0 e0 :
  converter_coherent -> converter_errors_coherent -> output_init self n st st2 d0 e0 ->
  deref n st hd = Some d ->
  (forall c, resource_convert (Context.resource (context self)) (context self) d representation = Ok c ->
     exists cd, c = PDict cd /\ dict_contains (links_key self) cd = false) ->
  match (converted <- resource_convert (Context.resource (context self)) (context self) d representation ;;
         output <- py_update e0 converted ;;
         output <- _add_links self output d representation ;;
         Ok (PDict output)) with
  | Ok v => exists o st' m,
      (r <- hconvert (Context.resource (context self)) (context self) hd representation st2 ;;
       let '(converted, st3) := r in
       st4 <- h_update (next st) converted st3 ;;
       st5 <- _add_links_h self (next st) representation st4 ;;
       Ok (HRef (next st), st5)) = Ok (o, st') /\ deref m st' o = Some v /\ store_ext st st'
  | Raise ex =>
      (r <- hconvert (Context.resource (context self)) (context self) hd representation st2 ;;
       let '(converted, st3) := r in
       st4 <- h_update (next st) converted st3 ;;
       st5 <- _add_links_h self (next st) representation st4 ;;
       Ok (HRef (next st), st5)) = Raise ex
  end.
Proof.
  intros Hcoh Herr (Hwf2 & Hext2 & Ho & Ho2 & Hd0 & Hlk0 & Hlke & _) Hd Hconvs.
  destruct (resource_convert _ _ d representation) as [cv|ex0] eqn:Hcv.
  - destruct (Hconvs cv eq_refl) as (c & -> & Hc).
    assert (Hup : py_update e0 (PDict c) = Ok (dict_merge e0 c)) by reflexivity.
    assert (Hlkm : dict_contains (links_key self) (dict_merge e0 c) = false) by (by rewrite dict_contains_merge_notin).
    rewrite rbind_Ok, Hup, rbind_Ok. cbv beta.
    destruct (_serialize_links self PNone representation) as [links|ex1] eqn:Hl.
    + rewrite (_add_links_fresh _ _ _ _ links), rbind_Ok by done. cbv beta iota.
      destruct (fresh_output_refines self (next st) d0 e0 hd d representation c links n st st2
                  Hcoh Hwf2 Hext2 Ho Ho2 Hd0 Hlk0 Hd Hcv Hc Hl) as (st' & m & Hrun & Hread & Hext).
      do 3 eexists. split_and!; [exact Hrun|exact Hread|exact Hext].
    + rewrite (_add_links_fresh_raise _ _ _ _ ex1), rbind_Raise by done. cbv iota.
      destruct (converter_call_read self hd d representation c n st st2 Hcoh Hwf2 Hext2 Hd Hcv Hc)
        as (cl & dc & st3 & m' & Hcvh & _ & Hext3 & Hcl & _ & Hlkc & _).
      exact (serialize_h_tail_raise self (next st) d0 hd representation ex1 st2 cl dc st3 Ho2 Hlk0 Hl Hcvh Hext3 Hcl Hlkc).
  - rewrite rbind_Raise. cbv iota.
    assert (Hd2 : deref n st2 hd = Some d)
      by (apply (deref_frame_mono [] n n st st2); [by apply store_ext_agree|set_solver|lia|done]).
    by rewrite (Herr _ _ _ _ _ _ _ _ Hwf2 Hd2 Hcv), rbind_Raise.
Qed.

(** C30 (refinement): the store model of [Response.serialize] refines
    the value model on every branch, errors included, when [extra] is
    false ([None], [{}]) or a dict object without the links key, the data
    [hd] reads as [d] and the converter, coherent with the value model's
    on results and on errors, returns dicts without the links key:
    whenever the value model returns a payload, the store model returns
    an object that reads back as that payload (the empty string, the data
    itself for a non-2xx status, or the converted dict with its links) and
    every object of the caller is kept as it was; whenever the value
    model raises (in the converter or in [_serialize_links]), the store
    model raises the same exception. *)
Theorem serialize_store_refines_fresh (self : response) (hex hd : hval) (d : pyval) (representation : string)
    (n : nat) (st : store) (r : result pyval) :
  converter_coherent -> converter_errors_coherent -> store_wf st -> deref n st hex = Some (extra self) ->
  (h_truthy st hex = false \/ exists E dE, hex = HRef E /\ objs st !! E = Some dE /\
                                           dict_contains (links_key self) dE = false) ->
  deref n st hd = Some d ->
  (forall c, resource_convert (Context.resource (context self)) (context self) d representation = Ok c ->
     exists cd, c = PDict cd /\ dict_contains (links_key self) cd = false) ->
  Response_serialize self d representation = r ->
  match r with
  | Ok v => exists o st' m, Response_serialize_h self hex hd representation st = Ok (o, st') /\
              deref m st' o = Some v /\ store_ext st st'
  | Raise ex => Response_serialize_h self hex hd representation st = Raise ex
  end.
Proof.
  intros Hcoh Herr Hwf Hex Hcases Hd Hconvs <-.
  pose proof (h_truthy_deref _ _ _ _ Hex) as Ht. pose proof (deref_is_none _ _ _ _ Hd) as Hn.
  destruct (is_none d && negb (py_truthy (extra self))) eqn:E0.
  { unfold Response_serialize, Response_serialize_h. rewrite Hn, Ht, E0.
    exists (HStr ""), st, 1. split_and!; [done|done|apply store_ext_refl]. }
  destruct ((200 <=? status self)%Z && (status self <? 300)%Z) eqn:E1.
  2:{ unfold Response_serialize, Response_serialize_h. rewrite Hn, Ht, E0, E1.
      exists hd, st, n. split_and!; [done|done|apply store_ext_refl]. }
  assert (Hst : (200 <= status self < 300)%Z) by (apply is_success_iff; exact E1).
  destruct (h_truthy st hex) eqn:Htr.
  - destruct Hcases as [?|(E & dE & -> & HE & HlkE)]; [discriminate|].
    assert (HdE : dE <> []) by (intros ->; cbn [h_truthy] in Htr; by rewrite HE in Htr).
    destruct (output_init_dict self E dE n st Hwf Hex Htr HE HlkE) as [e0 Hinit].
    pose proof Hinit as (_ & _ & _ & _ & _ & _ & _ & Hu).
    rewrite (Response_serialize_2xx_split self d representation e0 Hst E0 Hu).
    rewrite (Response_serialize_h_2xx self E dE hd representation st Hwf Hst HE HdE).
    exact (serialize_tail_refines self hd d representation n st _ _ e0 Hcoh Herr Hinit Hd Hconvs).
  - pose proof (output_init_empty self n st Hwf (eq_sym Ht)) as Hinit.
    pose proof Hinit as (_ & _ & _ & _ & _ & _ & _ & Hu).
    rewrite (Response_serialize_2xx_split self d representation [] Hst E0 Hu).
    rewrite (Response_serialize_h_2xx_noextra self hex hd representation st Hwf Hst) by
      (first [exact Htr|rewrite Hn; destruct (is_none d), (py_truthy (extra self)); cbn in E0, Ht; congruence]).
    exact (serialize_tail_refines self hd d representation n st _ _ [] Hcoh Herr Hinit Hd Hconvs).
Qed.

(** C26 (refinement): the store model of [Response.serialize] refines
    the value model.  On a 2xx response whose [extra] is a dict object [E]
    (read as [e]) holding at [links_key] a dict [X] that is referenced
    only from there, with data [hd] read as [d] that does not reach [X],
    and a converter coherent with the value model's that returns a dict
    without the links key, both models return, and the output object reads
    back as the payload of the value model. *)
Theorem serialize_store_refines (self : response) (E X : positive) (dE dX : list (string * hval))
    (e : dict) (hd : hval) (d : pyval) (representation : string) (c links : dict) (n : nat) (st : store) :
  converter_coherent -> store_wf st -> (200 <= status self < 300)%Z ->
  extra self = PDict e -> objs st !! E = Some dE -> deref_dict n st dE = Some e -> dE <> [] -> dict_wf dE ->
  dict_get (links_key self) dE = Some (HRef X) -> objs st !! X = Some dX ->
  (forall k v, (k, v) ∈ dE -> k <> links_key self -> X ∉ reach n st v) ->
  (forall k v, (k, v) ∈ dX -> X ∉ reach n st v) ->
  deref n st hd = Some d -> X ∉ reach n st hd ->
  resource_convert (Context.resource (context self)) (context self) d representation = Ok (PDict c) ->
  dict_contains (links_key self) c = false ->
  _serialize_links self PNone representation = Ok links ->
  exists o st' m v, Response_serialize_h self (HRef E) hd representation st = Ok (HRef o, st') /\
    Response_serialize self d representation = Ok v /\ deref m st' (HRef o) = Some v.
Proof.
  intros Hcoh Hwf Hst Hex HE HdE Hne HwfE HlkE HX HshE HshX Hd HXd Hconv Hc Hlinks.
  set (lk := links_key self) in *.
  (* [extra[links_key]] reads as [existing] *)
  destruct (extra_links_read n st dE e lk X dX HdE HlkE HX) as (n' & existing & -> & HdX & Hlke).
  (* the output object [o] and the converter's call *)
  destruct (output_converter_call self dE hd d representation c (S n') st Hcoh Hwf Hd Hconv Hc)
    as (Hwf2 & Hext2 & Ho2 & Ho & cl & dc & st3 & m' & Hcv & Hwf3 & Hext3 & Hcl & Hdc & Hlkc & Hreach).
  set (o := next st) in *. set (st2 := write o (dict_merge [] dE) (alloc [] st).2) in *.
  destruct (Response_serialize_h_run self E X dE dX hd representation links st cl dc st3)
    as (L & dL & stl & Halloc & HL & _ & Hrun); try done.
  change (next st) with o in Halloc, Hrun.
  (* the links dict, read back, and what the final store keeps *)
  destruct (shared_links_phase st3 o (dict_merge (dict_merge [] dE) dc) X dX links L dL stl)
    as (k' & HdL & HXL & Ag3 & Ho5); try done; [by rewrite (Hext3 _ _ Ho2)|congruence|by apply Hext3, Hext2|].
  set (st5 := write X (dict_merge dX dL) stl) in *. set (N := max n' (max k' m')).
  assert (Ag0 : agree_except [X] st st5).
  { apply (agree_except_drop o); [done|]. apply (agree_except_ext_l _ _ st3); [|done].
    by apply (store_ext_trans _ st2). }
  (* the entries of [extra] (the links entry updated) and of the converted dict *)
  assert (HdE5 : deref_dict (S N) st5 dE = Some (dict_set lk (PDict (dict_merge existing links)) e)).
  { apply (deref_dict_update (S n') (S N) st st5 lk (HRef X)); try done.
    - apply (links_entry_read st stl X dX dL L existing links n' k' N); try done; lia.
    - intros k0 v0 Hin Hk0 w Hw. apply (deref_frame_mono [X] (S n') (S N) st st5 v0 w Ag0); [|lia|done].
      intros l Hl. assert (l <> X) by (intros ->; by apply (HshE k0 v0)). set_solver. }
  assert (HLs : forall l, l ∈ [o; X] ->
            is_Some (objs st2 !! l) /\ (objs st !! l = None \/ l ∉ reach (S n') st hd)).
  { intros l Hl. rewrite elem_of_cons, list_elem_of_singleton in Hl.
    destruct Hl as [->| ->]; split; [by rewrite Ho2|by left|by rewrite (Hext2 _ _ HX)|by right]. }
  assert (Hdc5 : deref_dict (S N) st5 dc = Some c)
    by (apply (converted_entries_read [o; X] st st2 st3 st5 hd d (S n') cl dc c m'); first [done|lia]).
  (* the output object reads as the value model's payload *)
  destruct (deref_dict_wf_ne _ _ _ _ HdE Hne HwfE) as [HwfE' Hne'].
  eexists o, st5, (S (S N)), _. split_and!; [exact Hrun|
    by rewrite (Response_serialize_links_in_extra self d representation e existing c links)|].
  apply (merged_output_read _ _ _ dE dc); try done. apply dict_contains_get. fold lk. by rewrite Hlke.
Qed.

(** [map(convert, items)] with a coherent converter: the converted
    objects read as the value model's converted items. *)
Lemma hmapM_coherent (self : response) representation xs ys cs n st :
  converter_coherent -> store_wf st -> mapM (deref n st) xs = Some ys ->
  rmapM (fun x => resource_convert (Context.resource (context self)) (context self) x representation) ys = Ok cs ->
  exists hs st' m,
    hmapM (fun x st => hconvert (Context.resource (context self)) (context self) x representation st) xs st =
      Ok (hs, st') /\ store_wf st' /\ store_ext st st' /\ mapM (deref m st') hs = Some cs /\
    forall l, l ∈ reach (S m) st' (HList hs) -> (exists x, x ∈ xs /\ l ∈ reach n st x) \/ objs st !! l = None.
Proof.
  intros Hcoh. revert ys cs st. induction xs as [|x xs IH]; intros ys cs st Hwf Hxs Hcs.
  - injection Hxs as <-. injection Hcs as <-. exists [], st, 0.
    split_and!; [done|done|apply store_ext_refl|done|]. intros l Hl. by apply elem_of_nil in Hl.
  - pose proof Hxs as Hxs0. apply mapM_Some in Hxs. inversion Hxs as [|? y ? ys' Hx Hxs']; subst. apply mapM_Some in Hxs'.
    cbn [rmapM] in Hcs. destruct (resource_convert _ _ y _) as [c|] eqn:Hc; [|done]. rewrite rbind_Ok in Hcs.
    destruct (rmapM _ ys') as [cs'|] eqn:Hcs'; [|done]. injection Hcs as <-.
    destruct (Hcoh _ _ x y representation st n c Hwf Hx Hc) as (hv & st1 & m1 & Hcv & Hwf1 & Hext1 & Hread & Hr1).
    destruct (IH ys' cs' st1 Hwf1 (mapM_deref_lift n n st st1 xs ys' Hxs' Hext1 (le_n n)) Hcs')
      as (hs & st2 & m2 & Hmap & Hwf2 & Hext2 & Hread2 & Hr2).
    exists (hv :: hs), st2, (max m1 m2). cbn [hmapM]. rewrite Hcv, rbind_Ok, Hmap, rbind_Ok.
    split_and!; [done|done|by apply (store_ext_trans _ st1)| |].
    + apply mapM_Some. constructor.
      * apply (deref_lift m1 _ st1); [done|done|lia].
      * apply mapM_Some, (mapM_deref_lift m2 _ st2); [done|apply store_ext_refl|lia].
    + intros l Hl. cbn [reach] in Hl. apply list_elem_of_bind in Hl as (h & Hl & [->|Hh]%elem_of_cons).
      * rewrite (reach_lift m1 _ st1 st2 hv c Hread Hext2) in Hl by lia.
        destruct (Hr1 l Hl) as [?|?]; [left; exists x; split; [apply list_elem_of_here|done]|by right].
      * destruct (mapM_Some_elem _ _ _ _ Hread2 Hh) as [w Hw].
        rewrite (reach_lift m2 _ st2 st2 h w Hw (store_ext_refl _)) in Hl by lia.
        destruct (Hr2 l ltac:(cbn [reach]; apply list_elem_of_bind; eauto)) as [(x' & Hx' & Hl')|Hn];
          [left|right; by apply (ext_none _ st1)].
        destruct (mapM_Some_elem _ _ _ _ Hxs' Hx') as [w' Hw'].
        exists x'. split; [by apply list_elem_of_further|]. by rewrite <- (reach_lift n n st st1 x' w').
Qed.

(** The total of the envelope: [self.totalCount], or [len(iterable)]
    when it is [None], read as the value model's. *)
Lemma total_read thc tc hit it t n st st3 :
  deref n st thc = Some tc -> deref n st hit = Some it -> store_ext st st3 ->
  (if is_none tc then k <- py_len it ;; Ok (PInt k) else Ok tc) = Ok t ->
  exists th, (if h_is_none thc then k <- h_len st3 hit ;; Ok (HInt k) else Ok thc) = Ok th /\
    deref (S n) st3 th = Some t /\ forall l, l ∈ reach (S n) st3 th -> l ∈ reach n st thc.
Proof.
  intros Hthc Hhit Hext Htot. rewrite (deref_is_none _ _ _ _ Hthc).
  rewrite (h_len_deref (S n) st3 hit it) by (apply (deref_lift n _ st); [done|done|lia]).
  destruct (is_none tc).
  - destruct (py_len it) as [k|]; [|done]. injection Htot as <-. eexists. split_and!; [done|done|].
    intros l Hl. by apply elem_of_nil in Hl.
  - injection Htot as <-. eexists. split_and!; [done|apply (deref_lift n _ st); [done|done|lia]|].
    intros l. rewrite (reach_lift n (S n) st st3 thc tc Hthc Hext) by lia. done.
Qed.

(** The envelope [{key: items, 'totalCount': total}] reads as the value
    model's after writes to objects [L] that its entries do not visit. *)
Lemma envelope_read L st3 st5 key hs cs th t m n N :
  agree_except L st3 st5 -> mapM (deref m st3) hs = Some cs -> deref n st3 th = Some t ->
  (forall l, l ∈ L -> (l ∉ reach (S m) st3 (HList hs)) /\ (l ∉ reach n st3 th)) -> m <= N -> n <= S N ->
  deref_dict (S N) st5 (dict_set "totalCount" th (dict_set key (HList hs) [])) =
    Some (dict_set "totalCount" t (dict_set key (PList cs) [])).
Proof.
  intros Ag Hhs Hth HL Hm Hn. apply deref_dict_set.
  - apply (deref_frame_mono L n _ st3); [done| |done|done]. intros l Hl Hin. exact (proj2 (HL l Hin) Hl).
  - apply (deref_dict_set _ _ _ _ _ [] []); [|done]. apply (deref_frame_mono L (S m) _ st3); [done| |lia|].
    + intros l Hl Hin. exact (proj1 (HL l Hin) Hl).
    + cbn [deref]. by rewrite Hhs.
Qed.

(** The objects [o] (new) and [X] (the caller's links dict), written
    after the items and the total were read, are visited by neither. *)
Lemma envelope_avoid o X st st3 hs cs th t m n1 n (xs : list hval) hit thc :
  objs st3 !! o = None -> is_Some (objs st !! X) -> mapM (deref m st3) hs = Some cs -> deref (S n) st3 th = Some t ->
  (forall l, l ∈ reach (S m) st3 (HList hs) -> (exists x, x ∈ xs /\ l ∈ reach n1 st x) \/ objs st !! l = None) ->
  (forall y l, y ∈ xs -> l ∈ reach n1 st y -> l ∈ reach n st hit) -> X ∉ reach n st hit ->
  (forall l, l ∈ reach (S n) st3 th -> l ∈ reach n st thc) -> X ∉ reach n st thc ->
  forall l, l ∈ [o; X] -> (l ∉ reach (S m) st3 (HList hs)) /\ (l ∉ reach (S n) st3 th).
Proof.
  intros Ho [dX HX] Hhs Hth Hhsr Hxr HXhit Hthr HXthc l Hl.
  assert (Hhs' : deref (S m) st3 (HList hs) = Some (PList cs)) by (cbn [deref]; by rewrite Hhs).
  rewrite elem_of_cons, list_elem_of_singleton in Hl. destruct Hl as [->| ->]; split; intros Hr.
  - destruct (reach_dom _ _ _ _ _ Hhs' Hr). congruence.
  - destruct (reach_dom _ _ _ _ _ Hth Hr). congruence.
  - destruct (Hhsr X Hr) as [(x & Hx & HXx)|?]; [apply HXhit; by apply (Hxr x)|congruence].
  - by apply HXthc, Hthr.
Qed.

(** C27 (refinement): the store model of [CollectionResponse.serialize]
    refines the value model when [extra] is a dict object [E] (read as
    [e]) holding at [links_key] a dict [X] referenced only from there, and
    neither the iterable nor [totalCount] reaches [X]: with a converter
    coherent with the value model's, both models return and the envelope,
    which takes the reference to [X] from [extra] and updates [X] in
    place, reads back as the value model's payload. *)
Theorem collection_store_refines (self : response) (key : string) (thc hit : hval) (tc it : pyval)
    (E X : positive) (dE dX : list (string * hval)) (e : dict) (representation : string) (ys cs : list pyval)
    (t : pyval) (links : dict) (n : nat) (st : store) :
  converter_coherent -> store_wf st ->
  extra self = PDict e -> objs st !! E = Some dE -> deref_dict n st dE = Some e -> dE <> [] -> dict_wf dE ->
  dict_get (links_key self) dE = Some (HRef X) -> objs st !! X = Some dX ->
  (forall k v, (k, v) ∈ dE -> k <> links_key self -> X ∉ reach n st v) ->
  (forall k v, (k, v) ∈ dX -> X ∉ reach n st v) ->
  deref n st hit = Some it -> X ∉ reach n st hit -> deref n st thc = Some tc -> X ∉ reach n st thc ->
  py_iter it = Ok ys ->
  rmapM (fun x => resource_convert (Context.resource (context self)) (context self) x representation) ys = Ok cs ->
  (if is_none tc then k <- py_len it ;; Ok (PInt k) else Ok tc) = Ok t ->
  _serialize_links self PNone representation = Ok links ->
  exists o st' m v, CollectionResponse_serialize_h self key thc (HRef E) hit representation st = Ok (HRef o, st') /\
    CollectionResponse_serialize self key tc it representation = Ok v /\ deref m st' (HRef o) = Some v.
Proof.
  intros Hcoh Hwf Hex HE HdE Hne HwfE HlkE HX HshE HshX Hhit HXhit Hthc HXthc Hiter Hcs Htot Hlinks.
  set (lk := links_key self) in *.
  destruct (extra_links_read n st dE e lk X dX HdE HlkE HX) as (n' & existing & -> & HdX & Hlke).
  (* the items, converted one by one, and the total *)
  destruct (h_iter_deref (S n') st hit it ys Hhit Hiter) as (xs & n1 & Hxs_it & Hxs & Hxr).
  destruct (hmapM_coherent self representation xs ys cs n1 st Hcoh Hwf Hxs Hcs)
    as (hs & st3 & m & Hmap & Hwf3 & Hext3 & Hhs & Hhsr).
  destruct (total_read thc tc hit it t (S n') st st3 Hthc Hhit Hext3 Htot) as (th & Htot_h & Hth & Hthr).
  destruct (CollectionResponse_serialize_h_run self key thc E X dE dX hit xs hs th representation links st st3)
    as (L & dL & stl & Halloc & HL & _ & Hrun); try done.
  set (env := dict_set "totalCount" th (dict_set key (HList hs) [])) in *.
  destruct (alloc_spec env st3 Hwf3) as (Hwf4 & Hext4 & Ho4 & Ho3).
  set (o := next st3) in *. set (st4 := (alloc env st3).2) in *. change (alloc env st3).1 with o in Ho4, Ho3.
  assert (HoX : o <> X) by (intros Heq; rewrite Heq, (Hext3 _ _ HX) in Ho3; discriminate).
  (* the links dict, read back, and what the final store keeps *)
  destruct (shared_links_phase st4 o (dict_merge env dE) X dX links L dL stl Hwf4 ltac:(eexists; exact Ho4) HoX
              ltac:(auto) Halloc HL) as (k' & HdL & HXL & Ag4 & Ho5).
  set (st5 := write X (dict_merge dX dL) stl) in *. set (N := S (n' + k' + m)).
  assert (Ag0 : agree_except [X] st st5).
  { apply (agree_except_drop o); [by apply (ext_none st st3)|]. apply (agree_except_ext_l _ _ st4); [|done].
    by apply (store_ext_trans _ st3). }
  (* the entries of [extra] (the links entry updated) and of the envelope *)
  assert (HdE5 : deref_dict (S N) st5 dE = Some (dict_set lk (PDict (dict_merge existing links)) e)).
  { apply (deref_dict_update (S n') (S N) st st5 lk (HRef X)); try done.
    - apply (links_entry_read st stl X dX dL L existing links n' k' N); try done; lia.
    - intros k0 v0 Hin Hk0 w Hw. apply (deref_frame_mono [X] (S n') (S N) st st5 v0 w Ag0); [|lia|done].
      intros l Hl. assert (l <> X) by (intros ->; by apply (HshE k0 v0)). set_solver. }
  assert (Henv5 : deref_dict (S N) st5 env = Some (dict_set "totalCount" t (dict_set key (PList cs) []))).
  { apply (envelope_read [o; X] st3 st5 key hs cs th t m (S (S n')) N); [|done|done| |lia|lia].
    - apply (agree_except_ext_l _ _ st4); [done|exact Ag4].
    - by apply (envelope_avoid o X st st3 hs cs th t m n1 (S n') xs hit thc). }
  (* the envelope reads as the value model's payload *)
  destruct (deref_dict_wf_ne _ _ _ _ HdE Hne HwfE) as [HwfE' Hne'].
  eexists o, st5, (S (S N)), _. split_and!; [exact Hrun|
    by rewrite (CollectionResponse_serialize_links_in_extra self key tc it representation ys cs t e existing links)|].
  rewrite (deref_ref _ _ _ _ Ho5), (deref_dict_merge _ _ _ _ _ _ Henv5 HdE5).
  rewrite dict_merge_set_r; [done|done|]. apply dict_contains_get. by rewrite Hlke.
Qed.

(** The envelope [o], allocated after the items were converted in [st3]
    and updated with the entries [dX] of [extra] (read as [eX]), once
    [_add_links] gave it a new links dict: it reads as the value model's
    payload, and every object of [st] is kept. *)
Lemma envelope_fresh_refines (self : response) key o hs cs th t m n k dX eX links L dL stl st st3 stA :
  store_ext st st3 -> mapM (deref m st3) hs = Some cs -> deref (S n) st3 th = Some t ->
  store_wf stA -> store_ext st3 stA -> objs st3 !! o = None -> is_Some (objs stA !! o) ->
  deref_dict k st dX = Some eX ->
  let env := dict_set "totalCount" th (dict_set key (HList hs) []) in
  alloc_py (PDict links) (write o (dict_set (links_key self) (HRef (next stA)) (dict_merge env dX))
                           (alloc [] (write o (dict_merge env dX) stA)).2) = (HRef L, stl) ->
  objs stl !! L = Some dL ->
  exists m', deref m' (write (next stA) (dict_merge [] dL) stl) (HRef o) =
      Some (PDict (dict_set (links_key self) (PDict (dict_merge [] links))
                   (dict_merge (dict_set "totalCount" t (dict_set key (PList cs) [])) eX))) /\
    store_ext st (write (next stA) (dict_merge [] dL) stl).
Proof.
  intros Hext3 Hhs Hth HwfA HextA Ho3 HoA HdX env Halloc HL.
  destruct (fresh_links_phase stA o (dict_merge env dX) (links_key self) links L dL stl HwfA HoA Halloc HL)
    as (k' & Ag4 & Ho5 & Hl5).
  set (st5 := write (next stA) (dict_merge [] dL) stl) in *.
  assert (Hext5 : store_ext st3 st5) by (by apply (store_ext_except_fresh st3 stA st5 o)).
  set (N := n + m + k + k').
  assert (HdX5 : deref_dict (S N) st5 dX = Some eX).
  { apply (deref_dict_lift k _ st); [|done]. intros k0 v _ y Hy.
    apply (deref_lift k _ st); [done|by apply (store_ext_trans _ st3)|lia]. }
  assert (Henv5 : deref_dict (S N) st5 env = Some (dict_set "totalCount" t (dict_set key (PList cs) [])))
    by (apply (envelope_read [] st3 st5 key hs cs th t m (S n) N); [by apply store_ext_agree|done|done|set_solver|lia|lia]).
  assert (Hl5' : deref (S N) st5 (HRef (next stA)) = Some (PDict (dict_merge [] links)))
    by (exact (proj1 (deref_mono _ _ _ _ Hl5 (S N) ltac:(lia)))).
  exists (S (S N)). split; [|by apply (store_ext_trans _ st3)].
  by rewrite (deref_ref _ _ _ _ Ho5), (deref_dict_set _ _ _ _ _ _ _ Hl5' (deref_dict_merge _ _ _ _ _ _ Henv5 HdX5)).
Qed.

(** C31 (refinement): the store model of [CollectionResponse.serialize]
    refines the value model when [extra] is false ([None], [{}]) or a
    dict object without the links key, and neither the collection key nor
    ["totalCount"] is the links key: with the iterable and [totalCount]
    read as [it] and [tc] and a converter coherent with the value model's,
    both models return, the envelope reads back as the value model's
    payload, and every object of the caller is kept as it was. *)
Theorem collection_store_refines_fresh (self : response) (key : string) (thc hit hex : hval) (tc it : pyval)
    (representation : string) (ys cs : list pyval) (t : pyval) (links : dict) (n : nat) (st : store) :
  converter_coherent -> store_wf st -> deref n st hex = Some (extra self) ->
  (h_truthy st hex = false \/ exists E dE, hex = HRef E /\ objs st !! E = Some dE /\ dict_wf dE /\
                                           dict_contains (links_key self) dE = false) ->
  links_key self <> key -> links_key self <> "totalCount" ->
  deref n st hit = Some it -> deref n st thc = Some tc -> py_iter it = Ok ys ->
  rmapM (fun x => resource_convert (Context.resource (context self)) (context self) x representation) ys = Ok cs ->
  (if is_none tc then k <- py_len it ;; Ok (PInt k) else Ok tc) = Ok t ->
  _serialize_links self PNone representation = Ok links ->
  exists o st' m v, CollectionResponse_serialize_h self key thc hex hit representation st = Ok (HRef o, st') /\
    CollectionResponse_serialize self key tc it representation = Ok v /\
    deref m st' (HRef o) = Some v /\ store_ext st st'.
Proof.
  intros Hcoh Hwf Hex Hcases Hkey Htc Hhit Hthc Hiter Hcs Htot Hlinks.
  (* the items, converted one by one, and the total *)
  destruct (h_iter_deref n st hit it ys Hhit Hiter) as (xs & n1 & Hxs_it & Hxs & _).
  destruct (hmapM_coherent self representation xs ys cs n1 st Hcoh Hwf Hxs Hcs)
    as (hs & st3 & m & Hmap & Hwf3 & Hext3 & Hhs & _).
  destruct (total_read thc tc hit it t n st st3 Hthc Hhit Hext3 Htot) as (th & Htot_h & Hth & _).
  set (env := dict_set "totalCount" th (dict_set key (HList hs) [])).
  destruct (alloc_spec env st3 Hwf3) as (HwfA & HextA & HoA & Ho3). change (alloc env st3).1 with (next st3) in HoA, Ho3.
  pose proof (h_truthy_deref _ _ _ _ Hex) as Ht. destruct (h_truthy st hex) eqn:Htr.
  - (* [extra] a non-empty dict object *)
    destruct Hcases as [?|(E & dE & -> & HE & HwfE & HlkE)]; [discriminate|].
    assert (HdE : dE <> []) by (intros ->; cbn [h_truthy] in Htr; by rewrite HE in Htr).
    destruct n as [|n']; [done|]. rewrite (deref_ref _ _ _ _ HE) in Hex.
    destruct (deref_dict n' st dE) as [e|] eqn:HdE'; [|done]. injection Hex as Hex.
    assert (Hlke : dict_contains (links_key self) e = false)
      by (rewrite <- HlkE; by apply dict_contains_keys, deref_dict_keys with n' st).
    destruct (CollectionResponse_serialize_h_run_fresh self key thc E dE hit xs hs th representation links st st3)
      as (L & dL & stl & Halloc & HL & Hrun); try done.
    destruct (envelope_fresh_refines self key (next st3) hs cs th t m (S n') n' dE e links L dL stl st st3 _
                Hext3 Hhs Hth HwfA HextA Ho3 ltac:(by eexists) HdE' Halloc HL) as (m' & Hread & Hext').
    eexists _, _, m', _. split_and!; [exact Hrun| |exact Hread|exact Hext'].
    destruct (deref_dict_wf_ne _ _ _ _ HdE' HdE HwfE) as [_ Hne].
    by apply (CollectionResponse_serialize_fresh self key tc it representation ys cs t e links).
  - (* a false [extra] *)
    destruct (CollectionResponse_serialize_h_run_noextra self key thc hex hit xs hs th representation links st st3)
      as (L & dL & stl & Halloc & HL & Hrun); try done.
    destruct (alloc_spec [] _ HwfA) as (HwfB & HextB & _ & _).
    destruct (envelope_fresh_refines self key (next st3) hs cs th t m n 0 [] [] links L dL stl st st3 _
                Hext3 Hhs Hth HwfB (store_ext_trans _ _ _ HextA HextB) Ho3 ltac:(eexists; by apply HextB) eq_refl Halloc HL)
      as (m' & Hread & Hext').
    eexists _, _, m', _. split_and!; [exact Hrun| |exact Hread|exact Hext'].
    by apply CollectionResponse_serialize_noextra with ys.
Qed.

End StoreSide.

(** ** A converter coherent with the value model's demo converter *)

#[local] Existing Instance demo_registry.
#[local] Existing Instance demo_http_date.

(** [demo_registry]'s converter on objects: a dict is returned as it is,
    any other value is wrapped in a new dict [{"value": data}]. *)
#[local] Instance demo_hconvert_dict : HeapConverter := {|
  hconvert := fun _ _ v _ st =>
    match v with
    | HRef _ => Ok (v, st)
    | _ => let '(l, st) := alloc [("value", v)] st in Ok (HRef l, st)
    end
|}.

Definition demo_extra_response : response :=
  Response_new demo_context_params PNone 200 None None (PDict [("_links", PDict [])]) (PBool true) "_links".

Lemma deref_not_ref_not_dict fuel st v d :
  deref fuel st v = Some d -> (forall l, v <> HRef l) -> forall c, d <> PDict c.
Proof.
  intros Hv Hnr c ->. destruct (deref_PDict_inv _ _ _ _ Hv) as (? & l & ? & _ & -> & _). by apply (Hnr l).
Qed.

Lemma deref_ref_dict fuel st l d : deref fuel st (HRef l) = Some d -> exists c, d = PDict c.
Proof.
  destruct fuel as [|fuel]; [done|]. simpl. destruct (objs st !! l); [|done].
  destruct (mapM _ _); simpl; [|done]. intros [= <-]. eauto.
Qed.

(** Wrapping data in a new dict [{"value": data}]. *)
Lemma wrap_alloc_coherent st n hd d :
  store_wf st -> deref n st hd = Some d ->
  exists hv st' m, (let '(l, st') := alloc [("value", hd)] st in Ok (HRef l, st')) = Ok (hv, st') /\
    store_wf st' /\ store_ext st st' /\ deref m st' hv = Some (PDict [("value", d)]) /\
    forall x, x ∈ reach m st' hv -> x ∈ reach n st hd \/ objs st !! x = None.
Proof.
  intros Hwf Hd. destruct (alloc_spec [("value", hd)] st Hwf) as (Hwf' & Hext & Hl & Hfresh).
  destruct (alloc [("value", hd)] st) as [l st'] eqn:E. cbn [fst snd] in *.
  assert (Hd' : deref n st' hd = Some d) by (apply (deref_frame [] n st); [by apply store_ext_agree|set_solver|done]).
  exists (HRef l), st', (S n). split_and!; [done|done|done| |].
  - rewrite (deref_ref _ _ _ _ Hl). by rewrite deref_dict_cons, Hd'.
  - intros x Hx. cbn [reach] in Hx. rewrite Hl in Hx. apply elem_of_cons in Hx as [->|Hx]; [by right|left].
    rewrite <- (reach_frame [] n st st' hd d); [|by apply store_ext_agree|set_solver|done].
    cbn [mbind list_bind] in Hx. simpl in Hx. by rewrite app_nil_r in Hx.
Qed.

Lemma demo_converter_coherent : converter_coherent.
Proof.
  intros r ctx hd d representation st n c Hwf Hd Hc. simpl in Hc.
  destruct hd as [| | | | | |l].
  7:{ destruct (deref_ref_dict _ _ _ _ Hd) as [kvs ->]. injection Hc as <-.
      exists (HRef l), st, n. split_and!; [done|done|apply store_ext_refl|done|by left]. }
  all: assert (Hc' : c = PDict [("value", d)])
         by (destruct d; try (exfalso; eapply deref_not_ref_not_dict; [exact Hd|by intros ?|reflexivity]);
             by injection Hc);
       subst c; exact (wrap_alloc_coherent st n _ d Hwf Hd).
Qed.

(** [demo_registry]'s converter never raises. *)
Lemma demo_converter_errors_coherent : converter_errors_coherent.
Proof. intros r ctx hd d representation st n ex _ _ Hc. simpl in Hc. by destruct d. Qed.

Lemma serialize_store_refines_witness :
  exists o st' m v,
    Response_serialize_h demo_extra_response (HRef 3) (HRef 1) "default" demo_store = Ok (HRef o, st') /\
    Response_serialize demo_extra_response (PDict [("name", PStr "ann")]) "default" = Ok v /\
    deref m st' (HRef o) = Some v.
Proof.
  apply (serialize_store_refines demo_extra_response 3 2 [("_links", HRef 2)] [] [("_links", PDict [])]
           (HRef 1) (PDict [("name", PStr "ann")]) "default" [("name", PStr "ann")]
           [("other", PDict [("uri", PStr "http://testserver/items"); ("method", PStr "POST")])] 3 demo_store).
  - exact demo_converter_coherent.
  - exact demo_store_wf.
  - simpl; lia.
  - reflexivity.
  - reflexivity.
  - reflexivity.
  - discriminate.
  - apply NoDup_singleton.
  - reflexivity.
  - reflexivity.
  - intros k v Hin Hk. apply list_elem_of_singleton in Hin. injection Hin as -> ->. done.
  - intros k v Hin. by apply elem_of_nil in Hin.
  - reflexivity.
  - vm_compute. set_solver.
  - reflexivity.
  - reflexivity.
  - vm_compute. reflexivity.
Defined.

Definition demo_fresh_response : response :=
  Response_new demo_context_params PNone 200 None None (PDict [("name", PStr "ann")]) (PBool true) "_links".
Definition demo_r_noextra : response :=
  Response_new demo_context_params PNone 200 None None PNone (PBool true) "_links".

Lemma serialize_store_refines_fresh_witness :
  exists o st' m,
    Response_serialize_h demo_fresh_response (HRef 1) (HInt 5) "default" demo_store = Ok (o, st') /\
    deref m st' o = Some (PDict [("name", PStr "ann"); ("value", PInt 5);
                                 ("_links", PDict [("other", PDict [("uri", PStr "http://testserver/items");
                                                                    ("method", PStr "POST")])])]) /\
    store_ext demo_store st'.
Proof.
  eapply (serialize_store_refines_fresh demo_fresh_response (HRef 1) (HInt 5) (PInt 5) "default" 2 demo_store (Ok _)).
  - exact demo_converter_coherent.
  - exact demo_converter_errors_coherent.
  - exact demo_store_wf.
  - reflexivity.
  - right. exists 1%positive, [("name", HStr "ann")]. split_and!; reflexivity.
  - reflexivity.
  - intros c Hc. vm_compute in Hc. injection Hc as <-. eexists. split; reflexivity.
  - vm_compute. reflexivity.
Defined.

Lemma serialize_store_refines_fresh_noextra_witness :
  exists o st' m,
    Response_serialize_h demo_r_noextra HNone (HInt 5) "default" demo_store = Ok (o, st') /\
    deref m st' o = Some (PDict [("value", PInt 5);
                                 ("_links", PDict [("other", PDict [("uri", PStr "http://testserver/items");
                                                                    ("method", PStr "POST")])])]) /\
    store_ext demo_store st'.
Proof.
  eapply (serialize_store_refines_fresh demo_r_noextra HNone (HInt 5) (PInt 5) "default" 2 demo_store (Ok _)).
  - exact demo_converter_coherent.
  - exact demo_converter_errors_coherent.
  - exact demo_store_wf.
  - reflexivity.
  - by left.
  - reflexivity.
  - intros c Hc. vm_compute in Hc. injection Hc as <-. eexists. split; reflexivity.
  - vm_compute. reflexivity.
Defined.

Lemma collection_store_refines_fresh_witness :
  exists o st' m v,
    CollectionResponse_serialize_h demo_fresh_response "items" HNone (HRef 1) (HList [HInt 1; HInt 2]) "default"
      demo_store = Ok (HRef o, st') /\
    CollectionResponse_serialize demo_fresh_response "items" PNone (PList [PInt 1; PInt 2]) "default" = Ok v /\
    deref m st' (HRef o) = Some v /\ store_ext demo_store st'.
Proof.
  apply (collection_store_refines_fresh demo_fresh_response "items" HNone (HList [HInt 1; HInt 2]) (HRef 1) PNone
           (PList [PInt 1; PInt 2]) "default" [PInt 1; PInt 2] [PDict [("value", PInt 1)]; PDict [("value", PInt 2)]]
           (PInt 2) [("other", PDict [("uri", PStr "http://testserver/items"); ("method", PStr "POST")])] 3 demo_store).
  - exact demo_converter_coherent.
  - exact demo_store_wf.
  - reflexivity.
  - right. exists 1%positive, [("name", HStr "ann")]. split_and!; [reflexivity|reflexivity|apply NoDup_singleton|reflexivity].
  - discriminate.
  - discriminate.
  - reflexivity.
  - reflexivity.
  - reflexivity.
  - reflexivity.
  - reflexivity.
  - vm_compute. reflexivity.
Defined.

Lemma collection_store_refines_noextra_witness :
  exists o st' m v,
    CollectionResponse_serialize_h demo_r_noextra "items" HNone HNone (HList [HInt 1; HInt 2]) "default"
      demo_store = Ok (HRef o, st') /\
    CollectionResponse_serialize demo_r_noextra "items" PNone (PList [PInt 1; PInt 2]) "default" = Ok v /\
    deref m st' (HRef o) = Some v /\ store_ext demo_store st'.
Proof.
  apply (collection_store_refines_fresh demo_r_noextra "items" HNone (HList [HInt 1; HInt 2]) HNone PNone
           (PList [PInt 1; PInt 2]) "default" [PInt 1; PInt 2] [PDict [("value", PInt 1)]; PDict [("value", PInt 2)]]
           (PInt 2) [("other", PDict [("uri", PStr "http://testserver/items"); ("method", PStr "POST")])] 3 demo_store).
  - exact demo_converter_coherent.
  - exact demo_store_wf.
  - reflexivity.
  - by left.
  - discriminate.
  - discriminate.
  - reflexivity.
  - reflexivity.
  - reflexivity.
  - reflexivity.
  - reflexivity.
  - vm_compute. reflexivity.
Defined.

Lemma collection_store_refines_witness :
  exists o st' m v,
    CollectionResponse_serialize_h demo_extra_response "items" HNone (HRef 3) (HList [HInt 1; HInt 2]) "default"
      demo_store = Ok (HRef o, st') /\
    CollectionResponse_serialize demo_extra_response "items" PNone (PList [PInt 1; PInt 2]) "default" = Ok v /\
    deref m st' (HRef o) = Some v.
Proof.
  apply (collection_store_refines demo_extra_response "items" HNone (HList [HInt 1; HInt 2]) PNone
           (PList [PInt 1; PInt 2]) 3 2 [("_links", HRef 2)] [] [("_links", PDict [])] "default"
           [PInt 1; PInt 2] [PDict [("value", PInt 1)]; PDict [("value", PInt 2)]] (PInt 2)
           [("other", PDict [("uri", PStr "http://testserver/items"); ("method", PStr "POST")])] 3 demo_store).
  - exact demo_converter_coherent.
  - exact demo_store_wf.
  - reflexivity.
  - reflexivity.
  - reflexivity.
  - discriminate.
  - apply NoDup_singleton.
  - reflexivity.
  - reflexivity.
  - intros k v Hin Hk. apply list_elem_of_singleton in Hin. injection Hin as -> ->. done.
  - intros k v Hin. by apply elem_of_nil in Hin.
  - reflexivity.
  - vm_compute. set_solver.
  - reflexivity.
  - vm_compute. set_solver.
  - reflexivity.
  - reflexivity.
  - reflexivity.
  - vm_compute. reflexivity.
Defined.

(** ** A converter that raises

    A registry whose converter accepts only dicts and raises [TypeError]
    on anything else, as a representation's converter may; its store
    counterpart returns dict objects as they are and raises the same
    error on any other value. *)

Section StrictConverter.

#[local] Instance demo_strict_registry : ResourceRegistry | 0.
Proof.
  refine {| resource_representations := fun _ => [];
            resource_convert := fun _ _ d _ =>
              match d with PDict _ => Ok d | _ => Raise (TypeError "not serializable") end;
            resource_links := fun _ => [];
            resource_uri := fun r _ _ => Ok r |}.
  intros r. constructor.
Defined.

#[local] Instance demo_strict_hconvert : HeapConverter | 0 := {|
  hconvert := fun _ _ v _ st =>
    match v with
    | HRef _ => Ok (v, st)
    | _ => Raise (TypeError "not serializable")
    end
|}.

Lemma strict_converter_coherent : converter_coherent.
Proof.
  intros r ctx hd d representation st n c Hwf Hd Hc. simpl in Hc.
  destruct hd as [| | | | | |l].
  7:{ destruct (deref_ref_dict _ _ _ _ Hd) as [kvs ->]. injection Hc as <-.
      exists (HRef l), st, n. split_and!; [done|done|apply store_ext_refl|done|by left]. }
  all: destruct d; try discriminate; exfalso; eapply deref_not_ref_not_dict; [exact Hd|by intros ?|reflexivity].
Qed.

Lemma strict_converter_errors_coherent : converter_errors_coherent.
Proof.
  intros r ctx hd d representation st n ex _ Hd Hc. simpl in Hc. simpl.
  destruct hd as [| | | | | |l]; try (destruct d; congruence).
  destruct (deref_ref_dict _ _ _ _ Hd) as [kvs ->]. discriminate.
Qed.

(** The error branch of C30: with the data [5], the converter raises and
    so does the store model. *)
Lemma serialize_store_refines_fresh_raise_witness :
  Response_serialize_h demo_fresh_response (HRef 1) (HInt 5) "default" demo_store =
    Raise (TypeError "not serializable").
Proof.
  apply (serialize_store_refines_fresh demo_fresh_response (HRef 1) (HInt 5) (PInt 5) "default" 2 demo_store
           (Raise (TypeError "not serializable"))).
  - exact strict_converter_coherent.
  - exact strict_converter_errors_coherent.
  - exact demo_store_wf.
  - reflexivity.
  - right. exists 1%positive, [("name", HStr "ann")]. split_and!; reflexivity.
  - reflexivity.
  - intros c Hc. vm_compute in Hc. discriminate.
  - vm_compute. reflexivity.
Defined.

End StrictConverter.

End Refinement.
